(** * The dashboard code-generation graph of vizro-ai

    A shallow embedding of
    [vizro-ai/src/vizro_ai/dashboard/graph/code_generation.py]:
    the [GraphState] model with its [check_dataframes] validator, the four
    stage functions ([_store_df_info], [_dashboard_plan], [_build_page],
    [_build_dashboard]), the fan-out function [_continue_to_pages] and the
    graph wired by [_create_and_compile_graph], together with the
    superstep loop that runs it. *)

From Stdlib Require Import NArith Ascii String List Permutation Lia.
From stdpp Require Import base option list countable gmap fin_maps fin_sets.

Open Scope N_scope.

(** ** Python strings

    A [str] is a sequence of Unicode code points.  The code points below 128
    are handled by the definitions of this file; what Python's Unicode
    tables say about the others is a parameter of the development. *)

Definition codepoint := N.
Abbreviation pystr := (list N).

(** A literal of the source, written as a Rocq string of ASCII characters. *)
Definition str (s : string) : pystr := List.map N_of_ascii (list_ascii_of_string s).

Definition is_ascii (c : codepoint) : bool := c <? 128.
Definition ascii_upper (c : codepoint) : bool := (65 <=? c) && (c <=? 90).
Definition ascii_lowercase (c : codepoint) : bool := (97 <=? c) && (c <=? 122).
Definition ascii_digit (c : codepoint) : bool := (48 <=? c) && (c <=? 57).
Definition ascii_alnum (c : codepoint) : bool :=
  is_ascii c && (ascii_lowercase c || ascii_upper c || ascii_digit c).
Definition underscore : codepoint := 95.
Definition newline : codepoint := 10.

(** What the interpreter's Unicode database contributes: the full lower-case
    mapping of a non-ASCII code point (one code point can lower to several,
    and the capital sigma lowers according to what stands before and after
    it), and the alphanumeric test behind [\w]. *)
Record UnicodeData := {
  uni_lower : pystr -> codepoint -> pystr -> pystr;
  uni_isalnum : codepoint -> bool
}.

(** The tables that leave every non-ASCII code point alone and count none
    of them as a word character. *)
Definition ascii_only : UnicodeData :=
  {| uni_lower := fun _ c _ => [c]; uni_isalnum := fun _ => false |}.

(** Tables that say what the interpreter's say about the code points 128
    to 255 and about the dotted capital I (one code point lowering to two):
    the Latin-1 capitals lower to their small letters; the Latin-1 letters,
    the ordinal indicators, the micro sign, the superscript digits and the
    vulgar fractions are alphanumeric.  Every other code point is left alone
    and counts as no word character. *)
Definition latin1_alnum (c : codepoint) : bool :=
  ((192 <=? c) && (c <=? 255) && negb (c =? 215) && negb (c =? 247))
  || (c =? 170) || (c =? 181) || (c =? 186)
  || (c =? 178) || (c =? 179) || (c =? 185)
  || ((188 <=? c) && (c <=? 190)).

Definition sample_tables : UnicodeData :=
  {| uni_lower := fun pre c post =>
       if ((192 <=? c) && (c <=? 222) && negb (c =? 215)) then [c + 32]
       else if c =? 304 then [105; 775]
       else [c];
     uni_isalnum := fun c => latin1_alnum c || (c =? 304) |}.

Section Strings.
Context (U : UnicodeData).

(** [str.lower()] *)
Definition lower_cp (pre : pystr) (c : codepoint) (post : pystr) : pystr :=
  if is_ascii c then [if ascii_upper c then c + 32 else c]
  else uni_lower U pre c post.

Fixpoint lower_from (pre : pystr) (s : pystr) : pystr :=
  match s with
  | [] => []
  | c :: post => lower_cp pre c post ++ lower_from (c :: pre) post
  end.

Definition lower (s : pystr) : pystr := lower_from [] s.

(** [\w]: alphanumeric or the underscore *)
Definition is_word (c : codepoint) : bool :=
  if is_ascii c
  then ascii_lowercase c || ascii_upper c || ascii_digit c || (c =? underscore)
  else uni_isalnum U c.

(** [re.sub(r"\W+", "_", s)]: every maximal run of non-word characters
    becomes one underscore.  [in_run] tells that the previous character
    was part of the run being replaced. *)
Fixpoint sub_nonword_from (in_run : bool) (s : pystr) : pystr :=
  match s with
  | [] => []
  | c :: rest =>
      if is_word c then c :: sub_nonword_from false rest
      else if in_run then sub_nonword_from true rest
      else underscore :: sub_nonword_from true rest
  end.

Definition re_sub_nonword (s : pystr) : pystr := sub_nonword_from false s.

(** [s.strip("_")] *)
Fixpoint lstrip_underscore (s : pystr) : pystr :=
  match s with
  | [] => []
  | c :: rest => if c =? underscore then lstrip_underscore rest else s
  end.

Definition rstrip_underscore (s : pystr) : pystr :=
  rev (lstrip_underscore (rev s)).

Definition strip_underscore (s : pystr) : pystr :=
  rstrip_underscore (lstrip_underscore s).

(** Lines 94-96 of the source: the identifier of a data frame name. *)
Definition clean_df_name (dataset_name : pystr) : pystr :=
  let cleaned_df_name := lower dataset_name in
  let cleaned_df_name := re_sub_nonword cleaned_df_name in
  strip_underscore cleaned_df_name.

End Strings.

(** What the development asks of the Unicode tables: a code point produced
    by lower-casing is left alone by lower-casing, wherever it stands. *)
Definition lower_stable (U : UnicodeData) : Prop :=
  forall pre c post d,
    is_ascii c = false ->
    In d (uni_lower U pre c post) ->
    forall pre' post', lower_cp U pre' d post' = [d].

(** [re.fullmatch]-style reading of [^[a-z0-9_]+$]: at least one character,
    all of them in the class; [$] also accepts one final newline. *)
Definition in_ident_class (c : codepoint) : bool :=
  ascii_lowercase c || ascii_digit c || (c =? underscore).

Definition all_in_class_nonempty (s : pystr) : bool :=
  match s with
  | [] => false
  | _ => forallb in_ident_class s
  end.

Definition matches_ident_pattern (s : pystr) : bool :=
  all_in_class_nonempty s
  || match rev s with
     | c :: body => (c =? newline) && all_in_class_nonempty (rev body)
     | [] => false
     end.

Definition starts_with_underscore (s : pystr) : bool :=
  match s with c :: _ => c =? underscore | [] => false end.
Definition ends_with_underscore (s : pystr) : bool :=
  starts_with_underscore (rev s).

(** ** Exceptions and results *)

Inductive exn :=
| ValueError (msg : string)
| IndexError (msg : string)
| AttributeError (msg : string)
| TypeError (msg : string)
| ValidationError (msg : string)
| ServiceError (msg : string)
| DashException (msg : string).

Inductive result (A : Type) :=
| Ok (a : A)
| Raise (e : exn).
Arguments Ok {A} a.
Arguments Raise {A} e.

Definition bind {A B} (r : result A) (k : A -> result B) : result B :=
  match r with
  | Ok a => k a
  | Raise e => Raise e
  end.

Notation "'do' x <- r ; k" := (bind r (fun x => k))
  (at level 10, x name, r at level 100, k at level 200).

Definition is_ok {A} (r : result A) : bool :=
  match r with Ok _ => true | Raise _ => false end.


(** ** The state model and the stage functions *)

Close Scope N_scope.

Section Graph.

(** Opaque to this module: pandas data frames, the page plans and pages of
    the planner and of vizro, and the language model handle. *)
Context {DataFrame PagePlanner Page LLM : Type}.

(** [Dict[str, str]]: column name to dtype. *)
Definition Schema := list (pystr * pystr).

(** [BaseMessage]: only [content] is read here. *)
Record Message := { content : pystr }.

(** [DfInfo], the structured answer of the summary chain. *)
Record DfInfo := { dataset_name : pystr }.

(** The value stored per identifier: [{"df_schema": df_schema, "df": df}]. *)
Record DfEntry := { df_schema : Schema; df : DataFrame }.

(** [DfMetadata]: cleaned data frame names and their metadata. *)
Abbreviation DfMetadata := (gmap (list N) DfEntry).

(** [DashboardPlanner]: opaque but for the two fields the graph reads. *)
Record DashboardPlanner := { plan_title : pystr; plan_pages : list PagePlanner }.

(** Modelled from the spec: [vm.Dashboard] is declared in vizro-core's
    dashboard model, which is not among the files at hand; the object built
    by the assembler carries a title and the pages it was given. *)
Record Dashboard := { dashboard_title : pystr; dashboard_pages : list Page }.

(** [config["configurable"].get("model", None)] *)
Record RunnableConfig := { model : option LLM }.

(** What the summary chain is invoked with. *)
Record SummaryRequest := {
  req_messages : list Message;
  req_df_schema : Schema;
  req_df_sample : DataFrame;
  req_current_df_names : list DfInfo
}.

(** The environment of the module: the Unicode tables of the interpreter
    and the collaborators the source imports from [vizro_ai.dashboard.nodes],
    each a call that returns or raises ([_get_df_info] draws a sample of
    the data frame).  [data_sum_chain_invoke] stands for
    [(df_sum_prompt | llm.with_structured_output(DfInfo)).invoke] and
    [PageBuilder_page] for [PageBuilder(...).page]. *)
Class Collaborators := {
  unicode : UnicodeData;
  _get_df_info : DataFrame -> result (Schema * DataFrame);
  data_sum_chain_invoke : LLM -> SummaryRequest -> result DfInfo;
  _get_dashboard_plan :
    pystr -> option LLM -> DfMetadata -> result DashboardPlanner;
  PageBuilder_page : option LLM -> DfMetadata -> PagePlanner -> result Page
}.

Context `{env : !Collaborators}.

(** *** GraphState *)

Record GraphState := {
  messages : list Message;
  dfs : list DataFrame;
  df_metadata : DfMetadata;
  dashboard_plan : option DashboardPlanner;
  pages : list Page;
  dashboard : option Dashboard
}.

(** A Python object as far as the validator tells objects apart: a data
    frame, or anything else (given by its repr). *)
Inductive pyobj :=
| PyDataFrame (d : DataFrame)
| PyOther (repr : string).

(** A value handed in for the [dfs] field: a list of objects, another
    sequence (a tuple, set, frozenset, deque or generator, given by its
    items in the order of iteration), or one object that is neither (and
    is not [None]). *)
Inductive pyvalue :=
| PyList (l : list pyobj)
| PySequence (l : list pyobj)
| PyAtom (o : pyobj).

Definition isinstance_DataFrame (v : pyobj) : bool :=
  match v with PyDataFrame _ => true | _ => false end.

Fixpoint check_each_dataframe (v : list pyobj) : result unit :=
  match v with
  | [] => Ok tt
  | df :: rest =>
      if isinstance_DataFrame df then check_each_dataframe rest
      else Raise (ValueError "Each element in dfs must be a Pandas DataFrame")
  end.

(** The validator of the [dfs] field. *)
Definition check_dataframes (v : pyvalue) : result pyvalue :=
  match v with
  | PyList l => do _u <- check_each_dataframe l; Ok v
  | _ => Raise (ValueError "dfs must be a list")
  end.

(** What the model class does with the value of a field declared
    [List[pd.DataFrame]] (with [arbitrary_types_allowed]) before it calls
    the validators of the class, which are declared without [pre=True]: a
    list, or a sequence that it turns into a list, is taken when every item
    is an instance of [DataFrame]; anything else is an error of the field
    and the validators of the class are not called.  The base class is
    pydantic's and not part of this repository; the definition follows its
    behaviour.  The message of the error, which lists the positions of the
    items, is given without them. *)
Definition validate_List_DataFrame (v : pyvalue) : result pyvalue :=
  match v with
  | PyList l | PySequence l =>
      if forallb isinstance_DataFrame l then Ok (PyList l)
      else Raise (ValidationError "instance of DataFrame expected")
  | PyAtom _ => Raise (ValidationError "value is not a valid list")
  end.

(** A [ValueError] or [TypeError] raised by a validator of the class is
    reported as an error of the field. *)
Definition as_validation_error {A} (r : result A) : result A :=
  match r with
  | Raise (ValueError msg) | Raise (TypeError msg) => Raise (ValidationError msg)
  | _ => r
  end.

(** The keyword arguments given to the [GraphState] constructor; [dfs] is
    still an arbitrary value, the other fields are taken at their declared
    types. *)
Record GraphStateInput := {
  in_messages : list Message;
  in_dfs : pyvalue;
  in_df_metadata : DfMetadata;
  in_dashboard_plan : option DashboardPlanner;
  in_pages : list Page;
  in_dashboard : option Dashboard
}.

Definition dataframes_of (v : pyvalue) : list DataFrame :=
  match v with
  | PyList l | PySequence l =>
      flat_map (fun x => match x with PyDataFrame d => [d] | _ => [] end) l
  | _ => []
  end.

(** Construction of a [GraphState]: the value of [dfs] is validated against
    the declared type, then by the validator of the class; then the fields
    are set. *)
Definition GraphState_new (kw : GraphStateInput) : result GraphState :=
  do v <- validate_List_DataFrame (in_dfs kw);
  do v <- as_validation_error (check_dataframes v);
  Ok {| messages := in_messages kw;
        dfs := dataframes_of v;
        df_metadata := in_df_metadata kw;
        dashboard_plan := in_dashboard_plan kw;
        pages := in_pages kw;
        dashboard := in_dashboard kw |}.

(** *** Partial state updates

    Every stage returns a dictionary with one key; the graph merges it into
    the state: [pages] through its reducer [operator.add], every other field
    by replacement. *)
Inductive Update :=
| Upd_df_metadata (m : DfMetadata)
| Upd_dashboard_plan (p : DashboardPlanner)
| Upd_pages (ps : list Page)
| Upd_dashboard (d : Dashboard).

Definition apply_update (st : GraphState) (u : Update) : GraphState :=
  match u with
  | Upd_df_metadata m =>
      {| messages := messages st; dfs := dfs st; df_metadata := m;
         dashboard_plan := dashboard_plan st; pages := pages st;
         dashboard := dashboard st |}
  | Upd_dashboard_plan p =>
      {| messages := messages st; dfs := dfs st; df_metadata := df_metadata st;
         dashboard_plan := Some p; pages := pages st;
         dashboard := dashboard st |}
  | Upd_pages ps =>
      {| messages := messages st; dfs := dfs st; df_metadata := df_metadata st;
         dashboard_plan := dashboard_plan st; pages := pages st ++ ps;
         dashboard := dashboard st |}
  | Upd_dashboard d =>
      {| messages := messages st; dfs := dfs st; df_metadata := df_metadata st;
         dashboard_plan := dashboard_plan st; pages := pages st;
         dashboard := Some d |}
  end.

(** *** _store_df_info

    The loop over [dfs].  Beside the result it returns the requests that
    were sent to the summary chain, in the order they were sent. *)
Fixpoint store_df_info_loop (config : RunnableConfig) (msgs : list Message)
    (todo : list DataFrame) (current_df_names : list DfInfo)
    (metadata : DfMetadata) : list SummaryRequest * result DfMetadata :=
  match todo with
  | [] => ([], Ok metadata)
  | d :: rest =>
      match _get_df_info d with
      | Raise e => ([], Raise e)
      | Ok (schema, sample) =>
      match model config with
      | None =>
          ([], Raise (AttributeError "'NoneType' object has no attribute 'with_structured_output'"))
      | Some llm =>
          let request :=
            {| req_messages := msgs; req_df_schema := schema;
               req_df_sample := sample;
               req_current_df_names := current_df_names |} in
          match data_sum_chain_invoke llm request with
          | Raise e => ([request], Raise e)
          | Ok df_name =>
              let current_df_names := current_df_names ++ [df_name] in
              let df_id := clean_df_name unicode (dataset_name df_name) in
              let metadata := <[df_id := {| df_schema := schema; df := d |}]> metadata in
              let '(sent, r) :=
                store_df_info_loop config msgs rest current_df_names metadata in
              (request :: sent, r)
          end
      end
      end
  end.

Definition _store_df_info_logged (state : GraphState) (config : RunnableConfig)
    : list SummaryRequest * result Update :=
  let '(sent, r) :=
    store_df_info_loop config (messages state) (dfs state) [] (df_metadata state) in
  (sent, do m <- r; Ok (Upd_df_metadata m)).

Definition _store_df_info (state : GraphState) (config : RunnableConfig)
    : result Update :=
  snd (_store_df_info_logged state config).

(** *** _dashboard_plan *)

(** [l[i]] for a non-negative index. *)
Definition getitem {A} (l : list A) (i : nat) : result A :=
  match nth_error l i with
  | Some a => Ok a
  | None => Raise (IndexError "list index out of range")
  end.

Definition _dashboard_plan (state : GraphState) (config : RunnableConfig)
    : result Update :=
  do first <- getitem (messages state) 0;
  let query := content first in
  let df_metadata := df_metadata state in
  let llm := model config in
  do dashboard_plan <- _get_dashboard_plan query llm df_metadata;
  Ok (Upd_dashboard_plan dashboard_plan).

(** *** BuildPageState and _build_page *)
Record BuildPageState := {
  bp_df_metadata : DfMetadata;
  page_plan : PagePlanner
}.

Definition _build_page (state : BuildPageState) (config : RunnableConfig)
    : result Update :=
  let llm := model config in
  do page <- PageBuilder_page llm (bp_df_metadata state) (page_plan state);
  Ok (Upd_pages [page]).

(** *** _continue_to_pages *)
Record Send := { send_node : string; send_arg : BuildPageState }.

Definition _continue_to_pages (state : GraphState) : result (list Send) :=
  match dashboard_plan state with
  | None => Raise (AttributeError "'NoneType' object has no attribute 'pages'")
  | Some plan =>
      Ok (List.map
            (fun v => {| send_node := "_build_page";
                         send_arg := {| bp_df_metadata := df_metadata state;
                                        page_plan := v |} |})
            (plan_pages plan))
  end.

(** *** _build_dashboard *)
Definition _build_dashboard (state : GraphState) : result Update :=
  match dashboard_plan state with
  | None => Raise (AttributeError "'NoneType' object has no attribute 'title'")
  | Some plan =>
      Ok (Upd_dashboard {| dashboard_title := plan_title plan;
                           dashboard_pages := pages state |})
  end.

(** ** The graph and the loop that runs it

    A node receives either the whole state (when an edge leads to it) or
    the argument of a [Send] packet. *)
Inductive NodeInput :=
| FromState (st : GraphState)
| FromSend (arg : BuildPageState).

Definition NodeFn := NodeInput -> RunnableConfig -> result Update.

(** A stage written against the state object reads attributes, which the
    dictionary of a packet does not have; [_build_page] subscripts its
    input, which the state object does not support. *)
Definition on_state (f : GraphState -> RunnableConfig -> result Update) : NodeFn :=
  fun input config =>
    match input with
    | FromState st => f st config
    | FromSend _ => Raise (AttributeError "'dict' object has no such attribute")
    end.

Definition on_packet (f : BuildPageState -> RunnableConfig -> result Update) : NodeFn :=
  fun input config =>
    match input with
    | FromSend arg => f arg config
    | FromState _ => Raise (TypeError "'GraphState' object is not subscriptable")
    end.

Definition END : string := "__end__".

Record StateGraph := {
  nodes : list (string * NodeFn);
  edges : list (string * string);
  branches : list (string * (GraphState -> result (list Send)));
  entry_point : option string
}.

Definition StateGraph_new : StateGraph :=
  {| nodes := []; edges := []; branches := []; entry_point := None |}.

Definition add_node (name : string) (fn : NodeFn) (g : StateGraph) : StateGraph :=
  {| nodes := nodes g ++ [(name, fn)]; edges := edges g;
     branches := branches g; entry_point := entry_point g |}.

Definition add_edge (start_key end_key : string) (g : StateGraph) : StateGraph :=
  {| nodes := nodes g; edges := edges g ++ [(start_key, end_key)];
     branches := branches g; entry_point := entry_point g |}.

Definition add_conditional_edges (source : string)
    (path : GraphState -> result (list Send)) (g : StateGraph) : StateGraph :=
  {| nodes := nodes g; edges := edges g;
     branches := branches g ++ [(source, path)]; entry_point := entry_point g |}.

Definition set_entry_point (key : string) (g : StateGraph) : StateGraph :=
  {| nodes := nodes g; edges := edges g;
     branches := branches g; entry_point := Some key |}.

Record Runnable := { compiled : StateGraph }.

Definition compile (g : StateGraph) : Runnable := {| compiled := g |}.

Definition _create_and_compile_graph : Runnable :=
  let graph := StateGraph_new in
  let graph := add_node "_store_df_info" (on_state _store_df_info) graph in
  let graph := add_node "_dashboard_plan" (on_state _dashboard_plan) graph in
  let graph := add_node "_build_page" (on_packet _build_page) graph in
  let graph := add_node "_build_dashboard" (on_state (fun st _ => _build_dashboard st)) graph in
  let graph := add_edge "_store_df_info" "_dashboard_plan" graph in
  let graph := add_conditional_edges "_dashboard_plan" _continue_to_pages graph in
  let graph := add_edge "_build_page" "_build_dashboard" graph in
  let graph := add_edge "_build_dashboard" END graph in
  let graph := set_entry_point "_store_df_info" graph in
  let runnable := compile graph in
  runnable.

(** *** Supersteps

    [graph.compile()] hands the graph to the loop of the graph library,
    which is not part of this repository; the definitions below follow its
    behaviour for what the source uses: plain edges, one conditional edge
    returning [Send] packets, a reducer on [pages], the default recursion
    limit.

    The compiled graph runs in supersteps.  The tasks of a superstep all
    read the state as it was when the superstep began; a task is a node
    reached through an edge, or a packet emitted by a conditional edge.
    When all have returned, their writes are merged into the state, in the
    order of the task list whatever the order in which the tasks completed,
    and the nodes and packets they triggered make up the next superstep.  A node
    triggered by several tasks of one superstep is scheduled once; a node
    that no task triggered is not scheduled; the run is complete when a
    superstep leaves no task. *)
Inductive Task :=
| Pull (name : string)
| Push (packet : Send).

Definition task_node (t : Task) : string :=
  match t with Pull name => name | Push packet => send_node packet end.

Definition task_input (st : GraphState) (t : Task) : NodeInput :=
  match t with
  | Pull _ => FromState st
  | Push packet => FromSend (send_arg packet)
  end.

Fixpoint assoc {A} (key : string) (l : list (string * A)) : option A :=
  match l with
  | [] => None
  | (k, a) :: rest => if String.eqb k key then Some a else assoc key rest
  end.

Definition successors (g : StateGraph) (name : string) : list string :=
  List.map snd
    (List.filter (fun e => String.eqb (fst e) name && negb (String.eqb (snd e) END))
       (edges g)).

Record TaskResult := {
  tr_writes : Update;
  tr_triggers : list string;
  tr_sends : list Send
}.

(** One task: the node function, then its outgoing edges; the function of
    a conditional edge reads the state with the writes of this task. *)
Definition run_task (g : StateGraph) (config : RunnableConfig)
    (st : GraphState) (t : Task) : result TaskResult :=
  match assoc (task_node t) (nodes g) with
  | None => Raise (ValueError "unknown node")
  | Some fn =>
      do upd <- fn (task_input st t) config;
      do sends <- match assoc (task_node t) (branches g) with
                  | None => Ok []
                  | Some path => path (apply_update st upd)
                  end;
      Ok {| tr_writes := upd;
            tr_triggers := successors g (task_node t);
            tr_sends := sends |}
  end.

(** The tasks in the order they complete; the first one that raises ends
    the run.  Returned: the tasks that ran, and the results or the failing
    node with its exception. *)
Fixpoint run_tasks (g : StateGraph) (config : RunnableConfig)
    (st : GraphState) (ts : list Task)
    : list Task * (list TaskResult + string * exn) :=
  match ts with
  | [] => ([], inl [])
  | t :: rest =>
      match run_task g config st t with
      | Raise e => ([t], inr (task_node t, e))
      | Ok r =>
          let '(ran, out) := run_tasks g config st rest in
          (t :: ran,
           match out with
           | inl rs => inl (r :: rs)
           | inr failure => inr failure
           end)
      end
  end.

(** What the tasks of a list returned, in the order of the list: the
    results that [run_tasks] collects in the order of completion, put back
    in the order of the tasks ([returned_in_task_order] below). *)
Definition returned (g : StateGraph) (config : RunnableConfig)
    (st : GraphState) (ts : list Task) : list TaskResult :=
  flat_map (fun t =>
              match run_task g config st t with
              | Ok r => [r]
              | Raise _ => []
              end) ts.

Definition apply_writes (st : GraphState) (rs : list TaskResult) : GraphState :=
  fold_left apply_update (List.map tr_writes rs) st.

Definition next_tasks (g : StateGraph) (rs : list TaskResult) : list Task :=
  let triggered := flat_map tr_triggers rs in
  List.map Push (flat_map tr_sends rs)
  ++ List.map Pull
       (List.filter (fun name => existsb (String.eqb name) triggered)
          (List.map fst (nodes g))).

Inductive Outcome :=
| Completed (st : GraphState)
| Aborted (node : string) (e : exn) (st : GraphState)
| RecursionLimit (st : GraphState)
| Rejected (e : exn).

(** The order in which the tasks of a superstep complete is not fixed by
    the graph: [order] is any rearrangement of the task list.  It decides
    which exception ends the run when several tasks raise.  It does not
    decide the order in which the writes reach the reducers: when all tasks
    have returned, the loop applies what they returned in the order of the
    task list. *)
Definition Order := list Task -> list Task.

Fixpoint pregel_loop (order : Order) (g : StateGraph) (config : RunnableConfig) (limit : nat)
    (tasks : list Task) (st : GraphState) : list Task * Outcome :=
  match tasks with
  | [] => ([], Completed st)
  | _ :: _ =>
      match limit with
      | O => ([], RecursionLimit st)
      | S limit' =>
          match run_tasks g config st (order tasks) with
          | (ran, inr (node, e)) => (ran, Aborted node e st)
          | (ran, inl _) =>
              let rs := returned g config st tasks in
              let '(later, out) :=
                pregel_loop order g config limit' (next_tasks g rs) (apply_writes st rs) in
              (ran ++ later, out)
          end
      end
  end.

Definition recursion_limit : nat := 25.

Definition invoke (order : Order) (r : Runnable) (config : RunnableConfig) (st : GraphState)
    : list Task * Outcome :=
  match entry_point (compiled r) with
  | None => ([], Rejected (ValueError "Graph must have an entrypoint"))
  | Some name => pregel_loop order (compiled r) config recursion_limit [Pull name] st
  end.

(** A run from the keyword arguments of the initial state: the state is
    constructed, then the graph is invoked on it. *)
Definition run (order : Order) (config : RunnableConfig) (kw : GraphStateInput)
    : list Task * Outcome :=
  match GraphState_new kw with
  | Raise e => ([], Rejected e)
  | Ok st => invoke order _create_and_compile_graph config st
  end.

(** Observations on a run. *)
Definition is_build_task (t : Task) : bool :=
  match t with Push _ => true | Pull _ => false end.

Definition is_assemble_task (t : Task) : bool :=
  match t with Pull name => String.eqb name "_build_dashboard" | Push _ => false end.

Definition final_dashboard (out : Outcome) : option Dashboard :=
  match out with
  | Completed st => dashboard st
  | _ => None
  end.

(** The page of a packet, and the pages of a list of packets in the order
    of the list. *)
Definition build_of (config : RunnableConfig) (packet : Send) : result Page :=
  PageBuilder_page (model config) (bp_df_metadata (send_arg packet))
    (page_plan (send_arg packet)).

Definition all_built (config : RunnableConfig) (packets : list Send) : bool :=
  forallb (fun packet => is_ok (build_of config packet)) packets.

Definition built_pages (config : RunnableConfig) (packets : list Send) : list Page :=
  flat_map (fun packet =>
              match build_of config packet with Ok page => [page] | Raise _ => [] end)
    packets.

Definition packets_of (ts : list Task) : list Send :=
  flat_map (fun t => match t with Push packet => [packet] | Pull _ => [] end) ts.

(** The answers of the summary chain to the requests it was sent. *)
Definition answers (llm : LLM) (sent : list SummaryRequest) : list DfInfo :=
  flat_map (fun request =>
              match data_sum_chain_invoke llm request with
              | Ok name => [name]
              | Raise _ => []
              end) sent.

Definition identifiers (names : list DfInfo) : list pystr :=
  List.map (fun name => clean_df_name unicode (dataset_name name)) names.

(** The packet of one page plan, and what the task of a packet hands to
    the loop when its page is built. *)
Definition packet_for (metadata : DfMetadata) (v : PagePlanner) : Send :=
  {| send_node := "_build_page";
     send_arg := {| bp_df_metadata := metadata; page_plan := v |} |}.

Definition build_result (page : Page) : TaskResult :=
  {| tr_writes := Upd_pages [page];
     tr_triggers := ["_build_dashboard"%string];
     tr_sends := [] |}.

(** [order] only rearranges. *)
Definition rearranges (order : Order) : Prop :=
  forall ts, Permutation (order ts) ts.

(** The packets taken one after the other, up to the first whose page
    builder raises: the packets handled and the pages or the exception. *)
Fixpoint build_all (config : RunnableConfig) (packets : list Send)
    : list Send * result (list Page) :=
  match packets with
  | [] => ([], Ok [])
  | packet :: rest =>
      match build_of config packet with
      | Raise e => ([packet], Raise e)
      | Ok page =>
          let '(handled, r) := build_all config rest in
          (packet :: handled, do later <- r; Ok (page :: later))
      end
  end.

(** The run written out stage by stage: summarize, plan and fan out, build
    the pages (the builders complete in the order given by [order], the
    pages are appended in the order of the packets), assemble.
    [run_pipeline] below shows that this is what the superstep loop does on
    the graph of [_create_and_compile_graph]. *)
Definition pipeline_from (order : Order) (config : RunnableConfig)
    (st0 : GraphState) : list Task * Outcome :=
  match _store_df_info st0 config with
  | Raise e => ([Pull "_store_df_info"], Aborted "_store_df_info" e st0)
  | Ok u1 =>
  let st1 := apply_update st0 u1 in
  let summarized := [Pull "_store_df_info"; Pull "_dashboard_plan"] in
  match (do u2 <- _dashboard_plan st1 config;
         do sends <- _continue_to_pages (apply_update st1 u2);
         Ok (u2, sends)) with
  | Raise e => (summarized, Aborted "_dashboard_plan" e st1)
  | Ok (u2, []) => (summarized, Completed (apply_update st1 u2))
  | Ok (u2, (_ :: _) as sends) =>
  let st2 := apply_update st1 u2 in
  match build_all config (packets_of (order (List.map Push sends))) with
  | (handled, Raise e) =>
      (summarized ++ List.map Push handled, Aborted "_build_page" e st2)
  | (handled, Ok _) =>
  let built := built_pages config sends in
  let st3 := apply_update st2 (Upd_pages built) in
  let trace := summarized ++ List.map Push handled ++ [Pull "_build_dashboard"] in
  match _build_dashboard st3 with
  | Raise e => (trace, Aborted "_build_dashboard" e st3)
  | Ok u4 => (trace, Completed (apply_update st3 u4))
  end end end end.

Definition pipeline (order : Order) (config : RunnableConfig)
    (kw : GraphStateInput) : list Task * Outcome :=
  match GraphState_new kw with
  | Raise e => ([], Rejected e)
  | Ok st0 => pipeline_from order config st0
  end.

(** The schema of a data frame on which [_get_df_info] returns. *)
Definition schema_of (d : DataFrame) : Schema :=
  match _get_df_info d with
  | Ok (schema, _) => schema
  | Raise _ => []
  end.

(** What the summary stage stores for a data frame, and the mapping after
    a list of assignments, the later ones overwriting the earlier ones. *)
Definition entry_of (d : DataFrame) : DfEntry :=
  {| df_schema := schema_of d; df := d |}.

Definition insert_all (kvs : list (pystr * DfEntry)) (metadata : DfMetadata)
    : DfMetadata :=
  fold_left (fun acc kv => <[fst kv := snd kv]> acc) kvs metadata.

Definition stored_metadata (r : result Update) : option DfMetadata :=
  match r with
  | Ok (Upd_df_metadata m) => Some m
  | _ => None
  end.

End Graph.

Arguments Collaborators : clear implicits.

(** ** A deterministic completion stub

    Data frames, page plans and pages are numbers; the summary chain names
    the data frame by a table, the planner answers with a fixed list of page
    plans, the page builder adds one hundred. *)
Definition stub_names (d : nat) : pystr :=
  match d with
  | 0%nat => str "Global Demographics"
  | 1%nat => str "  GDP per capita (2007) "
  | 2%nat => str "global demographics!"
  | 3%nat => str "???"
  | _ => str "data"
  end.

Definition stub (page_plans : list nat) : Collaborators nat nat nat unit :=
  {| unicode := ascii_only;
     _get_df_info := fun d => Ok ([(str "value", str "int64")], d);
     data_sum_chain_invoke := fun _ request =>
       Ok {| dataset_name := stub_names (req_df_sample request) |};
     _get_dashboard_plan := fun query _ _ =>
       Ok {| plan_title := query; plan_pages := page_plans |};
     PageBuilder_page := fun _ _ plan => Ok (100 + plan)%nat |}.

(** The same, with a planner that raises a validation error. *)
Definition stub_failing_planner : Collaborators nat nat nat unit :=
  {| unicode := ascii_only;
     _get_df_info := fun d => Ok ([(str "value", str "int64")], d);
     data_sum_chain_invoke := fun _ request =>
       Ok {| dataset_name := stub_names (req_df_sample request) |};
     _get_dashboard_plan := fun _ _ _ =>
       Raise (ValidationError "1 validation error for DashboardPlanner");
     PageBuilder_page := fun _ _ plan => Ok (100 + plan)%nat |}.

Definition stub_config : @RunnableConfig unit := {| model := Some tt |}.

Definition stub_input (msgs : list Message) (frames : list nat)
    : @GraphStateInput nat nat nat :=
  {| in_messages := msgs;
     in_dfs := PyList (List.map PyDataFrame frames);
     in_df_metadata := ∅;
     in_dashboard_plan := None;
     in_pages := [];
     in_dashboard := None |}.

Definition user_request : Message := {| content := str "a page per continent" |}.

Definition stub_state (msgs : list Message) (frames : list nat)
    : @GraphState nat nat nat :=
  {| messages := msgs; dfs := frames; df_metadata := ∅;
     dashboard_plan := None; pages := []; dashboard := None |}.

Definition stub_entry (d : nat) : @DfEntry nat :=
  {| df_schema := [(str "value", str "int64")]; df := d |}.

(** The mapping after the summary of the data frames 0 and 1. *)
Definition stub_metadata : gmap (list N) (@DfEntry nat) :=
  <[str "gdp_per_capita_2007" := stub_entry 1]>
    (<[str "global_demographics" := stub_entry 0]> ∅).

Definition stub_plan (page_plans : list nat) : @DashboardPlanner nat :=
  {| plan_title := content user_request; plan_pages := page_plans |}.

(** Two completion orders: the order of the tasks, and its reverse. *)
Definition task_order : @Order nat nat := fun ts => ts.
Definition reverse_order : @Order nat nat := fun ts => rev ts.

Definition completed {DataFrame PagePlanner Page : Type}
    (out : @Outcome DataFrame PagePlanner Page) : bool :=
  match out with Completed _ => true | _ => false end.

(** Inputs whose [dfs] holds something that is not a data frame, and only
    data frames. *)
Definition mixed_objects : list (@pyobj nat) :=
  [PyDataFrame 1%nat; PyOther "{'country': ['Afghanistan']}"].

Definition mixed_input : @GraphStateInput nat nat nat :=
  {| in_messages := [user_request]; in_dfs := PyList mixed_objects;
     in_df_metadata := ∅; in_dashboard_plan := None; in_pages := [];
     in_dashboard := None |}.

(** A stub whose summary chain times out on one data frame and whose page
    builder rejects one page plan. *)
Definition stub_flaky (bad_frame bad_plan : nat) (page_plans : list nat)
    : Collaborators nat nat nat unit :=
  {| unicode := ascii_only;
     _get_df_info := fun d => Ok ([(str "value", str "int64")], d);
     data_sum_chain_invoke := fun _ request =>
       if Nat.eqb (req_df_sample request) bad_frame
       then Raise (ServiceError "Request timed out.")
       else Ok {| dataset_name := stub_names (req_df_sample request) |};
     _get_dashboard_plan := fun query _ _ =>
       Ok {| plan_title := query; plan_pages := page_plans |};
     PageBuilder_page := fun _ _ plan =>
       if Nat.eqb plan bad_plan
       then Raise (ValidationError "1 validation error for Page")
       else Ok (100 + plan)%nat |}.

(** A stub for which the data frame [empty_frame] has no row to sample. *)
Definition stub_unsampled (empty_frame : nat) : Collaborators nat nat nat unit :=
  {| unicode := ascii_only;
     _get_df_info := fun d =>
       if Nat.eqb d empty_frame
       then Raise (ValueError "a must be greater than 0 unless no samples are taken")
       else Ok ([(str "value", str "int64")], d);
     data_sum_chain_invoke := fun _ request =>
       Ok {| dataset_name := stub_names (req_df_sample request) |};
     _get_dashboard_plan := fun query _ _ =>
       Ok {| plan_title := query; plan_pages := [] |};
     PageBuilder_page := fun _ _ plan => Ok (100 + plan)%nat |}.

(** An input whose [dfs] is a tuple of data frames. *)
Definition tuple_input (msgs : list Message) (frames : list nat)
    : @GraphStateInput nat nat nat :=
  {| in_messages := msgs;
     in_dfs := PySequence (List.map PyDataFrame frames);
     in_df_metadata := ∅;
     in_dashboard_plan := None;
     in_pages := [];
     in_dashboard := None |}.

(** The state a run ends with, when it ends with one. *)
Definition outcome_state {DataFrame PagePlanner Page : Type}
    (out : @Outcome DataFrame PagePlanner Page)
    : option (@GraphState DataFrame PagePlanner Page) :=
  match out with
  | Completed st => Some st
  | Aborted _ _ st => Some st
  | RecursionLimit st => Some st
  | Rejected _ => None
  end.

(** * vizro-core: the Action model

    [vizro/models/_action/_action.py].  An action wraps a captured function
    and is turned into a Dash callback: the references in [inputs] and
    [outputs], strings of the form [<component_id>.<property>], become
    [State] and [Output] dependencies, and the value the function returns
    is checked against the shape of the outputs. *)

(** [s.split(sep)] for a separator of one character. *)
Fixpoint split (sep : codepoint) (s : pystr) : list pystr :=
  match s with
  | [] => [[]]
  | c :: rest =>
      if (c =? sep)%N then [] :: split sep rest
      else match split sep rest with
           | first :: others => (c :: first) :: others
           | [] => [[c]]
           end
  end.

(** [sep.join(parts)] *)
Fixpoint join (sep : pystr) (parts : list pystr) : pystr :=
  match parts with
  | [] => []
  | [part] => part
  | part :: rest => part ++ sep ++ join sep rest
  end.

Definition dot : codepoint := 46%N.

(** The longest prefix without a dot, and what follows it: what [[^.]*]
    consumes. *)
Fixpoint span_no_dot (s : pystr) : pystr * pystr :=
  match s with
  | [] => ([], [])
  | c :: rest =>
      if (c =? dot)%N then ([], s)
      else let '(taken, remaining) := span_no_dot rest in (c :: taken, remaining)
  end.

(** The constraint [regex="^[^.]+[.][^.]+$"] on the items of [inputs] and
    [outputs]. *)
Definition matches_reference (s : pystr) : bool :=
  match span_no_dot s with
  | (_ :: _, c :: rest) =>
      match span_no_dot rest with
      | (_ :: _, []) => true
      | _ => false
      end
  | _ => false
  end.

(** The comprehension [[f(x) for x in l]] for an [f] that can raise. *)
Fixpoint mapM {A B} (f : A -> result B) (l : list A) : result (list B) :=
  match l with
  | [] => Ok []
  | x :: rest => do y <- f x; do ys <- mapM f rest; Ok (y :: ys)
  end.

Module Action.
Section Model.

(** Opaque: the values that functions take and return, and the Dash
    components a predefined action needs. *)
Context {Value Component : Type}.

(** [dash.State(component_id, component_property)] *)
Record State := { state_id : pystr; state_property : pystr }.

(** [dash.Output(component_id, component_property, allow_duplicate)] *)
Record Output := {
  output_id : pystr;
  output_property : pystr;
  allow_duplicate : bool
}.

(** The reference a dependency stands for. *)
Definition state_reference (st : State) : pystr :=
  state_id st ++ dot :: state_property st.

Definition output_reference (o : Output) : pystr :=
  output_id o ++ dot :: output_property o.

(** [State] applied to the unpacked parts: two positional arguments are
    required. *)
Definition State_of (parts : list pystr) : result State :=
  match parts with
  | [component_id; component_property] =>
      Ok {| state_id := component_id; state_property := component_property |}
  | _ => Raise (TypeError "State.__init__() takes 3 positional arguments")
  end.

(** [Output] applied to the unpacked parts and [allow_duplicate=True]. *)
Definition Output_of (parts : list pystr) : result Output :=
  match parts with
  | [component_id; component_property] =>
      Ok {| output_id := component_id; output_property := component_property;
            allow_duplicate := true |}
  | _ => Raise (TypeError "Output.__init__() got unexpected positional arguments")
  end.

(** A Python object as far as the callback tells objects apart: [None], a
    [Mapping] (keyed by strings), another sized [Collection] (list, tuple,
    set, string), or anything else. *)
Inductive PyValue :=
| PyNone
| PyMapping (m : gmap (list N) Value)
| PySized (items : list Value)
| PyOpaque (v : Value).

(** The inputs of a callback: a [Mapping], passed as keyword arguments, or
    a list, passed as positional arguments. *)
Inductive Arguments :=
| Keywords (kw : gmap (list N) Value)
| Positional (args : list Value).

(** [Union[List[A], Dict[str, A]]] *)
Inductive Dependencies (A : Type) :=
| DepList (l : list A)
| DepDict (d : gmap (list N) A).
Arguments DepList {A} l.
Arguments DepDict {A} d.

(** The function of an action: a [CapturedCallable], or its subclass
    [CapturedActionCallable] of the predefined actions, which brings its own
    inputs, outputs and components. *)
Inductive Function :=
| CapturedCallable (call : Arguments -> result PyValue)
| CapturedActionCallable (call : Arguments -> result PyValue)
    (fn_inputs : Dependencies State) (fn_outputs : Dependencies Output)
    (fn_components : list Component).

Definition call_function (f : Function) (a : Arguments) : result PyValue :=
  match f with
  | CapturedCallable call => call a
  | CapturedActionCallable call _ _ _ => call a
  end.

Record Action := {
  id : pystr;
  function : Function;
  inputs : list pystr;
  outputs : list pystr
}.

(** Construction: the items of [inputs] and of [outputs] are validated
    against the pattern. *)
Definition Action_new (id : pystr) (function : Function)
    (inputs outputs : list pystr) : result Action :=
  if forallb matches_reference inputs && forallb matches_reference outputs
  then Ok {| id := id; function := function; inputs := inputs; outputs := outputs |}
  else Raise (ValidationError "string does not match regex '^[^.]+[.][^.]+$'").

(** The outputs of a callback: a list, a dictionary, or one [Output]. *)
Inductive Outputs :=
| OutputList (l : list Output)
| OutputDict (d : gmap (list N) Output)
| OutputSingle (o : Output).

Definition _get_callback_mapping (self : Action)
    : result (Dependencies State * Outputs * list Component) :=
  do callback_inputs <-
    match function self with
    | CapturedActionCallable _ fn_inputs _ _ => Ok fn_inputs
    | CapturedCallable _ =>
        do states <- mapM (fun input => State_of (split dot input)) (inputs self);
        Ok (DepList states)
    end;
  do callback_outputs <-
    match function self with
    | CapturedActionCallable _ _ fn_outputs _ =>
        Ok (match fn_outputs with
            | DepList l => OutputList l
            | DepDict d => OutputDict d
            end)
    | CapturedCallable _ =>
        do callback_outputs <-
          mapM (fun output => Output_of (split dot output)) (outputs self);
        Ok (match callback_outputs with
            | [single] => OutputSingle single
            | _ => OutputList callback_outputs
            end)
    end;
  let action_components :=
    match function self with
    | CapturedActionCallable _ _ _ fn_components => fn_components
    | CapturedCallable _ => []
    end in
  Ok (callback_inputs, callback_outputs, action_components).

(** [bool(outputs)] for [outputs] a dictionary, a list, an [Output] or
    [None]. *)
Definition truthy (outputs : option Outputs) : bool :=
  match outputs with
  | None => false
  | Some (OutputList l) => match l with [] => false | _ => true end
  | Some (OutputDict d) => negb (Nat.eqb (size d) 0)
  | Some (OutputSingle _) => true
  end.

(** [len(return_value)] when [return_value] is a [Collection]. *)
Definition len (v : PyValue) : option nat :=
  match v with
  | PyMapping m => Some (size m)
  | PySized items => Some (length items)
  | PyNone | PyOpaque _ => None
  end.

(** The messages of the two errors that format the offending keys and
    counts are given without the formatted values. *)
Definition _action_callback_function (self : Action) (inputs : Arguments)
    (outputs : option Outputs) : result PyValue :=
  do return_value <- call_function (function self) inputs;
  if negb (truthy outputs) then
    match return_value with
    | PyNone => Ok return_value
    | _ => Raise (ValueError "Action function has returned a value but the action has no defined outputs.")
    end
  else
    match outputs with
    | Some (OutputDict d) =>
        match return_value with
        | PyMapping m =>
            if bool_decide (dom d = dom m) then Ok return_value
            else Raise (ValueError "Keys of action's returned value do not match the action's defined outputs.")
        | _ => Raise (ValueError "Action function has not returned a dictionary-like object but the action's defined outputs are a dictionary.")
        end
    | Some (OutputList l) =>
        match len return_value with
        | None => Raise (ValueError "Action function has not returned a list-like object but the action's defined outputs are a list.")
        | Some n =>
            if Nat.eqb n (length l) then Ok return_value
            else Raise (ValueError "Number of action's returned elements does not match the number of action's defined outputs.")
        end
    | _ => Ok return_value
    end.

(** What the callback hands back to Dash: [action_finished] is always
    [None]; the key [external] is there when the callback has outputs. *)
Record CallbackResult := { external : option PyValue }.

(** The callback registered by [build]: its external outputs (absent when
    there are none), its external inputs, the action it is triggered by,
    and the wrapper around the function. *)
Record Callback := {
  callback_outputs_external : option Outputs;
  callback_inputs_external : Dependencies State;
  callback_trigger : pystr;
  callback_wrapper : Arguments -> result CallbackResult
}.

(** The hidden [html.Div] that [build] returns. *)
Record Div := { children : list Component; div_id : pystr; hidden : bool }.

(** [dash.callback(output=..., inputs=..., prevent_initial_call=True)],
    the decorator that registers [callback_wrapper].  Dash checks the
    dependencies when a callback is registered (the id of a component, for
    one, may hold neither a dot nor an opening brace) and raises when it
    refuses them.  Dash is not part of this repository: the registration is
    a parameter, a call that returns or raises, given the external outputs
    (absent when there are none), the external inputs and the id of the
    action in the trigger; the internal output is the same for every
    action. *)
Context (callback : option Outputs -> Dependencies State -> pystr -> result unit).

(** [build]; the callback that was registered is returned beside the
    [Div].  Setting [_action_id] on the function and its [_post_init], and
    the logging, are not modelled. *)
Definition build (self : Action) : result (Callback * Div) :=
  do mapping <- _get_callback_mapping self;
  let '(external_callback_inputs, external_callback_outputs, action_components) :=
    mapping in
  let callback_outputs_external :=
    if truthy (Some external_callback_outputs)
    then Some external_callback_outputs else None in
  let callback_wrapper := fun external_inputs =>
    do return_value <-
      _action_callback_function self external_inputs callback_outputs_external;
    Ok {| external :=
            match callback_outputs_external with
            | Some _ => Some return_value
            | None => None
            end |} in
  do _registered <-
    callback callback_outputs_external external_callback_inputs (id self);
  Ok ({| callback_outputs_external := callback_outputs_external;
         callback_inputs_external := external_callback_inputs;
         callback_trigger := id self;
         callback_wrapper := callback_wrapper |},
      {| children := action_components;
         div_id := id self ++ str "_action_model_components_div";
         hidden := true |}).

End Model.
Arguments DepList {A} l.
Arguments DepDict {A} d.
End Action.

(** * vizro-core: the Graph component

    [vizro/models/_components/graph.py]. *)

(** [needle in hay] for strings. *)
Fixpoint starts_with (prefix s : pystr) : bool :=
  match prefix, s with
  | [], _ => true
  | p :: prefix', c :: s' => (p =? c)%N && starts_with prefix' s'
  | _ :: _, [] => false
  end.

Fixpoint contains (needle hay : pystr) : bool :=
  starts_with needle hay
  || match hay with
     | [] => false
     | _ :: rest => contains needle rest
     end.

Module Graph.

(** Exceptions: the ones of the first part, and [KeyError], either of a
    failed lookup (with the key) or the one [_filter_interaction] raises
    about a source graph without [custom_data] (with the id of that
    graph). *)
Inductive exception :=
| Builtin (e : exn)
| KeyError (key : pystr)
| KeyError_custom_data (source_graph_id : pystr).

Definition is_KeyError (e : exception) : bool :=
  match e with
  | KeyError _ | KeyError_custom_data _ => true
  | Builtin _ => false
  end.

Inductive outcome (A : Type) :=
| Returns (a : A)
| Raises (e : exception).
Arguments Returns {A} a.
Arguments Raises {A} e.

Definition and_then {A B} (r : outcome A) (k : A -> outcome B) : outcome B :=
  match r with
  | Returns a => k a
  | Raises e => Raises e
  end.

Notation "'perform' x <- r ; k" := (and_then r (fun x => k))
  (at level 10, x name, r at level 100, k at level 200).

(** [l[i]] for a non-negative index. *)
Definition list_getitem {A} (l : list A) (i : nat) : outcome A :=
  match nth_error l i with
  | Some a => Returns a
  | None => Raises (Builtin (IndexError "list index out of range"))
  end.

(** An argument bound in a captured function, as far as this module reads
    arguments: a string (the name of a data source), or a list of strings
    ([custom_data], [targets]). *)
Inductive ArgValue :=
| ArgStr (s : pystr)
| ArgNames (names : list pystr).

(** Iterating over an argument: the items of a list, the characters of a
    string. *)
Definition iterate (a : ArgValue) : list pystr :=
  match a with
  | ArgNames names => names
  | ArgStr s => List.map (fun c => [c]) s
  end.

(** [x in a] *)
Definition member (x : pystr) (a : ArgValue) : bool :=
  match a with
  | ArgNames names => existsb (fun name => bool_decide (x = name)) names
  | ArgStr s => contains x s
  end.

Section Model.

(** Opaque: the numbers of a layout, the values of cells and of click
    data, captured functions, and what a figure holds beside the layout
    fields read here. *)
Context {Num Value Fn Rest : Type}.

(** *** Figures *)

(** A [go.Figure], with the fields of [fig.layout] that the module reads:
    [margin.t], [margin.l], [title.text], [title.pad.t], [title.pad.l] and
    [title.pad.r]; [None] is a field that is not set. *)
Record Figure := {
  margin_t : option Num;
  margin_l : option Num;
  title_text : option pystr;
  title_pad_t : option Num;
  title_pad_l : option Num;
  title_pad_r : option Num;
  rest : Rest
}.

(** A data frame: its column labels (taken to be distinct strings) and its
    rows, a row giving the value under each label. *)
Record Frame := {
  columns : list pystr;
  rows : list (pystr -> Value)
}.

(** A keyword argument of a figure function. *)
Inductive KwValue :=
| KwFrame (data_frame : Frame)
| KwArg (a : ArgValue).

(** *** The model and its surroundings *)

Record ActionModel := { action_function : Fn }.

Record GraphModel := {
  id : pystr;
  type : pystr;
  figure : Fn;
  actions : list ActionModel
}.

(** What the module uses and the files at hand do not define: numbers from
    integer literals; the matching of a cell against the one clicked value
    ([Series.isin]); of a captured function its name
    ([_function.__name__]), its bound arguments ([function[arg_name]]) and
    its call; the model manager; [_get_component_actions]; and
    [data_manager[name].load()]. *)
Class Surroundings := {
  int : Z -> Num;
  isin : Value -> Value -> bool;
  function_name : Fn -> pystr;
  captured_getitem : Fn -> pystr -> outcome ArgValue;
  captured_call : Fn -> gmap (list N) KwValue -> outcome Figure;
  model_manager : gmap (list N) GraphModel;
  _get_component_actions : GraphModel -> list ActionModel;
  data_manager_load : pystr -> outcome Frame
}.

Context `{surroundings : !Surroundings}.

Definition model_manager_getitem (model_id : pystr) : outcome GraphModel :=
  match model_manager !! model_id with
  | Some model => Returns model
  | None => Raises (KeyError model_id)
  end.

(** *** __getitem__ *)
Definition __getitem__ (self : GraphModel) (arg_name : pystr) : outcome ArgValue :=
  if bool_decide (arg_name = str "type") then Returns (ArgStr (type self))
  else captured_getitem (figure self) arg_name.

(** *** _optimise_fig_layout_for_dashboard *)

(** [fig.update_layout(...)] for the keywords used here. *)
Definition update_margin_title (fig : Figure) : Figure :=
  {| margin_t := Some (int 24); margin_l := Some (int 24);
     title_text := title_text fig; title_pad_t := title_pad_t fig;
     title_pad_l := Some (int 0); title_pad_r := Some (int 0);
     rest := rest fig |}.

Definition update_title_pad_t (fig : Figure) (v : Num) : Figure :=
  {| margin_t := margin_t fig; margin_l := margin_l fig;
     title_text := title_text fig; title_pad_t := Some v;
     title_pad_l := title_pad_l fig; title_pad_r := title_pad_r fig;
     rest := rest fig |}.

Definition update_title_pad_l (fig : Figure) (v : Num) : Figure :=
  {| margin_t := margin_t fig; margin_l := margin_l fig;
     title_text := title_text fig; title_pad_t := title_pad_t fig;
     title_pad_l := Some v; title_pad_r := title_pad_r fig;
     rest := rest fig |}.

Definition update_title_pad_r (fig : Figure) (v : Num) : Figure :=
  {| margin_t := margin_t fig; margin_l := margin_l fig;
     title_text := title_text fig; title_pad_t := title_pad_t fig;
     title_pad_l := title_pad_l fig; title_pad_r := Some v;
     rest := rest fig |}.

Definition update_margin_l (fig : Figure) (v : Num) : Figure :=
  {| margin_t := margin_t fig; margin_l := Some v;
     title_text := title_text fig; title_pad_t := title_pad_t fig;
     title_pad_l := title_pad_l fig; title_pad_r := title_pad_r fig;
     rest := rest fig |}.

Definition is_None {A} (o : option A) : bool :=
  match o with None => true | Some _ => false end.

(** [text and "<br>" not in text] *)
Definition single_line_title (text : option pystr) : bool :=
  match text with
  | None | Some [] => false
  | Some t => negb (contains (str "<br>") t)
  end.

(** The fields of a figure side by side. *)
Definition fields_of (fig : Figure) :=
  (margin_t fig, margin_l fig, title_text fig,
   title_pad_t fig, title_pad_l fig, title_pad_r fig, rest fig).

(** The five statements of the function, one after the other. *)
Definition reduce_margin_t (fig : Figure) : Figure :=
  if is_None (margin_t fig) && is_None (title_text fig)
  then update_margin_title fig else fig.

Definition reduce_title_pad_t (fig : Figure) : Figure :=
  if is_None (title_pad_t fig) && single_line_title (title_text fig)
  then update_title_pad_t fig (int 7) else fig.

Definition default_title_pad_l (fig : Figure) : Figure :=
  if is_None (title_pad_l fig) then update_title_pad_l fig (int 0) else fig.

Definition default_title_pad_r (fig : Figure) : Figure :=
  if is_None (title_pad_r fig) then update_title_pad_r fig (int 0) else fig.

Definition default_margin_l (fig : Figure) : Figure :=
  if is_None (margin_l fig) then update_margin_l fig (int 24) else fig.

Definition _optimise_fig_layout_for_dashboard (fig : Figure) : Figure :=
  let fig := reduce_margin_t fig in
  let fig := reduce_title_pad_t fig in
  let fig := default_title_pad_l fig in
  let fig := default_title_pad_r fig in
  let fig := default_margin_l fig in
  fig.

(** *** __call__

    [kwargs.setdefault("data_frame", ...)] evaluates its default before it
    looks at [kwargs].  Hiding the component through [set_props], whose
    exception outside a callback is suppressed, is not modelled. *)
Definition setdefault (kwargs : gmap (list N) KwValue) (key : pystr) (default : KwValue)
    : gmap (list N) KwValue :=
  match kwargs !! key with
  | Some _ => kwargs
  | None => <[key := default]> kwargs
  end.

Definition data_manager_getitem_load (name : ArgValue) : outcome Frame :=
  match name with
  | ArgStr s => data_manager_load s
  | ArgNames _ => Raises (Builtin (TypeError "unhashable type: 'list'"))
  end.

Definition __call__ (self : GraphModel) (kwargs : gmap (list N) KwValue)
    : outcome Figure :=
  perform name <- __getitem__ self (str "data_frame");
  perform default <- data_manager_getitem_load name;
  let kwargs := setdefault kwargs (str "data_frame") (KwFrame default) in
  perform fig <- captured_call (figure self) kwargs;
  let fig := _optimise_fig_layout_for_dashboard fig in
  Returns fig.

(** *** _filter_interaction *)

(** [CallbackTriggerDict]: the id of the component and the value of its
    property; a value that is [None] or empty is [None] here. *)
Record Point := { customdata : option (list Value) }.
Record ClickData := { points : list Point }.
Record CallbackTriggerDict := { ctd_id : pystr; ctd_value : option ClickData }.

(** The dictionary built from [_filter_interaction_input]. *)
Record FilterInteraction := {
  clickData : CallbackTriggerDict;
  modelID : CallbackTriggerDict
}.

(** [data_frame[column]] *)
Definition has_column (data_frame : Frame) (column : pystr) : bool :=
  existsb (fun label => bool_decide (column = label)) (columns data_frame).

(** [data_frame[data_frame[column].isin([v])]] once [data_frame[column]]
    is there. *)
Definition select_isin (data_frame : Frame) (column : pystr) (v : Value) : Frame :=
  {| columns := columns data_frame;
     rows := List.filter (fun row => isin (row column) v) (rows data_frame) |}.

(** The inner loop over [enumerate(custom_data_columns)], from index
    [custom_data_idx] on. *)
Fixpoint filter_columns (data_frame : Frame) (clicked : list Value)
    (custom_data_idx : nat) (custom_data_columns : list pystr) : outcome Frame :=
  match custom_data_columns with
  | [] => Returns data_frame
  | column :: later =>
      if has_column data_frame column then
        perform v <- list_getitem clicked custom_data_idx;
        filter_columns (select_isin data_frame column v) clicked
          (S custom_data_idx) later
      else Raises (KeyError column)
  end.

(** The condition under which the loop does not [continue]. *)
Definition applies (target : pystr) (action : ActionModel) : outcome bool :=
  if negb (bool_decide (function_name (action_function action)
                        = str "filter_interaction"))
  then Returns false
  else
    perform targets <- captured_getitem (action_function action) (str "targets");
    Returns (member target targets).

(** An action for which the loop goes on to filter. *)
Definition applies_to (target : pystr) (action : ActionModel) : bool :=
  match applies target action with
  | Returns true => true
  | _ => false
  end.

Fixpoint filter_actions (data_frame : Frame) (target : pystr)
    (clicked : list Value) (custom_data_columns : list pystr)
    (source_graph_actions : list ActionModel) : outcome Frame :=
  match source_graph_actions with
  | [] => Returns data_frame
  | action :: later =>
      perform go <- applies target action;
      if go then
        perform data_frame <- filter_columns data_frame clicked 0 custom_data_columns;
        filter_actions data_frame target clicked custom_data_columns later
      else filter_actions data_frame target clicked custom_data_columns later
  end.

Definition _filter_interaction (self : GraphModel) (data_frame : Frame)
    (target : pystr) (ctd_filter_interaction : FilterInteraction) : outcome Frame :=
  let ctd_click_data := clickData ctd_filter_interaction in
  match ctd_value ctd_click_data with
  | None => Returns data_frame
  | Some value =>
      let source_graph_id := ctd_id ctd_click_data in
      perform source <- model_manager_getitem source_graph_id;
      let source_graph_actions := _get_component_actions source in
      perform custom_data_columns <-
        match (perform source <- model_manager_getitem source_graph_id;
               __getitem__ source (str "custom_data")) with
        | Returns columns => Returns columns
        | Raises e =>
            if is_KeyError e then Raises (KeyError_custom_data source_graph_id)
            else Raises e
        end;
      perform point <- list_getitem (points value) 0;
      perform clicked <-
        match customdata point with
        | Some clicked => Returns clicked
        | None => Raises (KeyError (str "customdata"))
        end;
      filter_actions data_frame target clicked (iterate custom_data_columns)
        source_graph_actions
  end.

(** The rows that carry the clicked value in every [custom_data] column. *)
Fixpoint clicked_row (clicked : list Value) (custom_data_idx : nat)
    (custom_data_columns : list pystr) (row : pystr -> Value) : bool :=
  match custom_data_columns with
  | [] => true
  | column :: later =>
      match nth_error clicked custom_data_idx with
      | Some v => isin (row column) v
      | None => false
      end
      && clicked_row clicked (S custom_data_idx) later row
  end.

End Model.
End Graph.

(** ** Stubs for the vizro-core models

    An action function that hands back what it is given, and a dashboard
    with a scatter chart (figure 2, with [custom_data] and a
    [filter_interaction] on [table] and [bar]), and a chart without
    [custom_data] (figure 3, data source not registered). *)
Definition echo (args : @Action.Arguments nat) : result (@Action.PyValue nat) :=
  match args with
  | Action.Positional l => Ok (Action.PySized l)
  | Action.Keywords kw => Ok (Action.PyMapping kw)
  end.

(** A registration that accepts every callback, and one that refuses
    every callback. *)
Definition registers : option Action.Outputs -> Action.Dependencies Action.State ->
                       pystr -> result unit :=
  fun _ _ _ => Ok tt.

Definition refuses : option Action.Outputs -> Action.Dependencies Action.State ->
                     pystr -> result unit :=
  fun _ _ _ => Raise (DashException "InvalidComponentIdError").

Definition echo_action (outputs : list pystr) : @Action.Action nat unit :=
  {| Action.id := str "echo";
     Action.function := Action.CapturedCallable echo;
     Action.inputs := [str "dropdown.value"; str "slider.value"];
     Action.outputs := outputs |}.

Definition gapminder : @Graph.Frame nat :=
  {| Graph.columns := [str "continent"; str "year"];
     Graph.rows :=
       [ (fun label => if bool_decide (label = str "continent") then 1 else 1952);
         (fun label => if bool_decide (label = str "continent") then 2 else 1952);
         (fun label => if bool_decide (label = str "continent") then 1 else 1957) ]%nat |}.

Definition gapminder_continent_1 : @Graph.Frame nat :=
  {| Graph.columns := [str "continent"; str "year"];
     Graph.rows :=
       [ (fun label => if bool_decide (label = str "continent") then 1 else 1952);
         (fun label => if bool_decide (label = str "continent") then 1 else 1957) ]%nat |}.

Definition scatter_chart : @Graph.GraphModel nat :=
  {| Graph.id := str "scatter_chart"; Graph.type := str "graph"; Graph.figure := 2%nat;
     Graph.actions := [ {| Graph.action_function := 1%nat |};
                        {| Graph.action_function := 0%nat |} ] |}.

Definition plain_chart : @Graph.GraphModel nat :=
  {| Graph.id := str "plain_chart"; Graph.type := str "graph"; Graph.figure := 3%nat;
     Graph.actions := [] |}.

Definition titled_figure : @Graph.Figure Z unit :=
  {| Graph.margin_t := None; Graph.margin_l := Some 80%Z;
     Graph.title_text := Some (str "Life expectancy");
     Graph.title_pad_t := None; Graph.title_pad_l := None; Graph.title_pad_r := None;
     Graph.rest := tt |}.

Definition dashboard_stub : @Graph.Surroundings Z nat nat unit :=
  {| Graph.int := fun z => z;
     Graph.isin := Nat.eqb;
     Graph.function_name := fun f =>
       match f with
       | 0%nat => str "filter_interaction"
       | 1%nat => str "export_data"
       | _ => str "scatter"
       end;
     Graph.captured_getitem := fun f name =>
       match f with
       | 0%nat =>
           if bool_decide (name = str "targets")
           then Graph.Returns (Graph.ArgNames [str "table"; str "bar"])
           else Graph.Raises (Graph.KeyError name)
       | 2%nat =>
           if bool_decide (name = str "custom_data")
           then Graph.Returns (Graph.ArgNames [str "continent"])
           else if bool_decide (name = str "data_frame")
           then Graph.Returns (Graph.ArgStr (str "gapminder"))
           else Graph.Raises (Graph.KeyError name)
       | 3%nat =>
           if bool_decide (name = str "data_frame")
           then Graph.Returns (Graph.ArgStr (str "iris"))
           else Graph.Raises (Graph.KeyError name)
       | _ => Graph.Raises (Graph.KeyError name)
       end;
     Graph.captured_call := fun _ _ => Graph.Returns titled_figure;
     Graph.model_manager :=
       <[str "scatter_chart" := scatter_chart]> (<[str "plain_chart" := plain_chart]> ∅);
     Graph._get_component_actions := fun g => Graph.actions g;
     Graph.data_manager_load := fun name =>
       if bool_decide (name = str "gapminder") then Graph.Returns gapminder
       else Graph.Raises (Graph.KeyError name) |}.

(** A click on a point of continent 1 in a chart, and no click. *)
Definition click_on (source_graph_id : pystr) : @Graph.FilterInteraction nat :=
  {| Graph.clickData :=
       {| Graph.ctd_id := source_graph_id;
          Graph.ctd_value :=
            Some {| Graph.points := [ {| Graph.customdata := Some [1%nat] |} ] |} |};
     Graph.modelID := {| Graph.ctd_id := source_graph_id; Graph.ctd_value := None |} |}.

Definition no_click (source_graph_id : pystr) : @Graph.FilterInteraction nat :=
  {| Graph.clickData := {| Graph.ctd_id := source_graph_id; Graph.ctd_value := None |};
     Graph.modelID := {| Graph.ctd_id := source_graph_id; Graph.ctd_value := None |} |}.

(** * Properties *)

(** ** The identifier of a data frame name *)

Section StringFacts.
Context (U : UnicodeData).
Local Open Scope N_scope.

Ltac bool_lia :=
  repeat match goal with
    | H : _ && _ = true |- _ => apply andb_true_iff in H; destruct H
    | H : _ || _ = true |- _ => apply orb_true_iff in H; destruct H
    | H : _ && _ = false |- _ => apply andb_false_iff in H; destruct H
    | H : _ || _ = false |- _ => apply orb_false_iff in H; destruct H
    | H : negb _ = true |- _ => apply negb_true_iff in H
    | H : negb _ = false |- _ => apply negb_false_iff in H
    | H : (_ <=? _) = true |- _ => apply N.leb_le in H
    | H : (_ <=? _) = false |- _ => apply N.leb_gt in H
    | H : (_ <? _) = true |- _ => apply N.ltb_lt in H
    | H : (_ <? _) = false |- _ => apply N.ltb_ge in H
    | H : (_ =? _) = true |- _ => apply N.eqb_eq in H
    | H : (_ =? _) = false |- _ => apply N.eqb_neq in H
    end;
  try lia.

Lemma underscore_is_word : is_word U underscore = true.
Proof. reflexivity. Qed.

Lemma lower_cp_ascii_fixed pre d post :
  is_ascii d = true -> ascii_upper d = false -> lower_cp U pre d post = [d].
Proof. intros Ha Hu. unfold lower_cp. now rewrite Ha, Hu. Qed.

Lemma lower_cp_underscore pre post : lower_cp U pre underscore post = [underscore].
Proof. reflexivity. Qed.

Lemma lower_cp_stable :
  lower_stable U ->
  forall pre c post d, In d (lower_cp U pre c post) ->
  forall pre' post', lower_cp U pre' d post' = [d].
Proof.
  intros HU pre c post d Hin pre' post'.
  unfold lower_cp in Hin. destruct (is_ascii c) eqn:Hc.
  - destruct Hin as [<- | []].
    unfold is_ascii in Hc. apply N.ltb_lt in Hc.
    destruct (ascii_upper c) eqn:Hup; unfold ascii_upper in Hup.
    + apply andb_true_iff in Hup as [H1 H2].
      apply N.leb_le in H1. apply N.leb_le in H2.
      apply lower_cp_ascii_fixed; unfold is_ascii, ascii_upper.
      * apply N.ltb_lt. lia.
      * apply andb_false_iff. right. apply N.leb_gt. lia.
    + apply lower_cp_ascii_fixed; [now apply N.ltb_lt | exact Hup].
  - eapply HU; eassumption.
Qed.

Lemma lower_from_stable :
  lower_stable U ->
  forall s pre d, In d (lower_from U pre s) ->
  forall pre' post', lower_cp U pre' d post' = [d].
Proof.
  intros HU s. induction s as [|c s IH]; intros pre d Hin; [destruct Hin|].
  cbn [lower_from] in Hin. apply in_app_or in Hin as [Hin | Hin].
  - eapply lower_cp_stable; eassumption.
  - eapply IH; eassumption.
Qed.

Lemma lower_from_fixed s :
  (forall d, In d s -> forall pre post, lower_cp U pre d post = [d]) ->
  forall pre, lower_from U pre s = s.
Proof.
  induction s as [|c s IH]; intros Hfix pre; [reflexivity|].
  cbn [lower_from]. rewrite Hfix by (left; reflexivity).
  cbn [app]. f_equal. apply IH. intros d Hd. apply Hfix. now right.
Qed.

Lemma sub_nonword_from_in b s d :
  In d (sub_nonword_from U b s) ->
  is_word U d = true /\ (d = underscore \/ In d s).
Proof.
  revert b. induction s as [|c s IH]; intros b Hin; [destruct Hin|].
  cbn [sub_nonword_from] in Hin. destruct (is_word U c) eqn:Hw.
  - destruct Hin as [<- | Hin].
    + split; [assumption | right; now left].
    + apply IH in Hin as [? [? | ?]]; split; auto. right. now right.
  - destruct b.
    + apply IH in Hin as [? [? | ?]]; split; auto. right. now right.
    + destruct Hin as [<- | Hin].
      * split; [apply underscore_is_word | now left].
      * apply IH in Hin as [? [? | ?]]; split; auto. right. now right.
Qed.

Lemma sub_nonword_from_words s :
  (forall d, In d s -> is_word U d = true) ->
  forall b, sub_nonword_from U b s = s.
Proof.
  induction s as [|c s IH]; intros Hw b; [reflexivity|].
  cbn [sub_nonword_from]. rewrite Hw by now left.
  f_equal. apply IH. intros d Hd. apply Hw. now right.
Qed.

(** A word character of the input survives the substitution. *)
Lemma sub_nonword_from_keeps s d :
  In d s -> is_word U d = true -> forall b, In d (sub_nonword_from U b s).
Proof.
  induction s as [|c s IH]; intros Hin Hw b; [destruct Hin|].
  cbn [sub_nonword_from]. destruct Hin as [-> | Hin].
  - rewrite Hw. now left.
  - destruct (is_word U c); [right; now apply IH|].
    destruct b; [now apply IH | right; now apply IH].
Qed.

Lemma lstrip_incl s d : In d (lstrip_underscore s) -> In d s.
Proof.
  induction s as [|c s IH]; [easy|]. cbn [lstrip_underscore].
  destruct (c =? underscore); [intros H; right; now apply IH | easy].
Qed.

Lemma lstrip_keeps s d : In d s -> d <> underscore -> In d (lstrip_underscore s).
Proof.
  induction s as [|c s IH]; [easy|]. intros Hin Hd. cbn [lstrip_underscore].
  destruct (c =? underscore) eqn:Hc; [|assumption].
  apply N.eqb_eq in Hc. destruct Hin as [-> | Hin]; [congruence | now apply IH].
Qed.

Lemma lstrip_no_leading s : starts_with_underscore (lstrip_underscore s) = false.
Proof.
  induction s as [|c s IH]; [reflexivity|]. cbn [lstrip_underscore].
  destruct (c =? underscore) eqn:Hc; [assumption | exact Hc].
Qed.

Lemma lstrip_fixed s : starts_with_underscore s = false -> lstrip_underscore s = s.
Proof. destruct s as [|c s]; [reflexivity|]. cbn. now intros ->. Qed.

Lemma lstrip_app_cons l c m :
  c <> underscore ->
  lstrip_underscore (l ++ c :: m) = lstrip_underscore l ++ c :: m.
Proof.
  intros Hc. induction l as [|x l IH]; cbn [app lstrip_underscore].
  - apply N.eqb_neq in Hc. now rewrite Hc.
  - destruct (x =? underscore); [exact IH | reflexivity].
Qed.

Lemma rstrip_cons c s :
  c <> underscore -> rstrip_underscore (c :: s) = c :: rstrip_underscore s.
Proof.
  intros Hc. unfold rstrip_underscore. cbn [rev].
  rewrite lstrip_app_cons by assumption. rewrite rev_app_distr. reflexivity.
Qed.

Lemma rstrip_incl s d : In d (rstrip_underscore s) -> In d s.
Proof.
  unfold rstrip_underscore. intros H. apply in_rev in H.
  apply lstrip_incl in H. now apply in_rev in H.
Qed.

Lemma rstrip_keeps s d : In d s -> d <> underscore -> In d (rstrip_underscore s).
Proof.
  unfold rstrip_underscore. intros H Hd. apply -> in_rev.
  apply lstrip_keeps; [now apply -> in_rev | assumption].
Qed.

Lemma rstrip_idempotent s :
  rstrip_underscore (rstrip_underscore s) = rstrip_underscore s.
Proof.
  unfold rstrip_underscore. rewrite rev_involutive.
  now rewrite (lstrip_fixed _ (lstrip_no_leading _)).
Qed.

Lemma rstrip_no_trailing s : ends_with_underscore (rstrip_underscore s) = false.
Proof.
  unfold ends_with_underscore, rstrip_underscore. rewrite rev_involutive.
  apply lstrip_no_leading.
Qed.

Lemma rstrip_no_leading s :
  starts_with_underscore s = false ->
  starts_with_underscore (rstrip_underscore s) = false.
Proof.
  destruct s as [|c s]; [reflexivity|]. cbn [starts_with_underscore]. intros Hc.
  rewrite rstrip_cons by now apply N.eqb_neq. exact Hc.
Qed.

Lemma strip_no_leading s : starts_with_underscore (strip_underscore s) = false.
Proof. apply rstrip_no_leading, lstrip_no_leading. Qed.

Lemma strip_no_trailing s : ends_with_underscore (strip_underscore s) = false.
Proof. apply rstrip_no_trailing. Qed.

Lemma strip_idempotent s :
  strip_underscore (strip_underscore s) = strip_underscore s.
Proof.
  unfold strip_underscore at 1.
  rewrite (lstrip_fixed _ (strip_no_leading s)).
  unfold strip_underscore. apply rstrip_idempotent.
Qed.

Lemma strip_incl s d : In d (strip_underscore s) -> In d s.
Proof. intros H. now apply lstrip_incl, rstrip_incl. Qed.

Lemma strip_keeps s d : In d s -> d <> underscore -> In d (strip_underscore s).
Proof. intros H Hd. apply rstrip_keeps; [now apply lstrip_keeps | assumption]. Qed.

(** Every character of an identifier is a word character. *)
Lemma clean_df_name_words s d :
  In d (clean_df_name U s) -> is_word U d = true.
Proof.
  unfold clean_df_name, re_sub_nonword. intros H.
  apply strip_incl in H. now apply sub_nonword_from_in in H as [? _].
Qed.

(** Every character of an identifier is left alone by lower-casing. *)
Lemma clean_df_name_lowered s d :
  lower_stable U ->
  In d (clean_df_name U s) -> forall pre post, lower_cp U pre d post = [d].
Proof.
  unfold clean_df_name, re_sub_nonword, lower. intros HU H pre post.
  apply strip_incl in H. apply sub_nonword_from_in in H as [_ [-> | H]].
  - apply lower_cp_underscore.
  - eapply lower_from_stable; eassumption.
Qed.

(** C5: cleaning a name twice gives what cleaning it once gives. *)
Theorem clean_df_name_idempotent :
  lower_stable U ->
  forall s, clean_df_name U (clean_df_name U s) = clean_df_name U s.
Proof.
  intros HU s.
  set (t := clean_df_name U s).
  assert (Hlow : lower U t = t).
  { apply lower_from_fixed. intros d Hd. now apply clean_df_name_lowered with (s := s). }
  assert (Hsub : re_sub_nonword U t = t).
  { apply sub_nonword_from_words. intros d Hd. now apply clean_df_name_words with (s := s). }
  unfold clean_df_name at 1. cbv zeta. rewrite Hlow, Hsub.
  subst t. unfold clean_df_name. cbv zeta. apply strip_idempotent.
Qed.

(** *** The pattern of identifiers *)

Lemma lower_from_in_inv s pre d :
  In d (lower_from U pre s) ->
  exists pre' c post', In c s /\ In d (lower_cp U pre' c post').
Proof.
  revert pre. induction s as [|c s IH]; intros pre Hin; [destruct Hin|].
  cbn [lower_from] in Hin. apply in_app_or in Hin as [Hin | Hin].
  - exists pre, c, s. split; [now left | assumption].
  - apply IH in Hin as (pre' & c' & post' & Hc & Hd).
    exists pre', c', post'. split; [now right | assumption].
Qed.

Lemma lower_from_in s pre c :
  In c s ->
  exists pre' post', forall d, In d (lower_cp U pre' c post') -> In d (lower_from U pre s).
Proof.
  revert pre. induction s as [|x s IH]; intros pre Hin; [destruct Hin|].
  destruct Hin as [-> | Hin].
  - exists pre, s. intros d Hd. cbn [lower_from]. apply in_or_app. now left.
  - destruct (IH (x :: pre) Hin) as (pre' & post' & H).
    exists pre', post'. intros d Hd. cbn [lower_from]. apply in_or_app. right. now apply H.
Qed.

Lemma lower_cp_ascii_spec pre c post d :
  is_ascii c = true -> In d (lower_cp U pre c post) ->
  is_ascii d = true /\ ascii_upper d = false
  /\ ascii_alnum d = ascii_alnum c /\ (d = underscore <-> c = underscore).
Proof.
  intros Hc Hin. unfold lower_cp in Hin. rewrite Hc in Hin.
  destruct Hin as [<- | []].
  unfold ascii_alnum, is_ascii, ascii_upper, ascii_lowercase, ascii_digit, underscore in *.
  apply N.ltb_lt in Hc.
  destruct (65 <=? c) eqn:H1; destruct (c <=? 90) eqn:H2; cbn [andb];
    bool_lia; repeat split; try lia;
    repeat match goal with
      | |- context [?a <? ?b] =>
          let H := fresh in destruct (N.ltb_spec a b) as [H|H]; try lia
      | |- context [?a <=? ?b] =>
          let H := fresh in destruct (N.leb_spec a b) as [H|H]; try lia
      end; try reflexivity; try lia.
Qed.

Lemma ident_class_of_word d :
  is_ascii d = true -> ascii_upper d = false -> is_word U d = true ->
  in_ident_class d = true.
Proof.
  intros Ha Hu Hw. unfold is_word in Hw. rewrite Ha, Hu in Hw.
  unfold in_ident_class. now rewrite orb_false_r in Hw.
Qed.

(** The identifier of an ASCII name is made of [a-z0-9_]. *)
Lemma clean_df_name_ascii_class s :
  (forall c, In c s -> is_ascii c = true) ->
  forall d, In d (clean_df_name U s) -> in_ident_class d = true.
Proof.
  intros Hs d Hd. pose proof (clean_df_name_words _ _ Hd) as Hw.
  unfold clean_df_name, re_sub_nonword, lower in Hd.
  apply strip_incl in Hd. apply sub_nonword_from_in in Hd as [_ [-> | Hd]].
  - reflexivity.
  - apply lower_from_in_inv in Hd as (pre & c & post & Hc & Hd).
    destruct (lower_cp_ascii_spec _ _ _ _ (Hs c Hc) Hd) as (Ha & Hu & _).
    now apply ident_class_of_word.
Qed.

(** The identifier is empty exactly when the ASCII name has no letter and
    no digit. *)
Lemma clean_df_name_ascii_nonempty s :
  (forall c, In c s -> is_ascii c = true) ->
  (clean_df_name U s <> [] <-> exists c, In c s /\ ascii_alnum c = true).
Proof.
  intros Hs. split.
  - intros Hne. destruct (clean_df_name U s) as [|d t] eqn:E; [congruence|].
    assert (Hd : In d (clean_df_name U s)) by (rewrite E; now left).
    assert (Hnu : d <> underscore).
    { pose proof (strip_no_leading (re_sub_nonword U (lower U s))) as H.
      unfold clean_df_name in E. cbv zeta in E. rewrite E in H. cbn in H.
      now apply N.eqb_neq in H. }
    pose proof (clean_df_name_words _ _ Hd) as Hw.
    unfold clean_df_name, re_sub_nonword, lower in Hd.
    apply strip_incl in Hd. apply sub_nonword_from_in in Hd as [_ [-> | Hd]]; [congruence|].
    apply lower_from_in_inv in Hd as (pre & c & post & Hc & Hd).
    destruct (lower_cp_ascii_spec _ _ _ _ (Hs c Hc) Hd) as (Ha & Hu & Haln & Hus).
    exists c. split; [assumption|]. rewrite <- Haln.
    unfold ascii_alnum. rewrite Ha. cbn [andb].
    unfold is_word in Hw. rewrite Ha in Hw.
    apply N.eqb_neq in Hnu. now rewrite Hnu, orb_false_r in Hw.
  - intros (c & Hc & Haln) Hnil.
    destruct (lower_from_in s [] c Hc) as (pre & post & Hin).
    assert (Hasc : is_ascii c = true).
    { unfold ascii_alnum in Haln. now apply andb_true_iff in Haln as [? _]. }
    pose (d := if ascii_upper c then c + 32 else c).
    assert (Hd : In d (lower_cp U pre c post)).
    { unfold lower_cp. rewrite Hasc. now left. }
    destruct (lower_cp_ascii_spec _ _ _ _ Hasc Hd) as (Ha & Hu & Haln' & Hus).
    rewrite Haln in Haln'.
    assert (Hnu : d <> underscore).
    { intros ->. revert Haln'. now vm_compute. }
    assert (Hw : is_word U d = true).
    { unfold is_word. rewrite Ha. unfold ascii_alnum in Haln'. rewrite Ha in Haln'.
      cbn [andb] in Haln'. now rewrite Haln'. }
    assert (In d (clean_df_name U s)) as Hfin.
    { unfold clean_df_name, re_sub_nonword, lower. apply strip_keeps; [|assumption].
      apply sub_nonword_from_keeps; [|assumption]. now apply Hin. }
    rewrite Hnil in Hfin. destruct Hfin.
Qed.

Lemma matches_of_class s :
  s <> [] -> (forall d, In d s -> in_ident_class d = true) ->
  matches_ident_pattern s = true.
Proof.
  intros Hne Hall. unfold matches_ident_pattern. apply orb_true_iff. left.
  destruct s as [|c s]; [congruence|]. cbn [all_in_class_nonempty].
  apply forallb_forall. exact Hall.
Qed.

Lemma matches_nonempty s : matches_ident_pattern s = true -> s <> [].
Proof. intros H ->. discriminate H. Qed.

(** For an ASCII name, the identifier matches [^[a-z0-9_]+$] exactly when
    the name has a letter or a digit. *)
Lemma clean_df_name_ascii_matches s :
  (forall c, In c s -> is_ascii c = true) ->
  (matches_ident_pattern (clean_df_name U s) = true
   <-> exists c, In c s /\ ascii_alnum c = true).
Proof.
  intros Hs. rewrite <- (clean_df_name_ascii_nonempty s Hs). split.
  - apply matches_nonempty.
  - intros Hne. apply matches_of_class; [assumption|].
    now apply clean_df_name_ascii_class.
Qed.

End StringFacts.

(** The cleaning on a few names. *)
Example clean_example_1 :
  clean_df_name ascii_only (str "  Global Demographics!! ") = str "global_demographics".
Proof. reflexivity. Qed.

Example clean_example_2 :
  clean_df_name ascii_only (str "__GDP--per  capita (2007)__") = str "gdp_per_capita_2007".
Proof. reflexivity. Qed.

Example clean_example_3 : clean_df_name ascii_only (str "???") = [].
Proof. reflexivity. Qed.

Example clean_example_4 :
  clean_df_name sample_tables [304; 32; 201; 178]%N = [105; 95; 233; 178]%N.
Proof. reflexivity. Qed.

Lemma ascii_only_stable : lower_stable ascii_only.
Proof.
  intros pre c post d Hc [<- | []] pre' post'.
  unfold lower_cp. now rewrite Hc.
Qed.

Lemma sample_tables_stable : lower_stable sample_tables.
Proof.
  intros pre c post d Hc Hin pre' post'.
  unfold is_ascii in Hc. apply N.ltb_ge in Hc.
  assert (Hd : (d = 105 \/ (128 <= d /\ (d < 192 \/ d = 215 \/ 222 < d) /\ d <> 304))%N).
  { cbn [sample_tables uni_lower] in Hin.
    destruct (N.leb_spec 192 c); destruct (N.leb_spec c 222);
      destruct (N.eqb_spec c 215); cbn [andb negb] in Hin;
      try (destruct Hin as [<- | []]; lia);
      destruct (N.eqb_spec c 304); try (destruct Hin as [<- | [<- | []]]; lia);
      destruct Hin as [<- | []]; lia. }
  destruct Hd as [-> | Hd]; [reflexivity|].
  unfold lower_cp, is_ascii.
  destruct (N.ltb_spec d 128); [lia|].
  cbn [sample_tables uni_lower].
  destruct (N.leb_spec 192 d); destruct (N.leb_spec d 222);
    destruct (N.eqb_spec d 215); cbn [andb negb]; try lia;
    destruct (N.eqb_spec d 304); try lia; reflexivity.
Qed.

(** The theorem at the name made of the dotted capital I, a space, a
    capital E with acute accent and a superscript two. *)
Lemma clean_df_name_idempotent_witness :
  lower_stable sample_tables
  /\ clean_df_name sample_tables (clean_df_name sample_tables [304; 32; 201; 178]%N)
     = clean_df_name sample_tables [304; 32; 201; 178]%N.
Proof.
  split; [exact sample_tables_stable|].
  apply (clean_df_name_idempotent sample_tables sample_tables_stable).
Defined.

(** ** The graph *)

Section GraphFacts.
Context {DataFrame PagePlanner Page LLM : Type}.
Context `{env : !Collaborators DataFrame PagePlanner Page LLM}.

Implicit Types (order : @Order DataFrame PagePlanner).
Implicit Types (st : @GraphState DataFrame PagePlanner Page).
Implicit Types (config : @RunnableConfig LLM).
Implicit Types (kw : @GraphStateInput DataFrame PagePlanner Page).
Implicit Types (plan : @DashboardPlanner PagePlanner).
Implicit Types (sends packets : list (@Send DataFrame PagePlanner)).
Implicit Types (ts : list (@Task DataFrame PagePlanner)).

Abbreviation the_graph := (compiled _create_and_compile_graph).

(** *** The four nodes as tasks *)

Lemma run_task_store config st :
  run_task the_graph config st (Pull "_store_df_info")
  = do upd <- _store_df_info st config;
    Ok {| tr_writes := upd; tr_triggers := ["_dashboard_plan"%string]; tr_sends := [] |}.
Proof. reflexivity. Qed.

Lemma run_task_plan config st :
  run_task the_graph config st (Pull "_dashboard_plan")
  = do upd <- _dashboard_plan st config;
    do sends <- _continue_to_pages (apply_update st upd);
    Ok {| tr_writes := upd; tr_triggers := []; tr_sends := sends |}.
Proof. reflexivity. Qed.

Lemma run_task_build config st arg :
  run_task the_graph config st (Push {| send_node := "_build_page"; send_arg := arg |})
  = do upd <- _build_page arg config;
    Ok {| tr_writes := upd; tr_triggers := ["_build_dashboard"%string]; tr_sends := [] |}.
Proof. reflexivity. Qed.

Lemma run_task_assemble config st :
  run_task the_graph config st (Pull "_build_dashboard")
  = do upd <- _build_dashboard st;
    Ok {| tr_writes := upd; tr_triggers := []; tr_sends := [] |}.
Proof. reflexivity. Qed.

(** *** Orders *)

Lemma order_nil order : rearranges order -> order [] = [].
Proof. intros H. apply Permutation_nil. symmetry. apply H. Qed.

Lemma order_singleton order (t : Task) : rearranges order -> order [t] = [t].
Proof. intros H. apply Permutation_length_1_inv. symmetry. apply H. Qed.

(** *** The fan-out *)

Lemma continue_to_pages_spec st plan :
  dashboard_plan st = Some plan ->
  _continue_to_pages st = Ok (List.map (packet_for (df_metadata st)) (plan_pages plan)).
Proof. intros H. unfold _continue_to_pages. now rewrite H. Qed.

Lemma continue_to_pages_nodes st sends :
  _continue_to_pages st = Ok sends ->
  forall packet, In packet sends -> send_node packet = "_build_page"%string.
Proof.
  unfold _continue_to_pages. destruct (dashboard_plan st); [|discriminate].
  intros [= <-] packet Hin. apply in_map_iff in Hin as (v & <- & _). reflexivity.
Qed.

Lemma packets_of_push sends : packets_of (List.map Push sends) = sends.
Proof. induction sends as [|p l IH]; [reflexivity|]. cbn. now f_equal. Qed.

Lemma push_packets_of ts :
  (forall t, In t ts -> is_build_task t = true) ->
  List.map Push (packets_of ts) = ts.
Proof.
  induction ts as [|t ts IH]; intros H; [reflexivity|].
  assert (Ht := H t (or_introl eq_refl)).
  destruct t; [discriminate|]. cbn. f_equal. apply IH. intros t' Ht'. apply H. now right.
Qed.

(** What the completion order makes of the packets of a fan-out. *)
Lemma order_packets order sends :
  rearranges order ->
  Permutation (packets_of (order (List.map Push sends))) sends
  /\ List.map Push (packets_of (order (List.map Push sends))) = order (List.map Push sends).
Proof.
  intros Hord. pose proof (Hord (List.map Push sends)) as Hp. split.
  - rewrite <- (packets_of_push sends) at 2. unfold packets_of.
    now apply Permutation_flat_map.
  - apply push_packets_of. intros t Ht.
    eapply Permutation_in in Ht; [|exact Hp].
    apply in_map_iff in Ht as (p & <- & _). reflexivity.
Qed.

(** *** The build superstep *)

Lemma run_tasks_build config st packets :
  (forall packet, In packet packets -> send_node packet = "_build_page"%string) ->
  run_tasks the_graph config st (List.map Push packets)
  = (List.map Push (fst (build_all config packets)),
     match snd (build_all config packets) with
     | Ok built => inl (List.map build_result built)
     | Raise e => inr ("_build_page"%string, e)
     end).
Proof.
  induction packets as [|packet rest IH]; intros Hnodes; [reflexivity|].
  cbn [List.map run_tasks build_all].
  assert (Hn : send_node packet = "_build_page"%string) by (apply Hnodes; now left).
  destruct packet as [node arg]. cbn in Hn. subst node.
  rewrite run_task_build. unfold _build_page, build_of. cbn [send_arg].
  destruct (PageBuilder_page (model config) (bp_df_metadata arg) (page_plan arg))
    as [page|e]; cbn [bind]; [|reflexivity].
  rewrite IH by (intros q Hq; apply Hnodes; now right).
  destruct (build_all config rest) as [handled [built|e]]; reflexivity.
Qed.

Lemma apply_update_pages_nil st : apply_update st (Upd_pages []) = st.
Proof. destruct st. cbn. now rewrite app_nil_r. Qed.

Lemma apply_update_pages_app st (a b : list Page) :
  apply_update (apply_update st (Upd_pages a)) (Upd_pages b)
  = apply_update st (Upd_pages (a ++ b)).
Proof. destruct st. cbn. now rewrite app_assoc. Qed.

(** Merging the single-page writes one after the other is appending all the
    pages. *)
Lemma apply_writes_build st built :
  apply_writes st (List.map build_result built) = apply_update st (Upd_pages built).
Proof.
  revert st. induction built as [|page built IH]; intros st.
  - now rewrite apply_update_pages_nil.
  - unfold apply_writes in *. cbn [List.map fold_left tr_writes build_result].
    rewrite IH. apply apply_update_pages_app.
Qed.

(** However many packets were built, the assembler is scheduled once. *)
Lemma next_tasks_build page built :
  next_tasks the_graph (List.map build_result (page :: built))
  = [Pull "_build_dashboard"].
Proof.
  unfold next_tasks.
  assert (Hs : forall l : list Page,
             flat_map tr_sends (List.map (@build_result DataFrame PagePlanner Page) l) = []).
  { induction l as [|x l IH]; [reflexivity | exact IH]. }
  rewrite Hs.
  assert (Ht : forall l : list Page,
             flat_map tr_triggers (List.map (@build_result DataFrame PagePlanner Page) l)
                         = repeat "_build_dashboard"%string (length l)).
  { induction l as [|x l IH]; [reflexivity|]. cbn. now f_equal. }
  rewrite Ht.
  assert (He : forall name n,
             existsb (String.eqb name) (repeat "_build_dashboard"%string (S n))
             = String.eqb name "_build_dashboard").
  { intros name n. induction n as [|n IH]; cbn [repeat existsb] in *.
    - now rewrite orb_false_r.
    - rewrite IH. now destruct (String.eqb name "_build_dashboard"). }
  change (List.map fst (nodes the_graph))
    with ["_store_df_info"; "_dashboard_plan"; "_build_page"; "_build_dashboard"]%string.
  cbn [length List.filter]. rewrite !He. reflexivity.
Qed.

Lemma next_tasks_plan (u : Update) sends :
  next_tasks the_graph [{| tr_writes := u; tr_triggers := []; tr_sends := sends |}]
  = List.map Push sends.
Proof.
  unfold next_tasks. cbn [flat_map tr_sends tr_triggers app].
  change (List.map fst (nodes the_graph))
    with ["_store_df_info"; "_dashboard_plan"; "_build_page"; "_build_dashboard"]%string.
  cbn [existsb List.filter List.map]. now rewrite !app_nil_r.
Qed.

Lemma build_all_length config packets built :
  snd (build_all config packets) = Ok built ->
  fst (build_all config packets) = packets /\ length built = length packets.
Proof.
  revert built. induction packets as [|p rest IH]; intros built.
  - cbn. intros [= <-]. now split.
  - cbn [build_all]. destruct (build_of config p) as [page|e]; [|discriminate].
    destruct (build_all config rest) as [handled [later|e]]; cbn [fst snd bind] in *;
      [|discriminate].
    intros [= <-]. destruct (IH later eq_refl) as [-> Hlen]. cbn. now rewrite Hlen.
Qed.

Lemma build_all_built config packets built :
  snd (build_all config packets) = Ok built -> all_built config packets = true.
Proof.
  revert built. induction packets as [|p rest IH]; intros built; [reflexivity|].
  unfold all_built in *. cbn [build_all forallb].
  destruct (build_of config p) as [page|e]; [|discriminate].
  destruct (build_all config rest) as [handled [later|e]]; cbn [fst snd bind] in *;
    [|discriminate].
  intros _. cbn [is_ok andb]. now apply (IH later).
Qed.

Lemma build_all_ok config packets :
  all_built config packets = true ->
  build_all config packets = (packets, Ok (built_pages config packets)).
Proof.
  induction packets as [|p rest IH]; [reflexivity|].
  unfold all_built, built_pages in *. cbn [forallb build_all flat_map].
  destruct (build_of config p) as [page|e]; cbn [is_ok andb]; [|discriminate].
  intros H. now rewrite (IH H).
Qed.

Lemma build_all_raises config packets :
  all_built config packets = false ->
  exists e, snd (build_all config packets) = Raise e.
Proof.
  induction packets as [|p rest IH]; [discriminate|].
  unfold all_built in *. cbn [forallb build_all].
  destruct (build_of config p) as [page|e]; cbn [is_ok andb].
  - intros H. destruct (IH H) as [e He].
    destruct (build_all config rest) as [handled r]. cbn [snd] in *.
    rewrite He. now exists e.
  - intros _. now exists e.
Qed.

Lemma all_built_perm config packets packets' :
  Permutation packets packets' ->
  all_built config packets = all_built config packets'.
Proof.
  intros Hp. unfold all_built.
  induction Hp as [|x l l' _ IH|x y l|l l' l'' _ IH1 _ IH2]; cbn [forallb].
  - reflexivity.
  - now rewrite IH.
  - now rewrite !andb_assoc, (andb_comm (is_ok (build_of config y))).
  - congruence.
Qed.

Lemma built_pages_perm config packets packets' :
  Permutation packets packets' ->
  Permutation (built_pages config packets) (built_pages config packets').
Proof. intros Hp. unfold built_pages. now apply Permutation_flat_map. Qed.

Lemma built_pages_length config packets :
  all_built config packets = true ->
  length (built_pages config packets) = length packets.
Proof.
  intros H. apply (build_all_length config packets).
  now rewrite (build_all_ok _ _ H).
Qed.

(** What the build tasks returned, in the order of the packets. *)
Lemma returned_build config st packets :
  (forall packet, In packet packets -> send_node packet = "_build_page"%string) ->
  returned the_graph config st (List.map Push packets)
  = List.map build_result (built_pages config packets).
Proof.
  induction packets as [|packet rest IH]; intros Hnodes; [reflexivity|].
  unfold returned, built_pages in *. cbn [List.map flat_map].
  assert (Hn : send_node packet = "_build_page"%string) by (apply Hnodes; now left).
  destruct packet as [node arg]. cbn in Hn. subst node.
  rewrite run_task_build. unfold _build_page, build_of. cbn [send_arg].
  rewrite IH by (intros q Hq; apply Hnodes; now right).
  destruct (PageBuilder_page (model config) (bp_df_metadata arg) (page_plan arg))
    as [page|e]; reflexivity.
Qed.

Lemma returned_singleton g config st (t : Task) r :
  run_task g config st t = Ok r -> returned g config st [t] = [r].
Proof. intros H. unfold returned. cbn [flat_map]. now rewrite H. Qed.

(** When all tasks of a superstep have returned, what the loop merges is
    what they returned, rearranged from the order of completion into the
    order of the tasks. *)
Lemma run_tasks_returned g config st ts ran rs :
  run_tasks g config st ts = (ran, inl rs) ->
  ran = ts /\ rs = returned g config st ts.
Proof.
  revert ran rs. induction ts as [|t ts IH]; intros ran rs.
  - cbn. now intros [= <- <-].
  - unfold returned in *. cbn [run_tasks flat_map].
    destruct (run_task g config st t) as [r|e]; [|discriminate].
    destruct (run_tasks g config st ts) as [ran' [rs'|failure]]; [|discriminate].
    intros [= <- <-]. destruct (IH ran' rs' eq_refl) as [-> ->]. now split.
Qed.

Lemma returned_in_task_order order g config st ts ran rs :
  rearranges order ->
  run_tasks g config st (order ts) = (ran, inl rs) ->
  Permutation ran ts /\ Permutation rs (returned g config st ts).
Proof.
  intros Hord Hrun. destruct (run_tasks_returned _ _ _ _ _ _ Hrun) as [-> ->].
  split; [apply Hord|]. unfold returned. apply Permutation_flat_map, Hord.
Qed.

(** *** The loop on this graph *)

Lemma pregel_loop_step order g config limit t ts st :
  pregel_loop order g config (S limit) (t :: ts) st
  = match run_tasks g config st (order (t :: ts)) with
    | (ran, inr (node, e)) => (ran, Aborted node e st)
    | (ran, inl _) =>
        let rs := returned g config st (t :: ts) in
        let '(later, out) :=
          pregel_loop order g config limit (next_tasks g rs) (apply_writes st rs) in
        (ran ++ later, out)
    end.
Proof. reflexivity. Qed.

Lemma pregel_loop_done order g config limit st :
  pregel_loop order g config limit [] st = ([], Completed st).
Proof. destruct limit; reflexivity. Qed.

(** Four supersteps are all the graph ever takes. *)
Lemma pregel_loop_pipeline order config st0 n :
  rearranges order ->
  pregel_loop order the_graph config (4 + n) [Pull "_store_df_info"] st0
  = pipeline_from order config st0.
Proof.
  intros Hord. unfold pipeline_from. cbn [Nat.add].
  (* summarize *)
  rewrite pregel_loop_step, (order_singleton _ _ Hord).
  cbn [run_tasks]. rewrite run_task_store.
  destruct (_store_df_info st0 config) as [u1|e] eqn:Hstore; cbn [bind]; [|reflexivity].
  cbv zeta.
  rewrite (returned_singleton _ _ _ _ _
             ltac:(rewrite run_task_store, Hstore; reflexivity)).
  change (next_tasks the_graph _) with [@Pull DataFrame PagePlanner "_dashboard_plan"].
  change (apply_writes st0 _) with (apply_update st0 u1).
  set (st1 := apply_update st0 u1).
  (* plan and fan out *)
  rewrite pregel_loop_step, (order_singleton _ _ Hord).
  cbn [run_tasks]. rewrite run_task_plan.
  destruct (_dashboard_plan st1 config) as [u2|e] eqn:Hplan; cbn [bind]; [|reflexivity].
  destruct (_continue_to_pages (apply_update st1 u2)) as [sends|e] eqn:Hsends;
    cbn [bind]; [|reflexivity].
  cbv zeta.
  rewrite (returned_singleton _ _ _ _ _
             ltac:(rewrite run_task_plan, Hplan; cbn [bind]; rewrite Hsends;
                   reflexivity)).
  rewrite next_tasks_plan.
  change (apply_writes st1 _) with (apply_update st1 u2).
  set (st2 := apply_update st1 u2) in *.
  destruct sends as [|packet sends]; [now rewrite pregel_loop_done|].
  (* build *)
  set (fanout := packet :: sends) in *.
  change (List.map Push fanout) with (Push packet :: List.map Push sends) at 1.
  rewrite pregel_loop_step.
  change (Push packet :: List.map Push sends) with (List.map Push fanout).
  destruct (order_packets order fanout Hord) as [Hperm Hpush].
  rewrite <- Hpush at 1.
  rewrite run_tasks_build.
  2:{ intros q Hq. eapply continue_to_pages_nodes; [exact Hsends|].
      eapply Permutation_in; eassumption. }
  destruct (build_all config (packets_of (order (List.map Push fanout))))
    as [handled [built|e]] eqn:Hbuild; cbn [fst snd]; [|reflexivity].
  assert (Hall : all_built config fanout = true).
  { rewrite <- (all_built_perm _ _ _ Hperm).
    apply (build_all_built config _ built). now rewrite Hbuild. }
  cbv zeta.
  rewrite returned_build by (intros q Hq; eapply continue_to_pages_nodes; eassumption).
  pose proof (built_pages_length _ _ Hall) as Hlen.
  destruct (built_pages config fanout) as [|page pages'] eqn:Hpages; [discriminate Hlen|].
  rewrite next_tasks_build, apply_writes_build.
  set (st3 := apply_update st2 (Upd_pages (page :: pages'))).
  (* assemble *)
  rewrite pregel_loop_step, (order_singleton _ _ Hord).
  cbn [run_tasks]. rewrite run_task_assemble.
  destruct (_build_dashboard st3) as [u4|e] eqn:Hdash; cbn [bind]; [|reflexivity].
  cbv zeta.
  rewrite (returned_singleton _ _ _ _ _
             ltac:(rewrite run_task_assemble, Hdash; reflexivity)).
  change (next_tasks the_graph _) with (@nil (@Task DataFrame PagePlanner)).
  rewrite pregel_loop_done. reflexivity.
Qed.

(** The run of the compiled graph is the pipeline: it never reaches the
    recursion limit, and it ends in one of the outcomes of [pipeline]. *)
Lemma run_pipeline order config kw :
  rearranges order -> run order config kw = pipeline order config kw.
Proof.
  intros Hord. unfold run, pipeline.
  destruct (GraphState_new kw) as [st0|e]; [|reflexivity].
  unfold invoke. change (entry_point the_graph) with (Some "_store_df_info"%string).
  cbv iota beta. change recursion_limit with (4 + 21)%nat.
  now apply pregel_loop_pipeline.
Qed.

(** *** What the stages write *)

Lemma store_df_info_writes st config u :
  _store_df_info st config = Ok u -> exists m, u = Upd_df_metadata m.
Proof.
  unfold _store_df_info, _store_df_info_logged.
  destruct (store_df_info_loop _ _ _ _ _) as [sent [m|e]]; cbn; [|discriminate].
  intros [= <-]. now exists m.
Qed.

Lemma dashboard_plan_writes st config u :
  _dashboard_plan st config = Ok u -> exists plan, u = Upd_dashboard_plan plan.
Proof.
  unfold _dashboard_plan. destruct (getitem (messages st) 0) as [first|e]; [|discriminate].
  cbn [bind]. destruct (_get_dashboard_plan _ _ _) as [plan|e]; [|discriminate].
  intros [= <-]. now exists plan.
Qed.

(** *** The validation of [dfs] *)

Lemma check_each_dataframe_ok (l : list (@pyobj DataFrame)) :
  check_each_dataframe l = Ok tt <-> forall x, In x l -> isinstance_DataFrame x = true.
Proof.
  induction l as [|x l IH]; cbn [check_each_dataframe].
  - split; [intros _ x [] | reflexivity].
  - destruct (isinstance_DataFrame x) eqn:Hx.
    + rewrite IH. split.
      * intros H y [<- | Hy]; [assumption | now apply H].
      * intros H y Hy. apply H. now right.
    + split; [discriminate|]. intros H. specialize (H x (or_introl eq_refl)). congruence.
Qed.

Lemma all_dataframes_spec (l : list (@pyobj DataFrame)) :
  forallb isinstance_DataFrame l = true
  <-> forall x, In x l -> isinstance_DataFrame x = true.
Proof. apply forallb_forall. Qed.

Lemma some_other_spec (l : list (@pyobj DataFrame)) :
  (exists x, In x l /\ isinstance_DataFrame x = false) ->
  forallb isinstance_DataFrame l = false.
Proof.
  intros (x & Hx & Hf). destruct (forallb isinstance_DataFrame l) eqn:E; [|reflexivity].
  rewrite all_dataframes_spec in E. rewrite (E x Hx) in Hf. discriminate.
Qed.

(** What passes the validation of the field is a list of data frames. *)
Lemma validate_List_DataFrame_ok (v v' : @pyvalue DataFrame) :
  validate_List_DataFrame v = Ok v' ->
  exists l, v' = PyList l
            /\ (v = PyList l \/ v = PySequence l)
            /\ forall x, In x l -> isinstance_DataFrame x = true.
Proof.
  unfold validate_List_DataFrame.
  destruct v as [l|l|o]; [| |discriminate];
    destruct (forallb isinstance_DataFrame l) eqn:E; try discriminate;
    intros [= <-]; exists l; rewrite all_dataframes_spec in E; auto.
Qed.

(** The validator of the class is called on such a list only and returns
    it: neither of its two errors is raised when a state is constructed. *)
Lemma check_dataframes_validated (v v' : @pyvalue DataFrame) :
  validate_List_DataFrame v = Ok v' -> check_dataframes v' = Ok v'.
Proof.
  intros H. destruct (validate_List_DataFrame_ok _ _ H) as (l & -> & _ & Hl).
  unfold check_dataframes. now rewrite (proj2 (check_each_dataframe_ok l) Hl).
Qed.

Lemma GraphState_new_spec kw :
  GraphState_new kw
  = do v <- validate_List_DataFrame (in_dfs kw);
    Ok {| messages := in_messages kw;
          dfs := dataframes_of v;
          df_metadata := in_df_metadata kw;
          dashboard_plan := in_dashboard_plan kw;
          pages := in_pages kw;
          dashboard := in_dashboard kw |}.
Proof.
  unfold GraphState_new.
  destruct (validate_List_DataFrame (in_dfs kw)) as [v|e] eqn:E; [|reflexivity].
  cbn [bind]. now rewrite (check_dataframes_validated _ _ E).
Qed.

Lemma GraphState_new_fields kw st :
  GraphState_new kw = Ok st ->
  messages st = in_messages kw /\ df_metadata st = in_df_metadata kw
  /\ dashboard_plan st = in_dashboard_plan kw /\ pages st = in_pages kw
  /\ dashboard st = in_dashboard kw /\ dfs st = dataframes_of (in_dfs kw).
Proof.
  rewrite GraphState_new_spec.
  destruct (validate_List_DataFrame (in_dfs kw)) as [v|e] eqn:E; [|discriminate].
  cbn [bind]. intros [= <-]. cbn. repeat split.
  destruct (validate_List_DataFrame_ok _ _ E) as (l & -> & [-> | ->] & _); reflexivity.
Qed.

Lemma GraphState_new_raises kw e :
  GraphState_new kw = Raise e -> exists msg, e = ValidationError msg.
Proof.
  rewrite GraphState_new_spec. unfold validate_List_DataFrame.
  destruct (in_dfs kw) as [l|l|o]; try destruct (forallb isinstance_DataFrame l);
    cbn [bind]; try discriminate; intros [= <-]; eexists; reflexivity.
Qed.

Lemma dataframes_of_valid (l : list (@pyobj DataFrame)) :
  (forall x, In x l -> isinstance_DataFrame x = true) ->
  List.map PyDataFrame (dataframes_of (PyList l)) = l.
Proof.
  induction l as [|x l IH]; intros H; [reflexivity|].
  assert (Hx := H x (or_introl eq_refl)). destruct x as [d|repr]; [|discriminate].
  cbn. f_equal. apply IH. intros y Hy. apply H. now right.
Qed.



(** C8: a [dfs] list (or tuple) with an element that is not a data frame
    makes the construction of the state raise a validation error, and the
    run ends there with no task run; with data frames only, the
    construction returns a state whose [dfs] is the list of these data
    frames, unchanged.  Construction raises nothing but validation errors,
    and the validator of the class, which is called after the items have
    been checked against the type of the field, returns what it is given. *)
Theorem dataframes_validated order config kw (l : list (@pyobj DataFrame)) :
  in_dfs kw = PyList l \/ in_dfs kw = PySequence l ->
  ((exists x, In x l /\ isinstance_DataFrame x = false) ->
     GraphState_new kw = Raise (ValidationError "instance of DataFrame expected")
     /\ run order config kw
        = ([], Rejected (ValidationError "instance of DataFrame expected")))
  /\ ((forall x, In x l -> isinstance_DataFrame x = true) ->
     validate_List_DataFrame (in_dfs kw) = Ok (PyList l)
     /\ check_dataframes (PyList l) = Ok (PyList l)
     /\ exists st, GraphState_new kw = Ok st
                   /\ List.map PyDataFrame (dfs st) = l
                   /\ messages st = in_messages kw
                   /\ df_metadata st = in_df_metadata kw
                   /\ pages st = in_pages kw)
  /\ (forall e, GraphState_new kw = Raise e ->
        e = ValidationError "instance of DataFrame expected"
        /\ exists x, In x l /\ isinstance_DataFrame x = false).
Proof.
  intros Hl.
  assert (Hbad : (exists x, In x l /\ isinstance_DataFrame x = false) ->
                 GraphState_new kw
                 = Raise (ValidationError "instance of DataFrame expected")).
  { intros Hx. apply some_other_spec in Hx. rewrite GraphState_new_spec.
    unfold validate_List_DataFrame. destruct Hl as [-> | ->]; now rewrite Hx. }
  assert (Hgood : (forall x, In x l -> isinstance_DataFrame x = true) ->
                  validate_List_DataFrame (in_dfs kw) = Ok (PyList l)).
  { intros Hx. apply all_dataframes_spec in Hx. unfold validate_List_DataFrame.
    destruct Hl as [-> | ->]; now rewrite Hx. }
  split; [|split].
  - intros Hx. split; [now apply Hbad|]. unfold run. now rewrite (Hbad Hx).
  - intros Hx. pose proof (Hgood Hx) as Hv.
    split; [exact Hv|]. split; [exact (check_dataframes_validated _ _ Hv)|].
    rewrite GraphState_new_spec, Hv. cbn [bind].
    eexists. split; [reflexivity|]. cbn [dfs messages df_metadata pages].
    split; [now apply dataframes_of_valid | auto].
  - intros e He.
    destruct (forallb isinstance_DataFrame l) eqn:E.
    + rewrite all_dataframes_spec in E.
      rewrite GraphState_new_spec, (Hgood E) in He. discriminate.
    + assert (Hx : exists x, In x l /\ isinstance_DataFrame x = false).
      { clear -E. induction l as [|x l IH]; [discriminate|].
        cbn [forallb] in E. destruct (isinstance_DataFrame x) eqn:Hx.
        - destruct (IH E) as (y & Hy & Hf). exists y. split; [now right | exact Hf].
        - exists x. split; [now left | exact Hx]. }
      split; [|exact Hx]. rewrite (Hbad Hx) in He. now injection He as <-.
Qed.

(** *** The assembler *)

(** C4: with the plan set, [_build_dashboard] returns one dashboard whose
    title is the title of the plan and whose pages are the pages of the
    state, in their order; merged into the state it sets [dashboard] and
    nothing else. *)
Theorem build_dashboard_assembles st plan :
  dashboard_plan st = Some plan ->
  exists d,
    _build_dashboard st = Ok (Upd_dashboard d)
    /\ dashboard_title d = plan_title plan
    /\ dashboard_pages d = pages st
    /\ dashboard (apply_update st (Upd_dashboard d)) = Some d
    /\ pages (apply_update st (Upd_dashboard d)) = pages st
    /\ dashboard_plan (apply_update st (Upd_dashboard d)) = Some plan
    /\ df_metadata (apply_update st (Upd_dashboard d)) = df_metadata st
    /\ messages (apply_update st (Upd_dashboard d)) = messages st
    /\ dfs (apply_update st (Upd_dashboard d)) = dfs st.
Proof.
  intros Hplan. unfold _build_dashboard. rewrite Hplan.
  eexists. split; [reflexivity|]. cbn. now rewrite Hplan.
Qed.

(** *** The planner *)



Lemma dashboard_plan_first_message st config first rest :
  messages st = first :: rest ->
  _dashboard_plan st config
  = do plan <- _get_dashboard_plan (content first) (model config) (df_metadata st);
    Ok (Upd_dashboard_plan plan).
Proof. intros H. unfold _dashboard_plan. now rewrite H. Qed.


(** *** The summary loop *)

Implicit Types (msgs : list Message) (todo : list DataFrame).
Implicit Types (cur : list DfInfo) (md : gmap (list N) (@DfEntry DataFrame)).
Implicit Types (sent : list (@SummaryRequest DataFrame)).

Lemma answers_cons_ok llm request sent name :
  data_sum_chain_invoke llm request = Ok name ->
  answers llm (request :: sent) = name :: answers llm sent.
Proof. intros H. unfold answers. cbn [flat_map]. now rewrite H. Qed.

Lemma entry_of_ok (d : DataFrame) schema sample :
  _get_df_info d = Ok (schema, sample) ->
  entry_of d = {| df_schema := schema; df := d |}.
Proof. intros H. unfold entry_of, schema_of. now rewrite H. Qed.

(** The request at position [i] is for the data frame at position [i], on
    which [_get_df_info] has returned; it carries the messages, the schema
    and sample of that data frame, and the answers to the [i] requests
    before it. *)
Lemma loop_requests config llm msgs todo cur md i request :
  model config = Some llm ->
  nth_error (fst (store_df_info_loop config msgs todo cur md)) i = Some request ->
  exists d schema sample,
    nth_error todo i = Some d
    /\ _get_df_info d = Ok (schema, sample)
    /\ request
       = {| req_messages := msgs;
            req_df_schema := schema;
            req_df_sample := sample;
            req_current_df_names :=
              cur ++ answers llm (firstn i (fst (store_df_info_loop config msgs todo cur md))) |}
    /\ length (answers llm (firstn i (fst (store_df_info_loop config msgs todo cur md)))) = i.
Proof.
  intros Hllm. revert cur md i.
  induction todo as [|d rest IH]; intros cur md i.
  - cbn. now destruct i.
  - cbn [store_df_info_loop].
    destruct (_get_df_info d) as [[schema sample]|e0] eqn:Hinfo.
    2:{ cbn. now destruct i. }
    rewrite Hllm.
    set (first := {| req_messages := msgs; req_df_schema := schema;
                     req_df_sample := sample; req_current_df_names := cur |}).
    destruct (data_sum_chain_invoke llm first) as [name|e] eqn:Hans.
    + specialize (IH (cur ++ [name])
                     (<[clean_df_name unicode (dataset_name name) :=
                          {| df_schema := schema; df := d |}]> md)).
      destruct (store_df_info_loop config msgs rest (cur ++ [name]) _) as [sent r].
      cbn [fst] in *. destruct i as [|i]; cbn [nth_error firstn].
      * intros [= <-]. exists d, schema, sample. cbn. now rewrite app_nil_r.
      * intros Hi. destruct (IH i Hi) as (d' & schema' & sample' & Hd' & Hinfo' & Hreq & Hlen).
        exists d', schema', sample'. rewrite (answers_cons_ok _ _ _ _ Hans).
        split; [assumption|]. split; [assumption|]. split.
        -- rewrite Hreq. f_equal. now rewrite <- app_assoc.
        -- cbn. now rewrite Hlen.
    + cbn [fst]. destruct i as [|[|i]]; cbn; try discriminate.
      intros [= <-]. exists d, schema, sample. cbn. now rewrite app_nil_r.
Qed.

(** No more requests than data frames. *)
Lemma loop_requests_bound config msgs todo cur md :
  (length (fst (store_df_info_loop config msgs todo cur md)) <= length todo)%nat.
Proof.
  revert cur md. induction todo as [|d rest IH]; intros cur md; [reflexivity|].
  cbn [store_df_info_loop].
  destruct (_get_df_info d) as [[schema sample]|e0]; [|cbn; lia].
  destruct (model config) as [llm|]; [|cbn; lia].
  destruct (data_sum_chain_invoke llm _) as [name|e]; [|cbn; lia].
  specialize (IH (cur ++ [name])
                 (<[clean_df_name unicode (dataset_name name) :=
                      {| df_schema := schema; df := d |}]> md)).
  destruct (store_df_info_loop config msgs rest (cur ++ [name]) _) as [sent r].
  cbn [fst length] in *. lia.
Qed.

(** When the loop returns, [_get_df_info] has returned on every data
    frame, every data frame was asked about once and the mapping holds the
    assignments in the order of the data frames. *)
Lemma loop_metadata config llm msgs todo cur md m :
  model config = Some llm ->
  snd (store_df_info_loop config msgs todo cur md) = Ok m ->
  let sent := fst (store_df_info_loop config msgs todo cur md) in
  length sent = length todo
  /\ length (answers llm sent) = length todo
  /\ m = insert_all (combine (identifiers (answers llm sent)) (List.map entry_of todo)) md
  /\ forall d, In d todo -> is_ok (_get_df_info d) = true.
Proof.
  intros Hllm. revert cur md.
  induction todo as [|d rest IH]; intros cur md.
  - cbn. intros [= <-]. repeat split. intros d [].
  - cbn [store_df_info_loop].
    destruct (_get_df_info d) as [[schema sample]|e0] eqn:Hinfo; [|discriminate].
    rewrite Hllm.
    set (first := {| req_messages := msgs; req_df_schema := schema;
                     req_df_sample := sample; req_current_df_names := cur |}).
    destruct (data_sum_chain_invoke llm first) as [name|e] eqn:Hans; [|discriminate].
    specialize (IH (cur ++ [name])
                   (<[clean_df_name unicode (dataset_name name) :=
                        {| df_schema := schema; df := d |}]> md)).
    destruct (store_df_info_loop config msgs rest (cur ++ [name]) _) as [sent r].
    cbn [fst snd] in *. intros Hr. destruct (IH Hr) as (Hl1 & Hl2 & Hm & Hok).
    rewrite (answers_cons_ok _ _ _ _ Hans).
    cbn [length List.map identifiers combine].
    split; [congruence|]. split; [congruence|]. split.
    + rewrite Hm. unfold insert_all. cbn [fold_left fst snd].
      now rewrite (entry_of_ok _ _ _ Hinfo).
    + intros d' [<- | Hd']; [now rewrite Hinfo | now apply Hok].
Qed.

Lemma dom_insert_all (kvs : list (pystr * @DfEntry DataFrame)) md :
  dom (insert_all kvs md) = dom md ∪ list_to_set (List.map fst kvs).
Proof.
  revert md. induction kvs as [|[k v] kvs IH]; intros md.
  - cbn. now rewrite union_empty_r_L.
  - unfold insert_all in *. cbn [fold_left List.map fst snd list_to_set].
    rewrite IH, dom_insert_L.
    rewrite (union_comm_L {[k]} (dom md)). now rewrite union_assoc_L.
Qed.

Lemma size_insert_all (kvs : list (pystr * @DfEntry DataFrame)) md :
  (size (insert_all kvs md) <= size md + length kvs)%nat.
Proof.
  revert md. induction kvs as [|[k v] kvs IH]; intros md.
  - cbn. lia.
  - unfold insert_all in *. cbn [fold_left fst snd length].
    specialize (IH (<[k:=v]> md)).
    rewrite map_size_insert in IH. destruct (md !! k); unfold id in IH; lia.
Qed.

Lemma size_insert_all_fresh (kvs : list (pystr * @DfEntry DataFrame)) md :
  NoDup (List.map fst kvs) ->
  (forall k, In k (List.map fst kvs) -> md !! k = None) ->
  size (insert_all kvs md) = (size md + length kvs)%nat.
Proof.
  revert md. induction kvs as [|[k v] kvs IH]; intros md Hnd Hfresh.
  - cbn. lia.
  - unfold insert_all in *. cbn [fold_left List.map fst snd length] in *.
    apply NoDup_cons in Hnd as [Hk Hnd].
    rewrite IH; [|assumption|].
    + rewrite map_size_insert_None by (apply Hfresh; now left). lia.
    + intros k' Hk'. rewrite lookup_insert_ne.
      * apply Hfresh. now right.
      * intros <-. apply Hk. now apply list_elem_of_In.
Qed.

Lemma combine_fst_map {A B} (l : list A) (l' : list B) :
  length l = length l' -> List.map fst (combine l l') = l.
Proof.
  revert l'. induction l as [|a l IH]; intros [|b l'] H; try discriminate; [reflexivity|].
  cbn. f_equal. apply IH. now injection H.
Qed.

Lemma store_df_info_loop_of st config m :
  _store_df_info st config = Ok (Upd_df_metadata m) ->
  snd (store_df_info_loop config (messages st) (dfs st) [] (df_metadata st)) = Ok m
  /\ fst (_store_df_info_logged st config)
     = fst (store_df_info_loop config (messages st) (dfs st) [] (df_metadata st)).
Proof.
  unfold _store_df_info, _store_df_info_logged.
  destruct (store_df_info_loop _ _ _ _ _) as [sent [m'|e]]; cbn; [|discriminate].
  intros [= <-]. now split.
Qed.

Lemma answers_length_le llm sent : (length (answers llm sent) <= length sent)%nat.
Proof.
  induction sent as [|r sent IH]; [reflexivity|].
  unfold answers in *. cbn [flat_map]. rewrite length_app.
  destruct (data_sum_chain_invoke llm r); cbn [length]; lia.
Qed.

Lemma answers_all_ok llm sent :
  length (answers llm sent) = length sent ->
  forall j earlier, nth_error sent j = Some earlier ->
  exists name, data_sum_chain_invoke llm earlier = Ok name
               /\ nth_error (answers llm sent) j = Some name.
Proof.
  induction sent as [|r sent IH]; intros Hlen j earlier Hj; [now destruct j|].
  pose proof (answers_length_le llm sent) as Hle.
  destruct (data_sum_chain_invoke llm r) as [name|e] eqn:Hr.
  - rewrite (answers_cons_ok _ _ _ _ Hr) in *. cbn [length] in Hlen.
    destruct j as [|j]; cbn [nth_error] in *.
    + injection Hj as <-. now exists name.
    + apply IH; [lia | assumption].
  - unfold answers in Hlen. cbn [flat_map] in Hlen. rewrite Hr in Hlen.
    cbn [app length] in Hlen. fold (answers llm sent) in Hlen. lia.
Qed.

(** C7: the requests are sent in the order of [dfs], at most one per data
    frame and, when the stage returns, exactly one per data frame; the
    request at position [i] is about the data frame at position [i] and
    carries the messages, the schema and the sample of that data frame
    and, as [current_df_names], the answers given to the [i] requests
    before it, in that order. *)
Theorem summary_requests_in_order st config llm :
  model config = Some llm ->
  let sent := fst (_store_df_info_logged st config) in
  (length sent <= length (dfs st))%nat
  /\ (is_ok (_store_df_info st config) = true ->
      length sent = length (dfs st)
      /\ length (answers llm sent) = length (dfs st))
  /\ forall i request,
       nth_error sent i = Some request ->
       exists d schema sample,
         nth_error (dfs st) i = Some d
         /\ _get_df_info d = Ok (schema, sample)
         /\ req_messages request = messages st
         /\ req_df_schema request = schema
         /\ req_df_sample request = sample
         /\ req_current_df_names request = answers llm (firstn i sent)
         /\ length (req_current_df_names request) = i
         /\ (forall j earlier,
               nth_error (firstn i sent) j = Some earlier ->
               exists name,
                 data_sum_chain_invoke llm earlier = Ok name
                 /\ nth_error (req_current_df_names request) j = Some name).
Proof.
  intros Hllm sent.
  assert (Hsent : sent = fst (store_df_info_loop config (messages st) (dfs st) []
                                (df_metadata st))).
  { subst sent. unfold _store_df_info_logged.
    now destruct (store_df_info_loop _ _ _ _ _). }
  split; [|split].
  - rewrite Hsent. apply loop_requests_bound.
  - intros Hok.
    assert (Hloop : exists m, snd (store_df_info_loop config (messages st) (dfs st) []
                                     (df_metadata st)) = Ok m).
    { unfold _store_df_info, _store_df_info_logged in Hok.
      destruct (store_df_info_loop _ _ _ _ _) as [l [m|e]]; cbn in *;
        [now exists m | discriminate]. }
    destruct Hloop as [m Hloop].
    destruct (loop_metadata _ _ _ _ _ _ _ Hllm Hloop) as (Hl1 & Hl2 & _).
    cbv zeta in Hl1, Hl2. rewrite <- Hsent in Hl1, Hl2. now split.
  - intros i request Hi. rewrite Hsent in Hi |- *.
    destruct (loop_requests _ _ _ _ _ _ _ _ Hllm Hi)
      as (d & schema & sample & Hd & Hinfo & Hreq & Hlen).
    exists d, schema, sample. rewrite Hreq.
    cbn [req_messages req_df_schema req_df_sample req_current_df_names app].
    repeat split; try assumption.
    intros j earlier Hj. apply answers_all_ok; [|assumption].
    rewrite Hlen. rewrite length_firstn. apply eq_sym, Nat.min_l.
    apply Nat.lt_le_incl. apply nth_error_Some. congruence.
Qed.

Lemma identifiers_shape (names : list DfInfo) id :
  In id (identifiers names) ->
  (forall d, In d id -> is_word unicode d = true)
  /\ starts_with_underscore id = false
  /\ ends_with_underscore id = false.
Proof.
  unfold identifiers. intros H. apply in_map_iff in H as (name & <- & _).
  split; [|split].
  - intros d. apply clean_df_name_words.
  - apply strip_no_leading.
  - apply strip_no_trailing.
Qed.

(** C2, as the code has it: when the summary stage returns, one name was
    assigned per data frame; the keys of the mapping are the keys it had
    plus the identifiers of these names, so that it has at most one new
    entry per data frame, and exactly one when the identifiers differ from
    each other and from the keys already there; an identifier is made of
    word characters and neither starts nor ends with an underscore; the
    identifier of an ASCII name matches [^[a-z0-9_]+$] exactly when the
    name has a letter or a digit.  The entry of a data frame is its schema,
    as [_get_df_info] returned it, and the data frame. *)
Theorem summary_metadata st config llm m :
  model config = Some llm ->
  _store_df_info st config = Ok (Upd_df_metadata m) ->
  let names := answers llm (fst (_store_df_info_logged st config)) in
  let ids := identifiers names in
  length names = length (dfs st)
  /\ m = insert_all (combine ids (List.map entry_of (dfs st))) (df_metadata st)
  /\ dom m = dom (df_metadata st) ∪ list_to_set ids
  /\ (size m <= size (df_metadata st) + length (dfs st))%nat
  /\ (NoDup ids -> (forall id, In id ids -> df_metadata st !! id = None) ->
      size m = (size (df_metadata st) + length (dfs st))%nat)
  /\ (forall id, In id ids ->
        (forall d, In d id -> is_word unicode d = true)
        /\ starts_with_underscore id = false
        /\ ends_with_underscore id = false)
  /\ (forall name, In name names ->
        (forall c, In c (dataset_name name) -> is_ascii c = true) ->
        (matches_ident_pattern (clean_df_name unicode (dataset_name name)) = true
         <-> exists c, In c (dataset_name name) /\ ascii_alnum c = true))
  /\ (forall d, In d (dfs st) ->
        exists schema sample,
          _get_df_info d = Ok (schema, sample)
          /\ entry_of d = {| df_schema := schema; df := d |}).
Proof.
  intros Hllm Hstore names ids.
  destruct (store_df_info_loop_of _ _ _ Hstore) as [Hloop Hsent].
  destruct (loop_metadata _ _ _ _ _ _ _ Hllm Hloop) as (Hl1 & Hl2 & Hm & Hinfo).
  cbv zeta in Hl1, Hl2, Hm. rewrite <- Hsent in Hl1, Hl2, Hm.
  fold names in Hl2, Hm. fold ids in Hm.
  assert (Hlen : length ids = length (List.map entry_of (dfs st))).
  { subst ids. unfold identifiers. now rewrite !length_map. }
  assert (Hkeys : List.map fst (combine ids (List.map entry_of (dfs st))) = ids)
    by now apply combine_fst_map.
  assert (Hcomb : length (combine ids (List.map entry_of (dfs st))) = length (dfs st)).
  { rewrite length_combine, <- Hlen, Nat.min_id. subst ids. unfold identifiers.
    now rewrite length_map. }
  split; [assumption|]. split; [assumption|]. split.
  { rewrite Hm, dom_insert_all. now rewrite Hkeys. }
  split.
  { rewrite Hm. rewrite <- Hcomb. apply size_insert_all. }
  split.
  { intros Hnd Hfresh. rewrite Hm, <- Hcomb. apply size_insert_all_fresh.
    - now rewrite Hkeys.
    - now rewrite Hkeys. }
  split.
  { apply identifiers_shape. }
  split.
  { intros name _ Hascii. now apply clean_df_name_ascii_matches. }
  intros d Hd. specialize (Hinfo d Hd).
  destruct (_get_df_info d) as [[schema sample]|e] eqn:E; [|discriminate].
  exists schema, sample. split; [reflexivity | exact (entry_of_ok _ _ _ E)].
Qed.

(** *** The run *)

(** C6: when the planner's completion call raises (a validation error, or
    any other exception), the run is aborted in [_dashboard_plan] with that
    exception after the two tasks of summary and planning; the state is the
    one the planner was given: [dashboard], [dashboard_plan] and [pages]
    are as at construction, and no build task has run. *)
Theorem planner_failure_aborts order config kw st0 m first rest e :
  rearranges order ->
  GraphState_new kw = Ok st0 ->
  _store_df_info st0 config = Ok (Upd_df_metadata m) ->
  messages st0 = first :: rest ->
  _get_dashboard_plan (content first) (model config) m = Raise e ->
  let st1 := apply_update st0 (Upd_df_metadata m) in
  run order config kw
  = ([Pull "_store_df_info"; Pull "_dashboard_plan"], Aborted "_dashboard_plan" e st1)
  /\ dashboard st1 = in_dashboard kw
  /\ dashboard_plan st1 = in_dashboard_plan kw
  /\ pages st1 = in_pages kw
  /\ List.filter is_build_task (fst (run order config kw)) = []
  /\ final_dashboard (snd (run order config kw)) = None.
Proof.
  intros Hord Hnew Hstore Hmsgs Hplan st1.
  destruct (GraphState_new_fields _ _ Hnew) as (_ & _ & Hp & Hpages & Hd & _).
  assert (Hrun : run order config kw
                 = ([Pull "_store_df_info"; Pull "_dashboard_plan"],
                    Aborted "_dashboard_plan" e st1)).
  { rewrite (run_pipeline _ _ _ Hord). unfold pipeline. rewrite Hnew.
    unfold pipeline_from. rewrite Hstore. cbv zeta. fold st1.
    rewrite (dashboard_plan_first_message st1 config first rest) by exact Hmsgs.
    cbn [df_metadata st1 apply_update]. now rewrite Hplan. }
  rewrite Hrun. repeat split; assumption.
Qed.

Lemma built_pages_nth config packets i packet :
  all_built config packets = true ->
  nth_error packets i = Some packet ->
  exists page, build_of config packet = Ok page
               /\ nth_error (built_pages config packets) i = Some page.
Proof.
  revert i. induction packets as [|p rest IH]; intros i Hall Hi; [now destruct i|].
  unfold all_built, built_pages in *. cbn [forallb flat_map] in *.
  destruct (build_of config p) as [page|e] eqn:Hp; cbn [is_ok andb] in Hall; [|discriminate].
  destruct i as [|i]; cbn [nth_error app] in *.
  - injection Hi as <-. now exists page.
  - now apply IH.
Qed.

Lemma no_assemble_among_builds ts :
  (forall t, In t ts -> is_build_task t = true) ->
  List.filter is_assemble_task ts = [].
Proof.
  induction ts as [|t ts IH]; intros H; [reflexivity|].
  assert (Ht := H t (or_introl eq_refl)). destruct t; [discriminate|].
  cbn. apply IH. intros t' Ht'. apply H. now right.
Qed.

Lemma order_builds order sends t :
  rearranges order -> In t (order (List.map Push sends)) -> is_build_task t = true.
Proof.
  intros Hord Ht. eapply Permutation_in in Ht; [|apply Hord].
  apply in_map_iff in Ht as (p & <- & _). reflexivity.
Qed.

(** The pipeline once summary and planning have returned. *)
Lemma pipeline_planned order config kw st0 m plan :
  GraphState_new kw = Ok st0 ->
  _store_df_info st0 config = Ok (Upd_df_metadata m) ->
  _dashboard_plan (apply_update st0 (Upd_df_metadata m)) config
  = Ok (Upd_dashboard_plan plan) ->
  let st2 := apply_update (apply_update st0 (Upd_df_metadata m))
               (Upd_dashboard_plan plan) in
  let sends := List.map (packet_for m) (plan_pages plan) in
  let summarized := [Pull "_store_df_info"; Pull "_dashboard_plan"] in
  pipeline order config kw
  = match plan_pages plan with
    | [] => (summarized, Completed st2)
    | _ :: _ =>
        match build_all config (packets_of (order (List.map Push sends))) with
        | (handled, Raise e) =>
            (summarized ++ List.map Push handled, Aborted "_build_page" e st2)
        | (handled, Ok _) =>
            let built := built_pages config sends in
            (summarized ++ List.map Push handled ++ [Pull "_build_dashboard"],
             Completed
               (apply_update (apply_update st2 (Upd_pages built))
                  (Upd_dashboard {| dashboard_title := plan_title plan;
                                    dashboard_pages := pages st0 ++ built |})))
        end
    end.
Proof.
  intros Hnew Hstore Hplan st2 sends summarized.
  unfold pipeline. rewrite Hnew. unfold pipeline_from. rewrite Hstore.
  cbv zeta. rewrite Hplan. cbn [bind]. fold st2.
  rewrite (continue_to_pages_spec st2 plan) by reflexivity.
  change (df_metadata st2) with m. fold sends. cbn [bind].
  subst sends. destruct (plan_pages plan) as [|v vs]; [reflexivity|].
  cbn [List.map].
  destruct (build_all config _) as [handled [built|e]]; reflexivity.
Qed.

(** C3, as the code has it: with a plan of no pages the fan-out emits no
    packet and the run is complete after planning; the assembler is not
    entered, and [dashboard] and [pages] are as at construction. *)
Theorem empty_plan_ends_after_planning order config kw st0 m plan :
  rearranges order ->
  GraphState_new kw = Ok st0 ->
  _store_df_info st0 config = Ok (Upd_df_metadata m) ->
  _dashboard_plan (apply_update st0 (Upd_df_metadata m)) config
  = Ok (Upd_dashboard_plan plan) ->
  plan_pages plan = [] ->
  let st2 := apply_update (apply_update st0 (Upd_df_metadata m))
               (Upd_dashboard_plan plan) in
  _continue_to_pages st2 = Ok []
  /\ run order config kw
     = ([Pull "_store_df_info"; Pull "_dashboard_plan"], Completed st2)
  /\ List.filter is_assemble_task (fst (run order config kw)) = []
  /\ dashboard st2 = in_dashboard kw
  /\ pages st2 = in_pages kw.
Proof.
  intros Hord Hnew Hstore Hplan Hempty st2.
  destruct (GraphState_new_fields _ _ Hnew) as (_ & _ & _ & Hpages & Hd & _).
  assert (Hrun : run order config kw
                 = ([Pull "_store_df_info"; Pull "_dashboard_plan"], Completed st2)).
  { rewrite (run_pipeline _ _ _ Hord).
    rewrite (pipeline_planned order config kw st0 m plan Hnew Hstore Hplan).
    now rewrite Hempty. }
  split.
  { rewrite (continue_to_pages_spec st2 plan) by reflexivity. now rewrite Hempty. }
  rewrite Hrun. repeat split; assumption.
Qed.

(** C1, as the code has it: a plan of [k] pages makes the fan-out emit [k]
    packets for [_build_page], one per page plan in the order of the plan,
    each with that page plan and the metadata; a build task writes a list
    of one page, which the reducer appends to [pages]; when the [k] page
    builders return, the tasks of the run are summary, planning, the [k]
    build tasks in the order they complete, and then, if [k] is not zero,
    the assembler, once and last; the assembled dashboard holds the pages
    there were plus the [k] built ones, in the order of the plan whatever
    the order in which the build tasks completed.  With [k = 0] the
    assembler does not run. *)
Theorem fan_out_fan_in order config kw st0 m plan :
  rearranges order ->
  GraphState_new kw = Ok st0 ->
  _store_df_info st0 config = Ok (Upd_df_metadata m) ->
  _dashboard_plan (apply_update st0 (Upd_df_metadata m)) config
  = Ok (Upd_dashboard_plan plan) ->
  let st2 := apply_update (apply_update st0 (Upd_df_metadata m))
               (Upd_dashboard_plan plan) in
  let sends := List.map (packet_for m) (plan_pages plan) in
  let k := length (plan_pages plan) in
  all_built config sends = true ->
  let ran := order (List.map Push sends) in
  _continue_to_pages st2 = Ok sends
  /\ length sends = k
  /\ (forall packet, In packet sends ->
        exists page,
          _build_page (send_arg packet) config = Ok (Upd_pages [page])
          /\ forall st, pages (apply_update st (Upd_pages [page])) = pages st ++ [page])
  /\ Permutation ran (List.map Push sends)
  /\ fst (run order config kw)
     = [Pull "_store_df_info"; Pull "_dashboard_plan"] ++ ran
       ++ match k with O => [] | S _ => [Pull "_build_dashboard"] end
  /\ length (List.filter is_assemble_task (fst (run order config kw)))
     = match k with O => 0%nat | S _ => 1%nat end
  /\ exists final,
       snd (run order config kw) = Completed final
       /\ pages final = in_pages kw ++ built_pages config sends
       /\ length (pages final) = (length (in_pages kw) + k)%nat
       /\ (forall i v,
             nth_error (plan_pages plan) i = Some v ->
             exists page,
               PageBuilder_page (model config) m v = Ok page
               /\ nth_error (pages final) (length (in_pages kw) + i) = Some page)
       /\ dashboard final
          = match k with
            | O => in_dashboard kw
            | S _ => Some {| dashboard_title := plan_title plan;
                             dashboard_pages := pages final |}
            end.
Proof.
  intros Hord Hnew Hstore Hplan st2 sends k Hbuilt ran.
  destruct (GraphState_new_fields _ _ Hnew) as (_ & _ & _ & Hpages & Hd & _).
  assert (Hnth : forall i v,
             nth_error (plan_pages plan) i = Some v ->
             exists page,
               PageBuilder_page (model config) m v = Ok page
               /\ nth_error (in_pages kw ++ built_pages config sends)
                    (length (in_pages kw) + i) = Some page).
  { intros i v Hi.
    destruct (built_pages_nth config sends i (packet_for m v) Hbuilt)
      as (page & Hpage & Hnth).
    { subst sends. now apply map_nth_error. }
    exists page. split; [exact Hpage|].
    rewrite nth_error_app2 by lia.
    replace (length (in_pages kw) + i - length (in_pages kw))%nat with i by lia.
    exact Hnth. }
  split. { now rewrite (continue_to_pages_spec st2 plan). }
  split. { subst sends k. now rewrite length_map. }
  split.
  { intros packet Hin. unfold all_built in Hbuilt.
    rewrite forallb_forall in Hbuilt. specialize (Hbuilt packet Hin).
    unfold _build_page. unfold build_of in Hbuilt.
    destruct (PageBuilder_page _ _ _) as [page|e]; [|discriminate].
    exists page. split; [reflexivity|]. intros st. reflexivity. }
  split. { apply Hord. }
  rewrite (run_pipeline _ _ _ Hord).
  rewrite (pipeline_planned order config kw st0 m plan Hnew Hstore Hplan).
  fold sends. fold ran. subst k.
  destruct (plan_pages plan) as [|v vs] eqn:Hpp.
  - assert (Hran : ran = []) by (subst ran sends; cbn; now apply order_nil).
    rewrite Hran. cbn [fst snd app length List.filter is_assemble_task String.eqb].
    split; [reflexivity|]. split; [reflexivity|].
    eexists. split; [reflexivity|]. cbn [pages dashboard apply_update st2].
    rewrite Hpages. subst sends. cbn [List.map built_pages flat_map].
    rewrite app_nil_r. repeat split; auto.
    intros i w Hi. now destruct i.
  - destruct (order_packets order sends Hord) as [Hperm Hpush]. fold ran in Hperm, Hpush.
    assert (Hall : all_built config (packets_of ran) = true).
    { now rewrite (all_built_perm _ _ _ Hperm). }
    rewrite (build_all_ok _ _ Hall), Hpush. cbv zeta. cbn [fst snd length].
    split; [reflexivity|]. split.
    { rewrite !List.filter_app.
      rewrite (no_assemble_among_builds ran).
      - reflexivity.
      - intros t Ht. now apply (order_builds order sends). }
    eexists. split; [reflexivity|]. cbn [pages apply_update dashboard].
    rewrite Hpages. split; [reflexivity|]. split; [|split; [exact Hnth | reflexivity]].
    rewrite length_app, (built_pages_length _ _ Hbuilt).
    subst sends. now rewrite length_map.
Qed.

Lemma final_dashboard_planned order config kw st0 m plan :
  rearranges order ->
  GraphState_new kw = Ok st0 ->
  _store_df_info st0 config = Ok (Upd_df_metadata m) ->
  _dashboard_plan (apply_update st0 (Upd_df_metadata m)) config
  = Ok (Upd_dashboard_plan plan) ->
  let sends := List.map (packet_for m) (plan_pages plan) in
  final_dashboard (snd (pipeline order config kw))
  = match plan_pages plan with
    | [] => dashboard st0
    | _ :: _ =>
        if all_built config sends
        then Some {| dashboard_title := plan_title plan;
                     dashboard_pages := pages st0 ++ built_pages config sends |}
        else None
    end.
Proof.
  intros Hord Hnew Hstore Hplan sends.
  rewrite (pipeline_planned order config kw st0 m plan Hnew Hstore Hplan).
  fold sends. destruct (plan_pages plan) as [|v vs] eqn:Hpp; [reflexivity|].
  destruct (order_packets order sends Hord) as [Hperm _].
  rewrite <- (all_built_perm _ _ _ Hperm).
  destruct (all_built config (packets_of (order (List.map Push sends)))) eqn:Hall.
  - now rewrite (build_all_ok _ _ Hall).
  - destruct (build_all_raises _ _ Hall) as [e He].
    destruct (build_all config _) as [handled r]. cbn [snd] in He. now rewrite He.
Qed.

(** The builders of a fan-out all return or not, whatever the order in
    which they complete. *)
Lemma build_all_is_ok config packets :
  is_ok (snd (build_all config packets)) = all_built config packets.
Proof.
  destruct (all_built config packets) eqn:Hall.
  - now rewrite (build_all_ok _ _ Hall).
  - destruct (build_all_raises _ _ Hall) as [e ->]. reflexivity.
Qed.

(** A run that completes completes in the same state under any other
    completion order. *)
Lemma pipeline_from_completed order1 order2 config st0 st :
  rearranges order1 ->
  rearranges order2 ->
  snd (pipeline_from order1 config st0) = Completed st ->
  snd (pipeline_from order2 config st0) = Completed st.
Proof.
  intros Hord1 Hord2. unfold pipeline_from.
  destruct (_store_df_info st0 config) as [u1|e]; [|discriminate]. cbv zeta.
  destruct (bind (_dashboard_plan (apply_update st0 u1) config) _)
    as [[u2 [|packet sends]]|e]; [trivial| |discriminate].
  set (fanout := packet :: sends).
  pose proof (build_all_is_ok config (packets_of (order1 (List.map Push fanout)))) as E1.
  pose proof (build_all_is_ok config (packets_of (order2 (List.map Push fanout)))) as E2.
  rewrite (all_built_perm _ _ _ (proj1 (order_packets order1 fanout Hord1))) in E1.
  rewrite (all_built_perm _ _ _ (proj1 (order_packets order2 fanout Hord2))) in E2.
  destruct (build_all config (packets_of (order1 (List.map Push fanout))))
    as [handled1 [built1|e1]]; cbn [snd is_ok] in E1; [|discriminate].
  destruct (build_all config (packets_of (order2 (List.map Push fanout))))
    as [handled2 [built2|e2]]; cbn [snd is_ok] in E2; [|congruence].
  destruct (_build_dashboard _) as [u4|e]; trivial.
Qed.

(** C9: two runs from the same initial state, with the same collaborators,
    end with the same dashboard, whatever the orders in which the tasks of
    the two runs complete: the final dashboards are equal, that is, they
    have the same title, as many pages, and the same pages in the same
    order; and when one run completes, the other completes in the same
    state. *)
Theorem runs_agree order1 order2 config kw :
  rearranges order1 ->
  rearranges order2 ->
  final_dashboard (snd (run order1 config kw))
  = final_dashboard (snd (run order2 config kw))
  /\ (forall st, snd (run order1 config kw) = Completed st ->
                 snd (run order2 config kw) = Completed st)
  /\ (forall d1 d2,
        final_dashboard (snd (run order1 config kw)) = Some d1 ->
        final_dashboard (snd (run order2 config kw)) = Some d2 ->
        dashboard_title d1 = dashboard_title d2
        /\ length (dashboard_pages d1) = length (dashboard_pages d2)
        /\ dashboard_pages d1 = dashboard_pages d2).
Proof.
  intros Hord1 Hord2. rewrite !run_pipeline by assumption.
  assert (Hsame : final_dashboard (snd (pipeline order1 config kw))
                  = final_dashboard (snd (pipeline order2 config kw))).
  { destruct (GraphState_new kw) as [st0|e] eqn:Hnew.
    2:{ unfold pipeline. now rewrite Hnew. }
    destruct (_store_df_info st0 config) as [u1|e] eqn:Hstore.
    2:{ unfold pipeline, pipeline_from. now rewrite Hnew, Hstore. }
    destruct (store_df_info_writes _ _ _ Hstore) as [m ->].
    destruct (_dashboard_plan (apply_update st0 (Upd_df_metadata m)) config)
      as [u2|e] eqn:Hplan.
    2:{ unfold pipeline, pipeline_from. rewrite Hnew, Hstore. cbv zeta.
        now rewrite Hplan. }
    destruct (dashboard_plan_writes _ _ _ Hplan) as [plan ->].
    rewrite (final_dashboard_planned order1 config kw st0 m plan Hord1 Hnew Hstore Hplan).
    now rewrite (final_dashboard_planned order2 config kw st0 m plan Hord2 Hnew Hstore Hplan). }
  split; [exact Hsame|]. split.
  - unfold pipeline. destruct (GraphState_new kw) as [st0|e]; [|discriminate].
    intros st. now apply pipeline_from_completed.
  - intros d1 d2 H1 H2. rewrite Hsame, H2 in H1. injection H1 as <-. auto.
Qed.

End GraphFacts.

(** ** The theorems on the stub *)

Lemma task_order_rearranges : rearranges task_order.
Proof. intros ts. reflexivity. Qed.

Lemma reverse_order_rearranges : rearranges reverse_order.
Proof. intros ts. symmetry. apply Permutation_rev. Qed.

(** C8 at a list with a dictionary in it, and at a tuple of two data
    frames. *)
Lemma dataframes_validated_witness :
  ((in_dfs mixed_input = PyList mixed_objects
    \/ in_dfs mixed_input = PySequence mixed_objects)
   /\ (exists x, In x mixed_objects /\ isinstance_DataFrame x = false)
   /\ run (env := stub []) task_order stub_config mixed_input
      = ([], Rejected (ValidationError "instance of DataFrame expected")))
  /\ ((in_dfs (tuple_input [user_request] [1; 2]%nat)
       = PyList [PyDataFrame 1%nat; PyDataFrame 2%nat]
       \/ in_dfs (tuple_input [user_request] [1; 2]%nat)
          = PySequence [PyDataFrame 1%nat; PyDataFrame 2%nat])
      /\ (forall x, In x [PyDataFrame 1%nat; PyDataFrame 2%nat] ->
                    isinstance_DataFrame x = true)
      /\ exists st,
           GraphState_new (tuple_input [user_request] [1; 2]%nat) = Ok st
           /\ List.map PyDataFrame (dfs st) = [PyDataFrame 1%nat; PyDataFrame 2%nat]).
Proof.
  assert (Hbad : exists x : @pyobj nat,
             In x mixed_objects /\ isinstance_DataFrame x = false).
  { exists (PyOther "{'country': ['Afghanistan']}").
    split; [right; left; reflexivity | reflexivity]. }
  assert (Hgood : forall x : @pyobj nat,
             In x [PyDataFrame 1%nat; PyDataFrame 2%nat] ->
             isinstance_DataFrame x = true).
  { intros x [<- | [<- | []]]; reflexivity. }
  split.
  - split; [left; reflexivity|]. split; [exact Hbad|].
    apply (dataframes_validated (env := stub []) task_order stub_config
             mixed_input mixed_objects (or_introl eq_refl)).
    exact Hbad.
  - split; [right; reflexivity|]. split; [exact Hgood|].
    destruct (dataframes_validated (env := stub []) task_order stub_config
                (tuple_input [user_request] [1; 2]%nat)
                [PyDataFrame 1%nat; PyDataFrame 2%nat] (or_intror eq_refl))
      as (_ & Hok & _).
    destruct (Hok Hgood) as (_ & _ & st & Hnew & Hdfs & _).
    exists st. split; [exact Hnew | exact Hdfs].
Defined.


(** C4 at a state with a plan and two pages. *)
Lemma build_dashboard_assembles_witness :
  let st := {| messages := [user_request]; dfs := [0%nat]; df_metadata := ∅;
               dashboard_plan := Some (stub_plan [10; 20]%nat);
               pages := [120; 110]%nat; dashboard := None |} in
  dashboard_plan st = Some (stub_plan [10; 20]%nat)
  /\ _build_dashboard st
     = Ok (Upd_dashboard {| dashboard_title := content user_request;
                            dashboard_pages := [120; 110]%nat |}).
Proof.
  intros st. split; [reflexivity|].
  destruct (build_dashboard_assembles st (stub_plan [10; 20]%nat) eq_refl)
    as (d & Hd & Htitle & Hpages & _).
  rewrite Hd. destruct d as [title ps]. cbn in Htitle, Hpages. now subst.
Defined.

(** C6 at the stub whose planner raises a validation error. *)
Lemma planner_failure_aborts_witness :
  rearranges task_order
  /\ GraphState_new (stub_input [user_request] [0; 1]%nat)
     = Ok (stub_state [user_request] [0; 1]%nat)
  /\ _store_df_info (env := stub_failing_planner)
       (stub_state [user_request] [0; 1]%nat) stub_config
     = Ok (Upd_df_metadata stub_metadata)
  /\ messages (stub_state [user_request] [0; 1]%nat) = user_request :: []
  /\ _get_dashboard_plan (Collaborators := stub_failing_planner)
       (content user_request) (model stub_config) stub_metadata
     = Raise (ValidationError "1 validation error for DashboardPlanner")
  /\ run (env := stub_failing_planner) task_order stub_config
       (stub_input [user_request] [0; 1]%nat)
     = ([Pull "_store_df_info"; Pull "_dashboard_plan"],
        Aborted "_dashboard_plan"
          (ValidationError "1 validation error for DashboardPlanner")
          (apply_update (stub_state [user_request] [0; 1]%nat)
             (Upd_df_metadata stub_metadata)))
  /\ final_dashboard
       (snd (run (env := stub_failing_planner) task_order stub_config
               (stub_input [user_request] [0; 1]%nat)))
     = None.
Proof.
  split; [exact task_order_rearranges|]. do 4 (split; [reflexivity|]).
  destruct (planner_failure_aborts (env := stub_failing_planner) task_order stub_config
              (stub_input [user_request] [0; 1]%nat)
              (stub_state [user_request] [0; 1]%nat) stub_metadata user_request []
              (ValidationError "1 validation error for DashboardPlanner")
              task_order_rearranges eq_refl eq_refl eq_refl eq_refl)
    as (Hrun & _ & _ & _ & _ & Hnone).
  split; assumption.
Defined.

(** C7 at three data frames: three requests, the third carrying the two
    names given before. *)
Lemma summary_requests_in_order_witness :
  let st := stub_state [user_request] [0; 1; 2]%nat in
  let request :=
    {| req_messages := [user_request];
       req_df_schema := [(str "value", str "int64")];
       req_df_sample := 2%nat;
       req_current_df_names :=
         [ {| dataset_name := str "Global Demographics" |};
           {| dataset_name := str "  GDP per capita (2007) " |} ] |} in
  model stub_config = Some tt
  /\ length (fst (_store_df_info_logged (env := stub []) st stub_config)) = 3%nat
  /\ nth_error (fst (_store_df_info_logged (env := stub []) st stub_config)) 2
     = Some request
  /\ nth_error (dfs st) 2 = Some 2%nat
  /\ req_current_df_names request
     = answers (env := stub []) tt
         (firstn 2 (fst (_store_df_info_logged (env := stub []) st stub_config))).
Proof.
  intros st request. split; [reflexivity|].
  destruct (summary_requests_in_order (env := stub []) st stub_config tt eq_refl)
    as (_ & Hall & Hreq).
  split; [exact (proj1 (Hall eq_refl))|].
  split; [reflexivity|].
  destruct (Hreq 2%nat request eq_refl)
    as (d & schema & sample & Hd & _ & _ & _ & _ & Hnames & _).
  split; [reflexivity | exact Hnames].
Defined.

(** C2 at the data frames 0 and 1, whose names give two identifiers. *)
Lemma summary_metadata_witness :
  model stub_config = Some tt
  /\ _store_df_info (env := stub []) (stub_state [user_request] [0; 1]%nat) stub_config
     = Ok (Upd_df_metadata stub_metadata)
  /\ size stub_metadata = 2%nat.
Proof.
  split; [reflexivity|]. split; [reflexivity|].
  destruct (summary_metadata (env := stub []) (stub_state [user_request] [0; 1]%nat)
              stub_config tt stub_metadata eq_refl eq_refl)
    as (_ & _ & _ & _ & Hsize & _).
  apply Hsize.
  - vm_compute. repeat constructor.
    + intros H. apply list_elem_of_In in H. destruct H as [H | []]. discriminate H.
    + intros H. apply list_elem_of_In in H. destruct H.
  - intros id _. apply lookup_empty.
Defined.

(** C2 as stated fails: two data frames named alike share one entry, and
    a name without letters and digits gets the empty identifier, which does
    not match the pattern. *)
Lemma summary_claim_fails :
  (length (dfs (stub_state [user_request] [0; 2]%nat)) = 2%nat
   /\ option_map size
        (stored_metadata
           (_store_df_info (env := stub []) (stub_state [user_request] [0; 2]%nat)
              stub_config))
      = Some 1%nat)
  /\ (option_map (fun m => List.map fst (map_to_list m))
        (stored_metadata
           (_store_df_info (env := stub []) (stub_state [user_request] [3]%nat)
              stub_config))
      = Some [clean_df_name ascii_only (str "???")]
      /\ matches_ident_pattern (clean_df_name ascii_only (str "???")) = false).
Proof. vm_compute. repeat split. Qed.

(** C1 at a plan of three pages, the build tasks completing in reverse:
    the pages are in the order of the plan. *)
Lemma fan_out_fan_in_witness :
  rearranges reverse_order
  /\ GraphState_new (stub_input [user_request] [0; 1]%nat)
     = Ok (stub_state [user_request] [0; 1]%nat)
  /\ _store_df_info (env := stub [10; 20; 30]%nat)
       (stub_state [user_request] [0; 1]%nat) stub_config
     = Ok (Upd_df_metadata stub_metadata)
  /\ _dashboard_plan (env := stub [10; 20; 30]%nat)
       (apply_update (stub_state [user_request] [0; 1]%nat)
          (Upd_df_metadata stub_metadata)) stub_config
     = Ok (Upd_dashboard_plan (stub_plan [10; 20; 30]%nat))
  /\ all_built (env := stub [10; 20; 30]%nat) stub_config
       (List.map (packet_for stub_metadata) [10; 20; 30]%nat) = true
  /\ fst (run (env := stub [10; 20; 30]%nat) reverse_order stub_config
            (stub_input [user_request] [0; 1]%nat))
     = [Pull "_store_df_info"; Pull "_dashboard_plan";
        Push (packet_for stub_metadata 30%nat);
        Push (packet_for stub_metadata 20%nat);
        Push (packet_for stub_metadata 10%nat);
        Pull "_build_dashboard"]
  /\ length
       (List.filter is_assemble_task
          (fst (run (env := stub [10; 20; 30]%nat) reverse_order stub_config
                  (stub_input [user_request] [0; 1]%nat))))
     = 1%nat
  /\ exists final,
       snd (run (env := stub [10; 20; 30]%nat) reverse_order stub_config
              (stub_input [user_request] [0; 1]%nat))
       = Completed final
       /\ pages final = [110; 120; 130]%nat.
Proof.
  split; [exact reverse_order_rearranges|]. do 4 (split; [reflexivity|]).
  destruct (fan_out_fan_in (env := stub [10; 20; 30]%nat) reverse_order stub_config
              (stub_input [user_request] [0; 1]%nat)
              (stub_state [user_request] [0; 1]%nat) stub_metadata
              (stub_plan [10; 20; 30]%nat)
              reverse_order_rearranges eq_refl eq_refl eq_refl eq_refl)
    as (_ & _ & _ & _ & Htrace & Hcount & final & Hfinal & Hpages & _).
  split; [exact Htrace|]. split; [exact Hcount|].
  exists final. split; [exact Hfinal | exact Hpages].
Defined.

(** C1 as stated fails for [k = 0]: the run is complete and the assembler
    has not run. *)
Lemma assembler_skipped_without_pages :
  plan_pages (stub_plan []) = []
  /\ completed
       (snd (run (env := stub []) task_order stub_config
               (stub_input [user_request] [0; 1]%nat))) = true
  /\ length
       (List.filter is_assemble_task
          (fst (run (env := stub []) task_order stub_config
                  (stub_input [user_request] [0; 1]%nat))))
     = 0%nat
  /\ length
       (List.filter is_assemble_task
          (fst (run (env := stub []) task_order stub_config
                  (stub_input [user_request] [0; 1]%nat))))
     <> 1%nat.
Proof. vm_compute. repeat split. discriminate. Qed.

(** C3 at the stub whose plan has no page. *)
Lemma empty_plan_ends_after_planning_witness :
  rearranges task_order
  /\ GraphState_new (stub_input [user_request] [0; 1]%nat)
     = Ok (stub_state [user_request] [0; 1]%nat)
  /\ _store_df_info (env := stub [])
       (stub_state [user_request] [0; 1]%nat) stub_config
     = Ok (Upd_df_metadata stub_metadata)
  /\ _dashboard_plan (env := stub [])
       (apply_update (stub_state [user_request] [0; 1]%nat)
          (Upd_df_metadata stub_metadata)) stub_config
     = Ok (Upd_dashboard_plan (stub_plan []))
  /\ plan_pages (stub_plan []) = []
  /\ run (env := stub []) task_order stub_config (stub_input [user_request] [0; 1]%nat)
     = ([Pull "_store_df_info"; Pull "_dashboard_plan"],
        Completed
          (apply_update
             (apply_update (stub_state [user_request] [0; 1]%nat)
                (Upd_df_metadata stub_metadata))
             (Upd_dashboard_plan (stub_plan [])))).
Proof.
  split; [exact task_order_rearranges|]. do 4 (split; [reflexivity|]).
  apply (empty_plan_ends_after_planning (env := stub []) task_order stub_config
           (stub_input [user_request] [0; 1]%nat)
           (stub_state [user_request] [0; 1]%nat) stub_metadata (stub_plan [])
           task_order_rearranges eq_refl eq_refl eq_refl eq_refl).
Defined.

(** C3 as stated fails: with a plan of no pages the run ends after the
    planner; no task of the assembler is in it and no dashboard is
    produced. *)
Lemma empty_plan_yields_no_dashboard :
  fst (run (env := stub []) task_order stub_config
         (stub_input [user_request] [0; 1]%nat))
  = [Pull "_store_df_info"; Pull "_dashboard_plan"]
  /\ completed
       (snd (run (env := stub []) task_order stub_config
               (stub_input [user_request] [0; 1]%nat))) = true
  /\ final_dashboard
       (snd (run (env := stub []) task_order stub_config
               (stub_input [user_request] [0; 1]%nat)))
     = None.
Proof. vm_compute. repeat split. Qed.

(** C9 at two runs whose build tasks complete in opposite orders. *)
Lemma runs_agree_witness :
  rearranges task_order
  /\ rearranges reverse_order
  /\ final_dashboard
       (snd (run (env := stub [10; 20; 30]%nat) task_order stub_config
               (stub_input [user_request] [0; 1]%nat)))
     = Some {| dashboard_title := content user_request;
               dashboard_pages := [110; 120; 130]%nat |}
  /\ final_dashboard
       (snd (run (env := stub [10; 20; 30]%nat) reverse_order stub_config
               (stub_input [user_request] [0; 1]%nat)))
     = Some {| dashboard_title := content user_request;
               dashboard_pages := [110; 120; 130]%nat |}.
Proof.
  split; [exact task_order_rearranges|]. split; [exact reverse_order_rearranges|].
  assert (H1 : final_dashboard
                 (snd (run (env := stub [10; 20; 30]%nat) task_order stub_config
                         (stub_input [user_request] [0; 1]%nat)))
               = Some {| dashboard_title := content user_request;
                         dashboard_pages := [110; 120; 130]%nat |}) by reflexivity.
  split; [exact H1|].
  destruct (runs_agree (env := stub [10; 20; 30]%nat) task_order reverse_order stub_config
              (stub_input [user_request] [0; 1]%nat)
              task_order_rearranges reverse_order_rearranges) as (Hsame & _).
  rewrite <- Hsame. exact H1.
Defined.

(** * Further properties of the code-generation graph *)

Section StringExtras.
Context (U : UnicodeData).
Local Open Scope N_scope.

Lemma ident_class_ascii c : in_ident_class c = true -> is_ascii c = true.
Proof.
  unfold in_ident_class, ascii_lowercase, ascii_digit, underscore, is_ascii.
  intros H. apply N.ltb_lt.
  repeat match goal with
    | H : _ || _ = true |- _ => apply orb_true_iff in H; destruct H
    | H : _ && _ = true |- _ => apply andb_true_iff in H; destruct H
    | H : (_ <=? _) = true |- _ => apply N.leb_le in H
    | H : (_ =? _) = true |- _ => apply N.eqb_eq in H
    end; lia.
Qed.

Lemma ident_class_not_upper c : in_ident_class c = true -> ascii_upper c = false.
Proof.
  unfold in_ident_class, ascii_lowercase, ascii_digit, underscore, ascii_upper.
  intros H.
  repeat match goal with
    | H : _ || _ = true |- _ => apply orb_true_iff in H; destruct H
    | H : _ && _ = true |- _ => apply andb_true_iff in H; destruct H
    | H : (_ <=? _) = true |- _ => apply N.leb_le in H
    | H : (_ =? _) = true |- _ => apply N.eqb_eq in H
    end;
    apply andb_false_iff;
    try (left; apply N.leb_gt; lia); right; apply N.leb_gt; lia.
Qed.

Lemma ident_class_word c : in_ident_class c = true -> is_word U c = true.
Proof.
  intros H. unfold is_word. rewrite (ident_class_ascii c H).
  unfold in_ident_class in H.
  destruct (ascii_lowercase c), (ascii_digit c), (c =? underscore), (ascii_upper c);
    try reflexivity; discriminate.
Qed.

Lemma rstrip_fixed s : ends_with_underscore s = false -> rstrip_underscore s = s.
Proof.
  unfold ends_with_underscore, rstrip_underscore. intros H.
  rewrite (lstrip_fixed _ H). apply rev_involutive.
Qed.

(** X1: the ASCII names that are their own identifier are the non-empty or
    empty strings over [a-z0-9_] that neither start nor end with an
    underscore. *)
Theorem clean_df_name_fixed_points s :
  (forall c, In c s -> is_ascii c = true) ->
  (clean_df_name U s = s
   <-> (forall c, In c s -> in_ident_class c = true)
       /\ starts_with_underscore s = false
       /\ ends_with_underscore s = false).
Proof.
  intros Hascii. split.
  - intros Hfix. split; [|split].
    + intros c Hc. rewrite <- Hfix in Hc.
      now apply (clean_df_name_ascii_class U s Hascii).
    + rewrite <- Hfix. apply strip_no_leading.
    + rewrite <- Hfix. apply strip_no_trailing.
  - intros (Hclass & Hlead & Htrail).
    unfold clean_df_name, lower, re_sub_nonword. cbv zeta.
    rewrite lower_from_fixed.
    2:{ intros d Hd pre post. apply lower_cp_ascii_fixed.
        - apply ident_class_ascii. now apply Hclass.
        - apply ident_class_not_upper. now apply Hclass. }
    rewrite sub_nonword_from_words.
    2:{ intros d Hd. apply ident_class_word. now apply Hclass. }
    unfold strip_underscore. rewrite (lstrip_fixed _ Hlead). now apply rstrip_fixed.
Qed.

End StringExtras.

(** The theorem at the identifier [gdp_per_capita_2007]. *)
Lemma clean_df_name_fixed_points_witness :
  (forall c, In c (str "gdp_per_capita_2007") -> is_ascii c = true)
  /\ (clean_df_name ascii_only (str "gdp_per_capita_2007") = str "gdp_per_capita_2007"
      <-> (forall c, In c (str "gdp_per_capita_2007") -> in_ident_class c = true)
          /\ starts_with_underscore (str "gdp_per_capita_2007") = false
          /\ ends_with_underscore (str "gdp_per_capita_2007") = false).
Proof.
  assert (H : forall c, In c (str "gdp_per_capita_2007") -> is_ascii c = true).
  { intros c Hc. vm_compute in Hc.
    repeat (destruct Hc as [<- | Hc]; [reflexivity|]). destruct Hc. }
  split; [exact H|].
  exact (clean_df_name_fixed_points ascii_only (str "gdp_per_capita_2007") H).
Defined.

Section GraphExtras.
Context {DataFrame PagePlanner Page LLM : Type}.
Context `{env : !Collaborators DataFrame PagePlanner Page LLM}.

Implicit Types (order : @Order DataFrame PagePlanner).
Implicit Types (st : @GraphState DataFrame PagePlanner Page).
Implicit Types (config : @RunnableConfig LLM).
Implicit Types (kw : @GraphStateInput DataFrame PagePlanner Page).
Implicit Types (plan : @DashboardPlanner PagePlanner).
Implicit Types (sends packets : list (@Send DataFrame PagePlanner)).
Implicit Types (msgs : list Message) (todo : list DataFrame).
Implicit Types (cur : list DfInfo) (md : gmap (list N) (@DfEntry DataFrame)).
Implicit Types (kvs : list (pystr * @DfEntry DataFrame)).

(** ** The summary stage *)

Lemma lookup_insert_all_notin kvs md k :
  ~ In k (List.map fst kvs) -> insert_all kvs md !! k = md !! k.
Proof.
  revert md. induction kvs as [|[k0 v0] kvs IH]; intros md Hk; [reflexivity|].
  unfold insert_all in *. cbn [fold_left fst snd List.map] in *.
  rewrite IH by (intros H; apply Hk; now right).
  apply lookup_insert_ne. intros ->. apply Hk. now left.
Qed.

Lemma lookup_insert_all_last kvs md i k v :
  nth_error kvs i = Some (k, v) ->
  (forall j kv, (i < j)%nat -> nth_error kvs j = Some kv -> fst kv <> k) ->
  insert_all kvs md !! k = Some v.
Proof.
  revert md i. induction kvs as [|[k0 v0] kvs IH]; intros md i Hi Hlater.
  - now destruct i.
  - unfold insert_all in *. cbn [fold_left fst snd].
    destruct i as [|i]; cbn [nth_error] in Hi.
    + injection Hi as -> ->.
      fold (insert_all kvs (<[k:=v]> md)). rewrite lookup_insert_all_notin.
      * apply lookup_insert_eq.
      * intros Hin. apply in_map_iff in Hin as ([k' v'] & Hk' & Hin). cbn in Hk'. subst k'.
        apply In_nth_error in Hin as [j Hj].
        apply (Hlater (S j) (k, v')); [lia | exact Hj | reflexivity].
    + apply (IH _ i Hi). intros j kv Hj Hkv.
      apply (Hlater (S j) kv); [lia | exact Hkv].
Qed.

Lemma nth_error_combine_both {A B} (l : list A) (l' : list B) i a b :
  nth_error l i = Some a -> nth_error l' i = Some b ->
  nth_error (combine l l') i = Some (a, b).
Proof.
  revert l' i. induction l as [|x l IH]; intros [|y l'] [|i]; cbn; try discriminate.
  - now intros [= ->] [= ->].
  - apply IH.
Qed.

Lemma nth_error_combine_fst {A B} (l : list A) (l' : list B) i p :
  nth_error (combine l l') i = Some p -> nth_error l i = Some (fst p).
Proof.
  revert l' i. induction l as [|x l IH]; intros [|y l'] [|i]; cbn; try discriminate.
  - now intros [= <-].
  - apply IH.
Qed.

(** X2: after the summary stage, a key that is no identifier of this run
    maps to what it mapped to before, and an identifier maps to the entry
    of the last data frame that was given it: the schema that
    [_get_df_info] returned for that data frame, and the data frame. *)
Theorem summary_last_write_wins st config llm m :
  model config = Some llm ->
  _store_df_info st config = Ok (Upd_df_metadata m) ->
  let ids := identifiers (answers llm (fst (_store_df_info_logged st config))) in
  (forall k, ~ In k ids -> m !! k = df_metadata st !! k)
  /\ (forall i id d,
        nth_error ids i = Some id ->
        nth_error (dfs st) i = Some d ->
        (forall j, (i < j)%nat -> nth_error ids j <> Some id) ->
        m !! id = Some (entry_of d)
        /\ exists schema sample,
             _get_df_info d = Ok (schema, sample)
             /\ entry_of d = {| df_schema := schema; df := d |}).
Proof.
  intros Hllm Hstore ids.
  destruct (store_df_info_loop_of _ _ _ Hstore) as [Hloop Hsent].
  destruct (loop_metadata _ _ _ _ _ _ _ Hllm Hloop) as (_ & Hlen & Hm & Hinfo).
  cbv zeta in Hlen, Hm. rewrite <- Hsent in Hlen, Hm. fold ids in Hm.
  assert (Hids : length ids = length (List.map entry_of (dfs st))).
  { subst ids. unfold identifiers. now rewrite !length_map. }
  split.
  - intros k Hk. rewrite Hm. apply lookup_insert_all_notin.
    now rewrite (combine_fst_map _ _ Hids).
  - intros i id d Hi Hd Hlast. split.
    + rewrite Hm. apply (lookup_insert_all_last _ _ i).
      * apply nth_error_combine_both; [exact Hi|]. now apply map_nth_error.
      * intros j kv Hj Hkv Heq. apply (Hlast j Hj).
        apply nth_error_combine_fst in Hkv. now rewrite Hkv, Heq.
    + specialize (Hinfo d (nth_error_In _ _ Hd)).
      destruct (_get_df_info d) as [[schema sample]|e] eqn:E; [|discriminate].
      exists schema, sample. split; [reflexivity | exact (entry_of_ok _ _ _ E)].
Qed.

(** Where the loop raises: at a data frame that [_get_df_info] cannot
    sample, after the requests for the data frames before it; or at the
    request for a data frame. *)
Lemma loop_failure config llm msgs todo cur md e :
  model config = Some llm ->
  snd (store_df_info_loop config msgs todo cur md) = Raise e ->
  let sent := fst (store_df_info_loop config msgs todo cur md) in
  exists i d,
    nth_error todo i = Some d
    /\ length (answers llm sent) = i
    /\ ((_get_df_info d = Raise e /\ length sent = i)
        \/ (exists request,
              is_ok (_get_df_info d) = true
              /\ length sent = S i
              /\ nth_error sent i = Some request
              /\ data_sum_chain_invoke llm request = Raise e)).
Proof.
  intros Hllm. revert cur md.
  induction todo as [|d rest IH]; intros cur md; [discriminate|].
  cbn [store_df_info_loop].
  destruct (_get_df_info d) as [[schema sample]|e0] eqn:Hinfo.
  2:{ cbn. intros [= <-]. exists 0%nat, d. split; [reflexivity|].
      split; [reflexivity|]. left. now split. }
  rewrite Hllm.
  set (first := {| req_messages := msgs; req_df_schema := schema;
                   req_df_sample := sample; req_current_df_names := cur |}).
  destruct (data_sum_chain_invoke llm first) as [name|e'] eqn:Hans.
  - specialize (IH (cur ++ [name])
                   (<[clean_df_name unicode (dataset_name name) :=
                        {| df_schema := schema; df := d |}]> md)).
    destruct (store_df_info_loop config msgs rest (cur ++ [name]) _) as [sent r].
    cbn [fst snd] in *. intros Hr.
    destruct (IH Hr) as (i & d' & Hd' & Hans' & Hcase).
    exists (S i), d'. rewrite (answers_cons_ok _ _ _ _ Hans).
    cbn [length nth_error]. split; [assumption|]. split; [congruence|].
    destruct Hcase as [[Hraise Hlen] | (request & Hok & Hlen & Hnth & Hfail)].
    + left. split; [assumption | congruence].
    + right. exists request. repeat split; try assumption. congruence.
  - cbn [fst snd]. intros [= <-]. exists 0%nat, d.
    unfold answers. cbn [flat_map]. rewrite Hans. cbn.
    split; [reflexivity|]. split; [reflexivity|].
    right. exists first. now rewrite Hinfo.
Qed.

(** X3: when the summary stage raises with a model configured, it raises
    at one data frame, after a request was sent and answered for every
    data frame before it, and no data frame after it was looked at: the
    exception is either that of [_get_df_info] on this data frame, and no
    request was sent for it, or that of the request for this data frame,
    which is the last one sent. *)
Theorem summary_stops_at_first_failure st config llm e :
  model config = Some llm ->
  _store_df_info st config = Raise e ->
  let sent := fst (_store_df_info_logged st config) in
  exists i d,
    nth_error (dfs st) i = Some d
    /\ length (answers llm sent) = i
    /\ ((_get_df_info d = Raise e /\ length sent = i)
        \/ (exists request,
              is_ok (_get_df_info d) = true
              /\ length sent = S i
              /\ nth_error sent i = Some request
              /\ data_sum_chain_invoke llm request = Raise e)).
Proof.
  intros Hllm Hraise sent.
  assert (Hloop : snd (store_df_info_loop config (messages st) (dfs st) []
                         (df_metadata st)) = Raise e
                  /\ sent = fst (store_df_info_loop config (messages st) (dfs st) []
                                   (df_metadata st))).
  { subst sent. unfold _store_df_info, _store_df_info_logged in *.
    destruct (store_df_info_loop _ _ _ _ _) as [l [m|e']]; cbn in *; [discriminate|].
    split; congruence. }
  destruct Hloop as [Hloop ->]. now apply loop_failure.
Qed.

(** X4: without a configured model the summary stage sends no request; it
    returns the mapping it was given when there is no data frame; when
    there is one, it raises what [_get_df_info] raises on the first data
    frame, and an [AttributeError] when [_get_df_info] returns on it. *)
Theorem summary_without_model st config :
  model config = None ->
  fst (_store_df_info_logged st config) = []
  /\ (dfs st = [] -> _store_df_info st config = Ok (Upd_df_metadata (df_metadata st)))
  /\ (forall d rest,
        dfs st = d :: rest ->
        match _get_df_info d with
        | Raise e => _store_df_info st config = Raise e
        | Ok _ => exists msg, _store_df_info st config = Raise (AttributeError msg)
        end).
Proof.
  intros Hnone. unfold _store_df_info, _store_df_info_logged.
  destruct (dfs st) as [|d rest]; cbn [store_df_info_loop].
  - split; [reflexivity|]. split; [reflexivity|]. discriminate.
  - destruct (_get_df_info d) as [[schema sample]|e] eqn:Hinfo.
    + rewrite Hnone. cbn.
      split; [reflexivity|]. split; [discriminate|].
      intros d' rest' [= <- <-]. rewrite Hinfo. eexists. reflexivity.
    + cbn. split; [reflexivity|]. split; [discriminate|].
      intros d' rest' [= <- <-]. now rewrite Hinfo.
Qed.

(** ** The run *)

(** X5: a run never reaches the recursion limit; it is rejected only when
    the state cannot be constructed, aborted only inside one of the four
    nodes, and a completed run has a plan in its state. *)
Theorem run_ends_in_a_node order config kw :
  rearranges order ->
  match snd (run order config kw) with
  | Rejected e => GraphState_new kw = Raise e
  | RecursionLimit _ => False
  | Aborted node _ _ =>
      In node ["_store_df_info"; "_dashboard_plan"; "_build_page"; "_build_dashboard"]%string
  | Completed st => dashboard_plan st <> None
  end.
Proof.
  intros Hord. rewrite (run_pipeline _ _ _ Hord). unfold pipeline.
  destruct (GraphState_new kw) as [st0|e]; [|reflexivity].
  unfold pipeline_from.
  destruct (_store_df_info st0 config) as [u1|e]; [|cbn; auto].
  cbv zeta.
  destruct (_dashboard_plan (apply_update st0 u1) config) as [u2|e] eqn:Hplan;
    cbn [bind]; [|cbn; auto].
  destruct (dashboard_plan_writes _ _ _ Hplan) as [plan ->].
  rewrite (continue_to_pages_spec _ plan) by reflexivity. cbn [bind].
  destruct (List.map _ (plan_pages plan)) as [|packet sends]; [cbn; congruence|].
  destruct (build_all config _) as [handled [built|e]]; [|cbn; auto].
  destruct (_build_dashboard _) as [u4|e] eqn:Hdash; [|cbn; auto 6].
  unfold _build_dashboard in Hdash. cbn in Hdash. injection Hdash as <-.
  cbn. congruence.
Qed.

Lemma build_all_failure config packets :
  all_built config packets = false ->
  exists before packet after e,
    packets = before ++ packet :: after
    /\ all_built config before = true
    /\ build_of config packet = Raise e
    /\ build_all config packets = (before ++ [packet], Raise e).
Proof.
  induction packets as [|p rest IH]; [discriminate|].
  unfold all_built in *. cbn [forallb build_all].
  destruct (build_of config p) as [page|e] eqn:Hp; cbn [is_ok andb].
  - intros H. destruct (IH H) as (before & packet & after & e & -> & Hb & He & Hall).
    exists (p :: before), packet, after, e. cbn [forallb app]. rewrite Hp, Hb, Hall.
    repeat split; assumption.
  - intros _. exists [], p, rest, e. repeat split. assumption.
Qed.

(** X6: when a page builder raises, the run is aborted in [_build_page]
    with the exception of the first packet, in completion order, whose
    builder raises; the build tasks in the run are the ones up to that
    packet, the assembler does not run, and the state of the abort is the
    state the fan-out started from: no page of the builders that returned
    has been merged, and [dashboard] is as at construction. *)
Theorem build_failure_aborts order config kw st0 m plan :
  rearranges order ->
  GraphState_new kw = Ok st0 ->
  _store_df_info st0 config = Ok (Upd_df_metadata m) ->
  _dashboard_plan (apply_update st0 (Upd_df_metadata m)) config
  = Ok (Upd_dashboard_plan plan) ->
  let st2 := apply_update (apply_update st0 (Upd_df_metadata m))
               (Upd_dashboard_plan plan) in
  let sends := List.map (packet_for m) (plan_pages plan) in
  all_built config sends = false ->
  exists before packet after e,
    packets_of (order (List.map Push sends)) = before ++ packet :: after
    /\ all_built config before = true
    /\ build_of config packet = Raise e
    /\ run order config kw
       = ([Pull "_store_df_info"; Pull "_dashboard_plan"]
            ++ List.map Push (before ++ [packet]),
          Aborted "_build_page" e st2)
    /\ List.filter is_assemble_task (fst (run order config kw)) = []
    /\ pages st2 = in_pages kw
    /\ dashboard st2 = in_dashboard kw.
Proof.
  intros Hord Hnew Hstore Hplan st2 sends Hfail.
  destruct (GraphState_new_fields _ _ Hnew) as (_ & _ & _ & Hpages & Hd & _).
  destruct (order_packets order sends Hord) as [Hperm _].
  rewrite <- (all_built_perm _ _ _ Hperm) in Hfail.
  destruct (build_all_failure _ _ Hfail) as (before & packet & after & e & Hsplit & Hb & He & Hall).
  exists before, packet, after, e.
  assert (Hrun : run order config kw
                 = ([Pull "_store_df_info"; Pull "_dashboard_plan"]
                      ++ List.map Push (before ++ [packet]),
                    Aborted "_build_page" e st2)).
  { rewrite (run_pipeline _ _ _ Hord).
    rewrite (pipeline_planned order config kw st0 m plan Hnew Hstore Hplan).
    fold sends. fold st2.
    destruct (plan_pages plan) as [|v vs] eqn:Hpp.
    - exfalso. subst sends. cbn in Hsplit. rewrite (order_nil _ Hord) in Hsplit.
      cbn in Hsplit. now destruct before.
    - now rewrite Hall. }
  repeat split; try assumption.
  rewrite Hrun. cbn [fst]. rewrite List.filter_app. cbn [List.filter is_assemble_task String.eqb app].
  apply no_assemble_among_builds. intros t Ht.
  apply in_map_iff in Ht as (p & <- & _). reflexivity.
Qed.

Lemma apply_update_keeps st u :
  messages (apply_update st u) = messages st
  /\ dfs (apply_update st u) = dfs st
  /\ exists added, pages (apply_update st u) = pages st ++ added.
Proof.
  destruct u; cbn; repeat split; try (exists []; now rewrite app_nil_r).
  now exists ps.
Qed.

(** X7: whatever the collaborators do, the state a run ends with has the
    messages and the data frames of the construction, and its pages are
    the pages of the construction followed by pages added by the run: the
    run changes neither [messages] nor [dfs] and never removes a page. *)
Theorem run_keeps_inputs order config kw st :
  rearranges order ->
  outcome_state (snd (run order config kw)) = Some st ->
  messages st = in_messages kw
  /\ dfs st = dataframes_of (in_dfs kw)
  /\ exists added, pages st = in_pages kw ++ added.
Proof.
  intros Hord. rewrite (run_pipeline _ _ _ Hord). unfold pipeline.
  destruct (GraphState_new kw) as [st0|e] eqn:Hnew; [|discriminate].
  destruct (GraphState_new_fields _ _ Hnew) as (Hm & _ & _ & Hp & _ & Hd).
  rewrite <- Hm, <- Hp, <- Hd. clear Hm Hp Hd Hnew.
  assert (Hstep : forall (a : @GraphState DataFrame PagePlanner Page) u,
    (messages a = messages st0 /\ dfs a = dfs st0
     /\ exists added, pages a = pages st0 ++ added) ->
    (messages (apply_update a u) = messages st0 /\ dfs (apply_update a u) = dfs st0
     /\ exists added, pages (apply_update a u) = pages st0 ++ added)).
  { intros a u (H1 & H2 & added & H3).
    destruct (apply_update_keeps a u) as (K1 & K2 & more & K3).
    split; [congruence|]. split; [congruence|].
    exists (added ++ more). now rewrite K3, H3, app_assoc. }
  assert (H0 : messages st0 = messages st0 /\ dfs st0 = dfs st0
               /\ exists added, pages st0 = pages st0 ++ added).
  { repeat split. exists []. now rewrite app_nil_r. }
  unfold pipeline_from.
  destruct (_store_df_info st0 config) as [u1|e]; cbn [snd outcome_state].
  2:{ now intros [= <-]. }
  cbv zeta.
  destruct (bind (_dashboard_plan (apply_update st0 u1) config) _)
    as [[u2 [|packet sends]]|e]; cbn [snd outcome_state].
  - intros [= <-]. repeat apply Hstep. exact H0.
  - destruct (build_all config _) as [handled [built|e]]; cbn [snd outcome_state].
    + destruct (_build_dashboard _) as [u4|e]; cbn [snd outcome_state];
        intros [= <-]; try apply Hstep;
        apply (Hstep _ (Upd_pages _)); repeat apply Hstep; exact H0.
    + intros [= <-]. repeat apply Hstep. exact H0.
  - intros [= <-]. repeat apply Hstep. exact H0.
Qed.

(** X8: when the writes of the build tasks are merged in task order, the
    pages of the dashboard are the pages of the construction followed by
    the built pages in the order of the plan: the page at position [i] of
    the plan is built into the page at position [i] after the initial
    ones. *)
Theorem task_order_gives_plan_order config kw st0 m plan :
  GraphState_new kw = Ok st0 ->
  _store_df_info st0 config = Ok (Upd_df_metadata m) ->
  _dashboard_plan (apply_update st0 (Upd_df_metadata m)) config
  = Ok (Upd_dashboard_plan plan) ->
  plan_pages plan <> [] ->
  all_built config (List.map (packet_for m) (plan_pages plan)) = true ->
  exists d,
    final_dashboard (snd (run (fun ts => ts) config kw)) = Some d
    /\ dashboard_title d = plan_title plan
    /\ dashboard_pages d
       = in_pages kw ++ built_pages config (List.map (packet_for m) (plan_pages plan))
    /\ forall i v,
         nth_error (plan_pages plan) i = Some v ->
         exists page,
           PageBuilder_page (model config) m v = Ok page
           /\ nth_error (dashboard_pages d) (length (in_pages kw) + i) = Some page.
Proof.
  intros Hnew Hstore Hplan Hne Hall.
  assert (Hord : rearranges (fun ts : list (@Task DataFrame PagePlanner) => ts)).
  { intros ts. reflexivity. }
  destruct (GraphState_new_fields _ _ Hnew) as (_ & _ & _ & Hpages & _ & _).
  rewrite (run_pipeline _ _ _ Hord).
  rewrite (final_dashboard_planned _ config kw st0 m plan Hord Hnew Hstore Hplan).
  destruct (plan_pages plan) as [|v0 vs] eqn:Hpp; [congruence|].
  rewrite Hall, Hpages.
  eexists. split; [reflexivity|]. cbn [dashboard_title dashboard_pages].
  split; [reflexivity|]. split; [reflexivity|].
  intros i v Hi.
  destruct (built_pages_nth config (List.map (packet_for m) (v0 :: vs)) i (packet_for m v) Hall)
    as (page & Hpage & Hnth).
  { now apply map_nth_error. }
  exists page. split; [exact Hpage|].
  rewrite nth_error_app2 by lia.
  replace (length (in_pages kw) + i - length (in_pages kw))%nat with i by lia.
  exact Hnth.
Qed.

End GraphExtras.

(** X2 at three data frames of which the first and the third are named
    alike: the identifier maps to the third. *)
Lemma summary_last_write_wins_witness :
  let st := stub_state [user_request] [0; 1; 2]%nat in
  let m := <[str "global_demographics" := stub_entry 2]> stub_metadata in
  model stub_config = Some tt
  /\ _store_df_info (env := stub []) st stub_config = Ok (Upd_df_metadata m)
  /\ m !! str "global_demographics" = Some (entry_of (env := stub []) 2%nat).
Proof.
  intros st m. split; [reflexivity|].
  assert (Hstore : _store_df_info (env := stub []) st stub_config = Ok (Upd_df_metadata m))
    by (vm_compute; reflexivity).
  split; [exact Hstore|].
  destruct (summary_last_write_wins (env := stub []) st stub_config tt m eq_refl Hstore)
    as [_ Hlast].
  apply (Hlast 2%nat (str "global_demographics") 2%nat); [reflexivity | reflexivity |].
  intros j Hj. destruct j as [|[|[|j]]]; try lia. cbn. destruct j; discriminate.
Defined.

(** X3 at three data frames, the chain timing out on the second: two
    requests were sent; and at three data frames of which the second cannot
    be sampled: one request was sent. *)
Lemma summary_stops_at_first_failure_witness :
  let st := stub_state [user_request] [0; 1; 2]%nat in
  model stub_config = Some tt
  /\ _store_df_info (env := stub_flaky 1 0 []) st stub_config
     = Raise (ServiceError "Request timed out.")
  /\ (exists request,
        nth_error (fst (_store_df_info_logged (env := stub_flaky 1 0 []) st stub_config)) 1
        = Some request
        /\ data_sum_chain_invoke (Collaborators := stub_flaky 1 0 []) tt request
           = Raise (ServiceError "Request timed out."))
  /\ _store_df_info (env := stub_unsampled 1) st stub_config
     = Raise (ValueError "a must be greater than 0 unless no samples are taken")
  /\ length (fst (_store_df_info_logged (env := stub_unsampled 1) st stub_config)) = 1%nat.
Proof.
  intros st. split; [reflexivity|].
  assert (H1 : _store_df_info (env := stub_flaky 1 0 []) st stub_config
               = Raise (ServiceError "Request timed out.")) by reflexivity.
  assert (H2 : _store_df_info (env := stub_unsampled 1) st stub_config
               = Raise (ValueError "a must be greater than 0 unless no samples are taken"))
    by reflexivity.
  split; [exact H1|]. split; [|split; [exact H2|]].
  - destruct (summary_stops_at_first_failure (env := stub_flaky 1 0 []) st stub_config tt
                _ eq_refl H1)
      as (i & d & _ & Hi & [[_ Hlen] | (request & _ & Hlen & Hnth & Hfail)]).
    + exfalso. rewrite <- Hlen in Hi. vm_compute in Hi. discriminate Hi.
    + assert (i = 1%nat) as -> by (vm_compute in Hlen; congruence).
      exists request. split; [exact Hnth | exact Hfail].
  - destruct (summary_stops_at_first_failure (env := stub_unsampled 1) st stub_config tt
                _ eq_refl H2)
      as (i & d & _ & Hi & [[_ Hlen] | (request & _ & Hlen & _)]).
    + rewrite Hlen, <- Hi. reflexivity.
    + exfalso. rewrite <- Hi in Hlen. vm_compute in Hlen. discriminate Hlen.
Defined.

(** X4 at a configuration without model: no data frame, a data frame, and
    a data frame that cannot be sampled. *)
Lemma summary_without_model_witness :
  model {| model := @None unit |} = None
  /\ _store_df_info (env := stub []) (stub_state [user_request] [])
       {| model := @None unit |}
     = Ok (Upd_df_metadata ∅)
  /\ (exists msg,
        _store_df_info (env := stub []) (stub_state [user_request] [0]%nat)
          {| model := @None unit |}
        = Raise (AttributeError msg))
  /\ _store_df_info (env := stub_unsampled 0) (stub_state [user_request] [0]%nat)
       {| model := @None unit |}
     = Raise (ValueError "a must be greater than 0 unless no samples are taken").
Proof.
  split; [reflexivity|]. split; [|split].
  - apply (summary_without_model (env := stub []) (stub_state [user_request] [])
             {| model := @None unit |} eq_refl). reflexivity.
  - destruct (summary_without_model (env := stub []) (stub_state [user_request] [0]%nat)
                {| model := @None unit |} eq_refl) as (_ & _ & H).
    exact (H 0%nat [] eq_refl).
  - destruct (summary_without_model (env := stub_unsampled 0)
                (stub_state [user_request] [0]%nat)
                {| model := @None unit |} eq_refl) as (_ & _ & H).
    exact (H 0%nat [] eq_refl).
Defined.

(** X5 at the stub with three page plans, completing in reverse. *)
Lemma run_ends_in_a_node_witness :
  rearranges reverse_order
  /\ completed
       (snd (run (env := stub [10; 20; 30]%nat) reverse_order stub_config
               (stub_input [user_request] [0; 1]%nat))) = true.
Proof.
  split; [exact reverse_order_rearranges|].
  pose proof (run_ends_in_a_node (env := stub [10; 20; 30]%nat) reverse_order stub_config
                (stub_input [user_request] [0; 1]%nat) reverse_order_rearranges) as H.
  destruct (snd (run (env := stub [10; 20; 30]%nat) reverse_order stub_config
                   (stub_input [user_request] [0; 1]%nat))) eqn:E;
    vm_compute in E; try discriminate E. reflexivity.
Defined.

(** X6 at a plan of three pages whose second page plan is rejected, the
    build tasks completing in reverse: the third page is built, then the
    second fails. *)
Lemma build_failure_aborts_witness :
  rearranges reverse_order
  /\ GraphState_new (stub_input [user_request] [0; 1]%nat)
     = Ok (stub_state [user_request] [0; 1]%nat)
  /\ _store_df_info (env := stub_flaky 9 20 [10; 20; 30]%nat)
       (stub_state [user_request] [0; 1]%nat) stub_config
     = Ok (Upd_df_metadata stub_metadata)
  /\ _dashboard_plan (env := stub_flaky 9 20 [10; 20; 30]%nat)
       (apply_update (stub_state [user_request] [0; 1]%nat)
          (Upd_df_metadata stub_metadata)) stub_config
     = Ok (Upd_dashboard_plan (stub_plan [10; 20; 30]%nat))
  /\ all_built (env := stub_flaky 9 20 [10; 20; 30]%nat) stub_config
       (List.map (packet_for stub_metadata) [10; 20; 30]%nat) = false
  /\ fst (run (env := stub_flaky 9 20 [10; 20; 30]%nat) reverse_order stub_config
            (stub_input [user_request] [0; 1]%nat))
     = [Pull "_store_df_info"; Pull "_dashboard_plan";
        Push (packet_for stub_metadata 30%nat);
        Push (packet_for stub_metadata 20%nat)]
  /\ List.filter is_assemble_task
       (fst (run (env := stub_flaky 9 20 [10; 20; 30]%nat) reverse_order stub_config
               (stub_input [user_request] [0; 1]%nat)))
     = [].
Proof.
  split; [exact reverse_order_rearranges|]. do 4 (split; [reflexivity|]).
  destruct (build_failure_aborts (env := stub_flaky 9 20 [10; 20; 30]%nat) reverse_order
              stub_config (stub_input [user_request] [0; 1]%nat)
              (stub_state [user_request] [0; 1]%nat) stub_metadata
              (stub_plan [10; 20; 30]%nat)
              reverse_order_rearranges eq_refl eq_refl eq_refl eq_refl)
    as (before & packet & after & e & _ & _ & _ & _ & Hnone & _).
  split; [reflexivity | exact Hnone].
Defined.

(** X7 at the run above, which is aborted in a page builder. *)
Lemma run_keeps_inputs_witness :
  let out := snd (run (env := stub_flaky 9 20 [10; 20; 30]%nat) reverse_order stub_config
                    (stub_input [user_request] [0; 1]%nat)) in
  rearranges reverse_order
  /\ outcome_state out
     = Some (apply_update
               (apply_update (stub_state [user_request] [0; 1]%nat)
                  (Upd_df_metadata stub_metadata))
               (Upd_dashboard_plan (stub_plan [10; 20; 30]%nat)))
  /\ option_map messages (outcome_state out) = Some [user_request]
  /\ option_map dfs (outcome_state out) = Some [0; 1]%nat.
Proof.
  intros out. split; [exact reverse_order_rearranges|].
  assert (Hout : outcome_state out
                 = Some (apply_update
                           (apply_update (stub_state [user_request] [0; 1]%nat)
                              (Upd_df_metadata stub_metadata))
                           (Upd_dashboard_plan (stub_plan [10; 20; 30]%nat))))
    by reflexivity.
  split; [exact Hout|].
  destruct (run_keeps_inputs (env := stub_flaky 9 20 [10; 20; 30]%nat) reverse_order
              stub_config (stub_input [user_request] [0; 1]%nat) _
              reverse_order_rearranges Hout) as (Hm & Hd & _).
  rewrite Hout. cbn [option_map]. split; [now rewrite Hm | now rewrite Hd].
Defined.

(** X8 at the stub with three page plans. *)
Lemma task_order_gives_plan_order_witness :
  GraphState_new (stub_input [user_request] [0; 1]%nat)
  = Ok (stub_state [user_request] [0; 1]%nat)
  /\ _store_df_info (env := stub [10; 20; 30]%nat)
       (stub_state [user_request] [0; 1]%nat) stub_config
     = Ok (Upd_df_metadata stub_metadata)
  /\ _dashboard_plan (env := stub [10; 20; 30]%nat)
       (apply_update (stub_state [user_request] [0; 1]%nat)
          (Upd_df_metadata stub_metadata)) stub_config
     = Ok (Upd_dashboard_plan (stub_plan [10; 20; 30]%nat))
  /\ plan_pages (stub_plan [10; 20; 30]%nat) <> []
  /\ all_built (env := stub [10; 20; 30]%nat) stub_config
       (List.map (packet_for stub_metadata) [10; 20; 30]%nat) = true
  /\ exists d,
       final_dashboard
         (snd (run (env := stub [10; 20; 30]%nat) (fun ts => ts) stub_config
                 (stub_input [user_request] [0; 1]%nat))) = Some d
       /\ dashboard_pages d = [110; 120; 130]%nat.
Proof.
  do 3 (split; [reflexivity|]). split; [discriminate|]. split; [reflexivity|].
  destruct (task_order_gives_plan_order (env := stub [10; 20; 30]%nat) stub_config
              (stub_input [user_request] [0; 1]%nat)
              (stub_state [user_request] [0; 1]%nat) stub_metadata
              (stub_plan [10; 20; 30]%nat) eq_refl eq_refl eq_refl
              ltac:(discriminate) eq_refl)
    as (d & Hd & _ & Hpages & _).
  exists d. split; [exact Hd | exact Hpages].
Defined.

(** * Properties of the Action model *)

Section SplitFacts.
Local Open Scope N_scope.

Lemma split_nonempty sep s : split sep s <> [].
Proof.
  induction s as [|c s IH]; cbn; [discriminate|].
  destruct (c =? sep); [discriminate|]. now destruct (split sep s).
Qed.

Lemma split_no_sep sep s : ~ In sep s -> split sep s = [s].
Proof.
  induction s as [|c s IH]; intros H; [reflexivity|]. cbn.
  destruct (N.eqb_spec c sep) as [->|Hne]; [exfalso; apply H; now left|].
  rewrite IH by (intros Hin; apply H; now right). reflexivity.
Qed.

Lemma split_app_sep sep a r :
  ~ In sep a -> split sep (a ++ sep :: r) = a :: split sep r.
Proof.
  induction a as [|c a IH]; intros H; cbn.
  - now rewrite N.eqb_refl.
  - destruct (N.eqb_spec c sep) as [->|Hne]; [exfalso; apply H; now left|].
    rewrite IH by (intros Hin; apply H; now right). reflexivity.
Qed.

(** Splitting at a separator and joining with it again gives the string
    back. *)
Lemma join_split sep s : join [sep] (split sep s) = s.
Proof.
  induction s as [|c s IH]; [reflexivity|]. cbn [split].
  pose proof (split_nonempty sep s) as Hne.
  destruct (split sep s) as [|p ps] eqn:E; [congruence|].
  destruct (N.eqb_spec c sep) as [->|Hc].
  - change (join [sep] ([] :: p :: ps)) with ([] ++ [sep] ++ join [sep] (p :: ps)).
    now rewrite IH.
  - destruct ps as [|q qs].
    + cbn [join] in *. now rewrite IH.
    + change (join [sep] ((c :: p) :: q :: qs))
        with (c :: (p ++ [sep] ++ join [sep] (q :: qs))).
      change (join [sep] (p :: q :: qs)) with (p ++ [sep] ++ join [sep] (q :: qs)) in IH.
      now rewrite IH.
Qed.

Lemma span_no_dot_spec s :
  s = fst (span_no_dot s) ++ snd (span_no_dot s)
  /\ ~ In dot (fst (span_no_dot s))
  /\ (snd (span_no_dot s) = [] \/ exists r, snd (span_no_dot s) = dot :: r).
Proof.
  induction s as [|c s (IH1 & IH2 & IH3)]; cbn [span_no_dot].
  - cbn. auto.
  - destruct (N.eqb_spec c dot) as [->|Hne]; cbn [fst snd].
    + split; [reflexivity|]. split; [auto|]. right. now exists s.
    + destruct (span_no_dot s) as [taken remaining]. cbn [fst snd app] in *.
      split; [now f_equal|]. split; [|assumption].
      intros [H|H]; [congruence | contradiction].
Qed.

(** A reference that passes the pattern is a component id, a dot and a
    property, both without dot and not empty, and [split] finds them. *)
Lemma matches_reference_split s :
  matches_reference s = true ->
  exists a b,
    s = a ++ dot :: b /\ a <> [] /\ b <> []
    /\ ~ In dot a /\ ~ In dot b
    /\ split dot s = [a; b].
Proof.
  unfold matches_reference. intros H.
  destruct (span_no_dot_spec s) as (Hs & Ha & Hr).
  destruct (span_no_dot s) as [a r]. cbn [fst snd] in *.
  destruct a as [|a0 a]; [discriminate|].
  destruct r as [|c rest]; [discriminate|].
  destruct Hr as [Hr | [r' Hr]]; [discriminate|]. injection Hr as -> ->.
  destruct (span_no_dot_spec r') as (Hs' & Hb & Hr').
  destruct (span_no_dot r') as [b r2]. cbn [fst snd] in *.
  destruct b as [|b0 b]; [discriminate|].
  destruct r2 as [|? ?]; [|discriminate].
  rewrite app_nil_r in Hs'. subst r'.
  exists (a0 :: a), (b0 :: b). repeat split; try assumption; try discriminate.
  rewrite Hs, split_app_sep by assumption. now rewrite split_no_sep.
Qed.

End SplitFacts.

Section ActionFacts.
Context {Value Component : Type}.

Abbreviation PyValue := (@Action.PyValue Value).
Abbreviation Arguments := (@Action.Arguments Value).
Abbreviation ActionT := (@Action.Action Value Component).

Implicit Types (call : Arguments -> result PyValue).
Implicit Types (self a : ActionT).

Lemma mapM_states (refs : list pystr) :
  forallb matches_reference refs = true ->
  exists states,
    mapM (fun input => Action.State_of (split dot input)) refs = Ok states
    /\ List.map Action.state_reference states = refs
    /\ Forall (fun st => Action.state_id st <> [] /\ Action.state_property st <> []
                         /\ ~ In dot (Action.state_id st)
                         /\ ~ In dot (Action.state_property st)) states.
Proof.
  induction refs as [|r refs IH]; cbn [forallb mapM].
  - intros _. exists []. repeat split. constructor.
  - intros H. apply andb_true_iff in H as [Hr Hrest].
    destruct (IH Hrest) as (states & Hm & Hrefs & Hall).
    destruct (matches_reference_split r Hr) as (x & y & Hs & Hx & Hy & Hdx & Hdy & Hsplit).
    rewrite Hsplit. cbn [Action.State_of bind]. rewrite Hm. cbn [bind].
    eexists. split; [reflexivity|]. cbn [List.map]. split.
    + unfold Action.state_reference at 1. cbn. now rewrite Hrefs, Hs.
    + constructor; [cbn; auto | assumption].
Qed.

Lemma mapM_outputs (refs : list pystr) :
  forallb matches_reference refs = true ->
  exists outs,
    mapM (fun output => Action.Output_of (split dot output)) refs = Ok outs
    /\ List.map Action.output_reference outs = refs
    /\ Forall (fun o => Action.allow_duplicate o = true) outs.
Proof.
  induction refs as [|r refs IH]; cbn [forallb mapM].
  - intros _. exists []. repeat split. constructor.
  - intros H. apply andb_true_iff in H as [Hr Hrest].
    destruct (IH Hrest) as (outs & Hm & Hrefs & Hall).
    destruct (matches_reference_split r Hr) as (x & y & Hs & _ & _ & _ & _ & Hsplit).
    rewrite Hsplit. cbn [Action.Output_of bind]. rewrite Hm. cbn [bind].
    eexists. split; [reflexivity|]. cbn [List.map]. split.
    + unfold Action.output_reference at 1. cbn. now rewrite Hrefs, Hs.
    + constructor; [reflexivity | assumption].
Qed.

Lemma Action_new_inv ident (f : @Action.Function Value Component) ins outs a :
  Action.Action_new ident f ins outs = Ok a ->
  a = {| Action.id := ident; Action.function := f;
         Action.inputs := ins; Action.outputs := outs |}
  /\ forallb matches_reference ins = true
  /\ forallb matches_reference outs = true.
Proof.
  unfold Action.Action_new.
  destruct (forallb matches_reference ins) eqn:Hi; [|discriminate].
  destruct (forallb matches_reference outs) eqn:Ho; [|discriminate].
  cbn. intros [= <-]. auto.
Qed.

Lemma get_callback_mapping_plain ident call ins outs a :
  Action.Action_new ident (Action.CapturedCallable call) ins outs = Ok a ->
  exists states outputs,
    Action._get_callback_mapping a
    = Ok (Action.DepList states,
          match outputs with
          | [single] => Action.OutputSingle single
          | _ => Action.OutputList outputs
          end,
          [])
    /\ List.map Action.state_reference states = ins
    /\ List.map Action.output_reference outputs = outs
    /\ Forall (fun o => Action.allow_duplicate o = true) outputs
    /\ Forall (fun st => Action.state_id st <> [] /\ Action.state_property st <> []
                         /\ ~ In dot (Action.state_id st)
                         /\ ~ In dot (Action.state_property st)) states.
Proof.
  intros Hnew. destruct (Action_new_inv _ _ _ _ _ Hnew) as (-> & Hi & Ho).
  destruct (mapM_states ins Hi) as (states & Hs & Hrs & Hall).
  destruct (mapM_outputs outs Ho) as (outputs & Hos & Hro & Hdup).
  exists states, outputs. unfold Action._get_callback_mapping.
  cbn [Action.function Action.inputs Action.outputs]. rewrite Hs, Hos. cbn [bind].
  repeat split; assumption.
Qed.

(** X9: for an action that wraps a plain function and whose references
    passed the pattern, [_get_callback_mapping] does not raise; it returns
    one [State] per input and one [Output] per output, in the order given,
    each with the component id and the property that stand before and after
    the dot of the reference, every [Output] allowing duplicates; a single
    output is returned as it is and not as a list; there are no
    components. *)
Theorem callback_mapping_of_references ident call ins outs a :
  Action.Action_new ident (Action.CapturedCallable call) ins outs = Ok a ->
  exists states outputs,
    Action._get_callback_mapping a
    = Ok (Action.DepList states,
          match outputs with
          | [single] => Action.OutputSingle single
          | _ => Action.OutputList outputs
          end,
          [])
    /\ List.map Action.state_reference states = ins
    /\ List.map Action.output_reference outputs = outs
    /\ Forall (fun o => Action.allow_duplicate o = true) outputs
    /\ Forall (fun st => Action.state_id st <> [] /\ Action.state_property st <> []
                         /\ ~ In dot (Action.state_id st)
                         /\ ~ In dot (Action.state_property st)) states.
Proof. apply get_callback_mapping_plain. Qed.

(** X10: [_action_callback_function] never changes the value: what it
    returns is what the function returned, and what it raises is what the
    function raised or a [ValueError] about a value the function returned. *)
Theorem callback_function_keeps_value self (args : Arguments) outputs :
  match Action._action_callback_function self args outputs with
  | Ok v => Action.call_function (Action.function self) args = Ok v
  | Raise e =>
      Action.call_function (Action.function self) args = Raise e
      \/ exists v msg,
           Action.call_function (Action.function self) args = Ok v
           /\ e = ValueError msg
  end.
Proof.
  unfold Action._action_callback_function.
  destruct (Action.call_function (Action.function self) args) as [v|e]; cbn [bind];
    [|now left].
  destruct (negb (Action.truthy outputs)).
  - destruct v; try reflexivity; right; eauto.
  - destruct outputs as [[l|d|o]|]; try reflexivity.
    + destruct (Action.len v) as [n|]; [|right; eauto].
      destruct (Nat.eqb n (length l)); [reflexivity | right; eauto].
    + destruct v; try (right; eauto; fail).
      destruct (bool_decide _); [reflexivity | right; eauto].
Qed.

(** X11: the callback that [build] registers for a plain function with
    validated references.  [build] raises exactly when the registration of
    the callback raises, and the same; otherwise it returns the callback,
    triggered by the action, and a [Div] that is hidden and empty.  With no
    output the callback has no external output; the wrapper accepts [None]
    only and hands back no external value.  With one output every value is
    accepted, [None] included.  With two or more outputs a value is
    accepted exactly when it is a sized collection (a mapping counts) of as
    many elements as there are outputs.  An accepted value is handed back
    as it is; an exception of the function passes through. *)
Theorem built_callback_accepts callback ident call ins outs a :
  Action.Action_new ident (Action.CapturedCallable call) ins outs = Ok a ->
  exists cb div,
    Action.build callback a
    = (do _registered <-
         callback (Action.callback_outputs_external cb)
           (Action.callback_inputs_external cb) ident;
       Ok (cb, div))
    /\ Action.callback_trigger cb = ident
    /\ Action.children div = []
    /\ Action.hidden div = true
    /\ (Action.callback_outputs_external cb = None <-> outs = [])
    /\ forall args,
         match call args with
         | Raise e => Action.callback_wrapper cb args = Raise e
         | Ok v =>
             match outs with
             | [] =>
                 (v = Action.PyNone ->
                  Action.callback_wrapper cb args = Ok {| Action.external := None |})
                 /\ (v <> Action.PyNone ->
                     exists msg, Action.callback_wrapper cb args = Raise (ValueError msg))
             | [_] =>
                 Action.callback_wrapper cb args = Ok {| Action.external := Some v |}
             | _ :: _ :: _ =>
                 (Action.len v = Some (length outs) ->
                  Action.callback_wrapper cb args = Ok {| Action.external := Some v |})
                 /\ (Action.len v <> Some (length outs) ->
                     exists msg, Action.callback_wrapper cb args = Raise (ValueError msg))
             end
         end.
Proof.
  intros Hnew.
  destruct (get_callback_mapping_plain _ _ _ _ _ Hnew)
    as (states & outputs & Hmap & _ & Hro & _ & _).
  destruct (Action_new_inv _ _ _ _ _ Hnew) as (Ha & _ & _).
  assert (Hlen : length outputs = length outs) by (rewrite <- Hro; now rewrite length_map).
  assert (Hid : Action.id a = ident) by now rewrite Ha.
  unfold Action.build. rewrite Hmap. cbn [bind]. cbv zeta. rewrite Hid.
  match goal with
  | |- exists cb div, bind _ (fun _ => Ok (?c, ?d)) = _ /\ _ => exists c, d
  end.
  split; [reflexivity|].
  cbn [Action.children Action.hidden Action.callback_outputs_external
       Action.callback_wrapper Action.callback_trigger].
  split; [reflexivity|]. split; [reflexivity|]. split; [reflexivity|].
  assert (Hfun : Action.function a = Action.CapturedCallable call) by now rewrite Ha.
  destruct outputs as [|o1 [|o2 outputs]]; destruct outs as [|r1 [|r2 outs]];
    try discriminate Hlen; cbn [Action.truthy].
  - split; [split; reflexivity|]. intros args.
    unfold Action._action_callback_function. rewrite Hfun. cbn [Action.call_function].
    destruct (call args) as [v|e]; cbn [bind Action.truthy negb]; [|reflexivity].
    split.
    + now intros ->.
    + intros Hv. destruct v; try congruence; eexists; reflexivity.
  - split; [split; discriminate|]. intros args.
    unfold Action._action_callback_function. rewrite Hfun. cbn [Action.call_function].
    now destruct (call args) as [v|e].
  - split; [split; discriminate|]. intros args.
    unfold Action._action_callback_function. rewrite Hfun. cbn [Action.call_function].
    destruct (call args) as [v|e]; cbn [bind Action.truthy negb]; [|reflexivity].
    rewrite Hlen. split.
    + intros ->. now rewrite Nat.eqb_refl.
    + intros Hv. destruct (Action.len v) as [n|]; cbn [bind]; [|eexists; reflexivity].
      destruct (Nat.eqb_spec n (length (r1 :: r2 :: outs))) as [->|Hn]; [congruence|].
      eexists. reflexivity.
Qed.

End ActionFacts.

(** * Properties of the Graph component *)

Section GraphComponentFacts.
Context {Num Value Fn Rest : Type}.
Context `{surroundings : !@Graph.Surroundings Num Value Fn Rest}.

Abbreviation Figure := (@Graph.Figure Num Rest).
Abbreviation Frame := (@Graph.Frame Value).
Abbreviation GraphModel := (@Graph.GraphModel Fn).

Implicit Types (fig : Figure) (self source : GraphModel).
Implicit Types (data_frame df : Frame).

(** ** The layout *)

Lemma figure_ext fig fig' :
  Graph.margin_t fig = Graph.margin_t fig' ->
  Graph.margin_l fig = Graph.margin_l fig' ->
  Graph.title_text fig = Graph.title_text fig' ->
  Graph.title_pad_t fig = Graph.title_pad_t fig' ->
  Graph.title_pad_l fig = Graph.title_pad_l fig' ->
  Graph.title_pad_r fig = Graph.title_pad_r fig' ->
  Graph.rest fig = Graph.rest fig' ->
  fig = fig'.
Proof. destruct fig, fig'; cbn; intros; now subst. Qed.

Lemma reduce_margin_t_fields fig :
  Graph.fields_of (Graph.reduce_margin_t fig)
  = if Graph.is_None (Graph.margin_t fig) && Graph.is_None (Graph.title_text fig)
    then (Some (Graph.int 24), Some (Graph.int 24), Graph.title_text fig,
          Graph.title_pad_t fig, Some (Graph.int 0), Some (Graph.int 0), Graph.rest fig)
    else Graph.fields_of fig.
Proof.
  unfold Graph.reduce_margin_t.
  now destruct (Graph.is_None (Graph.margin_t fig) && Graph.is_None (Graph.title_text fig)).
Qed.

Lemma reduce_title_pad_t_fields fig :
  Graph.fields_of (Graph.reduce_title_pad_t fig)
  = (Graph.margin_t fig, Graph.margin_l fig, Graph.title_text fig,
     (if Graph.is_None (Graph.title_pad_t fig)
         && Graph.single_line_title (Graph.title_text fig)
      then Some (Graph.int 7) else Graph.title_pad_t fig),
     Graph.title_pad_l fig, Graph.title_pad_r fig, Graph.rest fig).
Proof.
  unfold Graph.reduce_title_pad_t.
  now destruct (Graph.is_None (Graph.title_pad_t fig)
                && Graph.single_line_title (Graph.title_text fig)).
Qed.

Lemma default_title_pad_l_fields fig :
  Graph.fields_of (Graph.default_title_pad_l fig)
  = (Graph.margin_t fig, Graph.margin_l fig, Graph.title_text fig,
     Graph.title_pad_t fig,
     (if Graph.is_None (Graph.title_pad_l fig) then Some (Graph.int 0)
      else Graph.title_pad_l fig),
     Graph.title_pad_r fig, Graph.rest fig).
Proof.
  unfold Graph.default_title_pad_l. now destruct (Graph.is_None (Graph.title_pad_l fig)).
Qed.

Lemma default_title_pad_r_fields fig :
  Graph.fields_of (Graph.default_title_pad_r fig)
  = (Graph.margin_t fig, Graph.margin_l fig, Graph.title_text fig,
     Graph.title_pad_t fig, Graph.title_pad_l fig,
     (if Graph.is_None (Graph.title_pad_r fig) then Some (Graph.int 0)
      else Graph.title_pad_r fig),
     Graph.rest fig).
Proof.
  unfold Graph.default_title_pad_r. now destruct (Graph.is_None (Graph.title_pad_r fig)).
Qed.

Lemma default_margin_l_fields fig :
  Graph.fields_of (Graph.default_margin_l fig)
  = (Graph.margin_t fig,
     (if Graph.is_None (Graph.margin_l fig) then Some (Graph.int 24)
      else Graph.margin_l fig),
     Graph.title_text fig, Graph.title_pad_t fig, Graph.title_pad_l fig,
     Graph.title_pad_r fig, Graph.rest fig).
Proof.
  unfold Graph.default_margin_l. now destruct (Graph.is_None (Graph.margin_l fig)).
Qed.

Lemma fields_of_inv fig a b c d e f g :
  Graph.fields_of fig = (a, b, c, d, e, f, g) ->
  Graph.margin_t fig = a /\ Graph.margin_l fig = b /\ Graph.title_text fig = c
  /\ Graph.title_pad_t fig = d /\ Graph.title_pad_l fig = e
  /\ Graph.title_pad_r fig = f /\ Graph.rest fig = g.
Proof. unfold Graph.fields_of. intros [= <- <- <- <- <- <- <-]. repeat split. Qed.

(** The fields of the optimised figure, from the fields of the figure. *)
Lemma optimise_fields fig :
  let bare := Graph.is_None (Graph.margin_t fig) && Graph.is_None (Graph.title_text fig) in
  Graph.fields_of (Graph._optimise_fig_layout_for_dashboard fig)
  = (match Graph.margin_t fig with
     | Some v => Some v
     | None => if bare then Some (Graph.int 24) else None
     end,
     match Graph.margin_l fig with
     | Some v => if bare then Some (Graph.int 24) else Some v
     | None => Some (Graph.int 24)
     end,
     Graph.title_text fig,
     match Graph.title_pad_t fig with
     | Some v => Some v
     | None =>
         if Graph.single_line_title (Graph.title_text fig)
         then Some (Graph.int 7) else None
     end,
     match Graph.title_pad_l fig with
     | Some v => if bare then Some (Graph.int 0) else Some v
     | None => Some (Graph.int 0)
     end,
     match Graph.title_pad_r fig with
     | Some v => if bare then Some (Graph.int 0) else Some v
     | None => Some (Graph.int 0)
     end,
     Graph.rest fig).
Proof.
  intros bare. unfold Graph._optimise_fig_layout_for_dashboard. cbv zeta.
  rewrite default_margin_l_fields.
  destruct (fields_of_inv _ _ _ _ _ _ _ _ (default_title_pad_r_fields
              (Graph.default_title_pad_l (Graph.reduce_title_pad_t (Graph.reduce_margin_t fig)))))
    as (-> & -> & -> & -> & -> & -> & ->).
  destruct (fields_of_inv _ _ _ _ _ _ _ _ (default_title_pad_l_fields
              (Graph.reduce_title_pad_t (Graph.reduce_margin_t fig))))
    as (-> & -> & -> & -> & -> & -> & ->).
  destruct (fields_of_inv _ _ _ _ _ _ _ _ (reduce_title_pad_t_fields
              (Graph.reduce_margin_t fig)))
    as (-> & -> & -> & -> & -> & -> & ->).
  pose proof (reduce_margin_t_fields fig) as H1. fold bare in H1.
  destruct bare eqn:Hbare.
  - destruct (fields_of_inv _ _ _ _ _ _ _ _ H1) as (-> & -> & -> & -> & -> & -> & ->).
    apply andb_true_iff in Hbare as [Hmt Htext].
    destruct (Graph.margin_t fig); [discriminate|].
    destruct (Graph.title_text fig); [discriminate|].
    cbn. destruct (Graph.margin_l fig), (Graph.title_pad_t fig),
           (Graph.title_pad_l fig), (Graph.title_pad_r fig); reflexivity.
  - unfold Graph.fields_of in H1. injection H1 as -> -> -> -> -> -> ->.
    destruct (Graph.margin_t fig), (Graph.margin_l fig), (Graph.title_pad_t fig),
      (Graph.title_pad_l fig), (Graph.title_pad_r fig); cbn;
      try destruct (Graph.single_line_title (Graph.title_text fig)); reflexivity.
Qed.

Lemma optimise_idempotent fig :
  Graph._optimise_fig_layout_for_dashboard (Graph._optimise_fig_layout_for_dashboard fig)
  = Graph._optimise_fig_layout_for_dashboard fig.
Proof.
  set (once := Graph._optimise_fig_layout_for_dashboard fig).
  pose proof (optimise_fields once) as H2. cbv zeta in H2.
  pose proof (optimise_fields fig) as H1. cbv zeta in H1. fold once in H1.
  destruct (fields_of_inv _ _ _ _ _ _ _ _ H1) as (Hmt & Hml & Htext & Hpt & Hpl & Hpr & Hrest).
  destruct (fields_of_inv _ _ _ _ _ _ _ _ H2) as (Kmt & Kml & Ktext & Kpt & Kpl & Kpr & Krest).
  apply figure_ext; rewrite ?Kmt, ?Kml, ?Ktext, ?Kpt, ?Kpl, ?Kpr, ?Krest;
    rewrite ?Hmt, ?Hml, ?Htext, ?Hpt, ?Hpl, ?Hpr; try reflexivity;
    destruct (Graph.margin_t fig), (Graph.title_text fig) as [t|];
    cbn [Graph.is_None andb];
    repeat match goal with
      | |- context [match Graph.margin_l fig with Some _ => _ | None => _ end] =>
          destruct (Graph.margin_l fig)
      | |- context [match Graph.title_pad_t fig with Some _ => _ | None => _ end] =>
          destruct (Graph.title_pad_t fig)
      | |- context [match Graph.title_pad_l fig with Some _ => _ | None => _ end] =>
          destruct (Graph.title_pad_l fig)
      | |- context [match Graph.title_pad_r fig with Some _ => _ | None => _ end] =>
          destruct (Graph.title_pad_r fig)
      | |- context [if Graph.single_line_title ?x then _ else _] =>
          destruct (Graph.single_line_title x)
      end; reflexivity.
Qed.

(** X12: optimising the layout of a figure twice is optimising it once. *)
Theorem optimise_fig_layout_idempotent fig :
  Graph._optimise_fig_layout_for_dashboard (Graph._optimise_fig_layout_for_dashboard fig)
  = Graph._optimise_fig_layout_for_dashboard fig.
Proof. apply optimise_idempotent. Qed.

(** X13: [_optimise_fig_layout_for_dashboard] leaves the title text, a top
    margin that is set, a top padding of the title that is set, and
    everything outside the six layout fields as they are.  Afterwards the
    left margin and the left and right padding of the title are always set.
    A left margin or padding that was set is kept, except in a figure with
    neither top margin nor title text: there they are replaced by 24 and
    0. *)
Theorem optimise_fig_layout_fields fig :
  let fig' := Graph._optimise_fig_layout_for_dashboard fig in
  let bare := Graph.is_None (Graph.margin_t fig) && Graph.is_None (Graph.title_text fig) in
  Graph.title_text fig' = Graph.title_text fig
  /\ Graph.rest fig' = Graph.rest fig
  /\ Graph.margin_t fig'
     = match Graph.margin_t fig with
       | Some v => Some v
       | None => if bare then Some (Graph.int 24) else None
       end
  /\ Graph.title_pad_t fig'
     = match Graph.title_pad_t fig with
       | Some v => Some v
       | None =>
           if Graph.single_line_title (Graph.title_text fig)
           then Some (Graph.int 7) else None
       end
  /\ Graph.margin_l fig'
     = match Graph.margin_l fig with
       | Some v => if bare then Some (Graph.int 24) else Some v
       | None => Some (Graph.int 24)
       end
  /\ Graph.title_pad_l fig'
     = match Graph.title_pad_l fig with
       | Some v => if bare then Some (Graph.int 0) else Some v
       | None => Some (Graph.int 0)
       end
  /\ Graph.title_pad_r fig'
     = match Graph.title_pad_r fig with
       | Some v => if bare then Some (Graph.int 0) else Some v
       | None => Some (Graph.int 0)
       end.
Proof.
  intros fig' bare. pose proof (optimise_fields fig) as H. cbv zeta in H.
  fold fig' in H. fold bare in H.
  destruct (fields_of_inv _ _ _ _ _ _ _ _ H) as (Hmt & Hml & Htext & Hpt & Hpl & Hpr & Hrest).
  repeat split; assumption.
Qed.

(** ** Calling the component *)

Lemma setdefault_present (kwargs : gmap (list N) (@Graph.KwValue Value)) key default passed :
  kwargs !! key = Some passed -> Graph.setdefault kwargs key default = kwargs.
Proof. intros H. unfold Graph.setdefault. now rewrite H. Qed.

(** X14: the figure that [__call__] returns is a figure whose layout is
    optimised: optimising it again changes nothing. *)
Theorem call_returns_optimised self (kwargs : gmap (list N) (@Graph.KwValue Value)) fig :
  Graph.__call__ self kwargs = Graph.Returns fig ->
  Graph._optimise_fig_layout_for_dashboard fig = fig.
Proof.
  unfold Graph.__call__.
  destruct (Graph.__getitem__ self (str "data_frame")) as [name|e]; [|discriminate].
  cbn [Graph.and_then].
  destruct (Graph.data_manager_getitem_load name) as [default|e]; [|discriminate].
  cbn [Graph.and_then].
  destruct (Graph.captured_call _ _) as [raw|e]; [|discriminate].
  cbn [Graph.and_then]. intros [= <-]. apply optimise_idempotent.
Qed.

(** X15: [__call__] loads the data frame named in the figure whether or
    not a [data_frame] is passed: when the load raises, the call raises the
    same, also with a [data_frame] among the keyword arguments; when it
    returns and a [data_frame] is passed, the figure function is called
    with the keyword arguments as they were passed. *)
Theorem call_loads_default_first self (kwargs : gmap (list N) (@Graph.KwValue Value))
    name passed :
  Graph.__getitem__ self (str "data_frame") = Graph.Returns (Graph.ArgStr name) ->
  kwargs !! str "data_frame" = Some passed ->
  (forall e, Graph.data_manager_load name = Graph.Raises e ->
             Graph.__call__ self kwargs = Graph.Raises e)
  /\ (forall loaded, Graph.data_manager_load name = Graph.Returns loaded ->
        Graph.__call__ self kwargs
        = Graph.and_then (Graph.captured_call (Graph.figure self) kwargs)
            (fun fig => Graph.Returns (Graph._optimise_fig_layout_for_dashboard fig))).
Proof.
  intros Hname Hpassed. unfold Graph.__call__. rewrite Hname. cbn [Graph.and_then].
  unfold Graph.data_manager_getitem_load. split.
  - intros e He. now rewrite He.
  - intros loaded Hl. rewrite Hl. cbn [Graph.and_then].
    now rewrite (setdefault_present _ _ _ _ Hpassed).
Qed.

(** ** The filter interaction *)

Implicit Types (clicked : list Value) (cols : list pystr).
Implicit Types (acts : list (@Graph.ActionModel Fn)).

Lemma filter_filter {A} (p q : A -> bool) (l : list A) :
  List.filter p (List.filter q l) = List.filter (fun x => q x && p x) l.
Proof.
  induction l as [|x l IH]; [reflexivity|]. cbn [List.filter].
  destruct (q x); cbn [List.filter andb]; [destruct (p x)|]; now rewrite IH.
Qed.

Lemma filter_twice {A} (p : A -> bool) (l : list A) :
  List.filter p (List.filter p l) = List.filter p l.
Proof.
  rewrite filter_filter. apply List.filter_ext. intros x. now destruct (p x).
Qed.

Lemma filter_all {A} (l : list A) : List.filter (fun _ => true) l = l.
Proof. induction l as [|x l IH]; [reflexivity|]. cbn. now rewrite IH. Qed.

Lemma frame_eta df : {| Graph.columns := Graph.columns df; Graph.rows := Graph.rows df |} = df.
Proof. now destruct df. Qed.

Lemma has_column_same df df2 column :
  Graph.columns df2 = Graph.columns df ->
  Graph.has_column df2 column = Graph.has_column df column.
Proof. intros H. unfold Graph.has_column. now rewrite H. Qed.

(** The inner loop: when it returns, it has kept the rows that carry the
    clicked values, and it returns on every data frame with these
    columns. *)
Lemma filter_columns_spec cols df clicked i df' :
  Graph.filter_columns df clicked i cols = Graph.Returns df' ->
  Graph.columns df' = Graph.columns df
  /\ Graph.rows df' = List.filter (Graph.clicked_row clicked i cols) (Graph.rows df)
  /\ forall df2, Graph.columns df2 = Graph.columns df ->
       Graph.filter_columns df2 clicked i cols
       = Graph.Returns
           {| Graph.columns := Graph.columns df2;
              Graph.rows := List.filter (Graph.clicked_row clicked i cols) (Graph.rows df2) |}.
Proof.
  revert df i df'. induction cols as [|column later IH]; intros df i df'.
  - cbn [Graph.filter_columns Graph.clicked_row]. intros [= <-].
    split; [reflexivity|]. split; [now rewrite filter_all|].
    intros df2 _. now rewrite filter_all, frame_eta.
  - cbn [Graph.filter_columns].
    destruct (Graph.has_column df column) eqn:Hcol; [|discriminate].
    unfold Graph.list_getitem.
    destruct (nth_error clicked i) as [v|] eqn:Hv; [|discriminate].
    cbn [Graph.and_then]. intros Hrec.
    destruct (IH _ _ _ Hrec) as (Hc & Hr & Hsame).
    assert (Hkeep : forall rows0 : list (pystr -> Value),
              List.filter (Graph.clicked_row clicked (S i) later)
                (List.filter (fun row => Graph.isin (row column) v) rows0)
              = List.filter (Graph.clicked_row clicked i (column :: later)) rows0).
    { intros rows0. rewrite filter_filter. apply List.filter_ext. intros row.
      cbn [Graph.clicked_row]. now rewrite Hv. }
    split; [exact Hc|]. split.
    + rewrite Hr. cbn [Graph.select_isin Graph.rows]. apply Hkeep.
    + intros df2 H2. rewrite (has_column_same _ _ _ H2), Hcol.
      cbn [Graph.and_then].
      rewrite (Hsame (Graph.select_isin df2 column v)) by exact H2.
      cbn [Graph.select_isin Graph.rows Graph.columns]. now rewrite Hkeep.
Qed.

(** The loop over the actions: when it returns, the rows are filtered once
    if some action applies and not at all otherwise. *)
Lemma filter_actions_spec acts df target clicked cols df' :
  Graph.filter_actions df target clicked cols acts = Graph.Returns df' ->
  Graph.columns df' = Graph.columns df
  /\ Graph.rows df'
     = (if existsb (Graph.applies_to target) acts
        then List.filter (Graph.clicked_row clicked 0 cols) (Graph.rows df)
        else Graph.rows df)
  /\ forall df2, Graph.columns df2 = Graph.columns df ->
       Graph.filter_actions df2 target clicked cols acts
       = Graph.Returns
           {| Graph.columns := Graph.columns df2;
              Graph.rows :=
                if existsb (Graph.applies_to target) acts
                then List.filter (Graph.clicked_row clicked 0 cols) (Graph.rows df2)
                else Graph.rows df2 |}.
Proof.
  revert df df'. induction acts as [|action later IH]; intros df df'.
  - cbn [Graph.filter_actions existsb]. intros [= <-].
    split; [reflexivity|]. split; [reflexivity|]. intros df2 _. now rewrite frame_eta.
  - cbn [Graph.filter_actions existsb]. unfold Graph.applies_to at 1 3.
    destruct (Graph.applies target action) as [[|]|e]; cbn [Graph.and_then];
      [| |discriminate].
    + destruct (Graph.filter_columns df clicked 0 cols) as [d1|e] eqn:Hd1;
        cbn [Graph.and_then]; [|discriminate].
      destruct (filter_columns_spec _ _ _ _ _ Hd1) as (Hc1 & Hr1 & Hsame1).
      intros Hrec. destruct (IH _ _ Hrec) as (Hc & Hr & Hsame).
      cbn [orb]. split; [congruence|]. split.
      * rewrite Hr, Hr1. destruct (existsb _ later); [apply filter_twice | reflexivity].
      * intros df2 H2. rewrite (Hsame1 df2 H2). cbn [Graph.and_then].
        rewrite Hsame by (cbn; congruence).
        cbn [Graph.columns Graph.rows].
        destruct (existsb _ later); [now rewrite filter_twice | reflexivity].
    + intros Hrec. destruct (IH _ _ Hrec) as (Hc & Hr & Hsame). cbn [orb].
      split; [exact Hc|]. split; [exact Hr|]. exact Hsame.
Qed.

Lemma filter_interaction_inv self df target (ctd : @Graph.FilterInteraction Value) value df' :
  Graph.ctd_value (Graph.clickData ctd) = Some value ->
  Graph._filter_interaction self df target ctd = Graph.Returns df' ->
  exists source custom_data point clicked,
    Graph.model_manager !! Graph.ctd_id (Graph.clickData ctd) = Some source
    /\ Graph.__getitem__ source (str "custom_data") = Graph.Returns custom_data
    /\ nth_error (Graph.points value) 0 = Some point
    /\ Graph.customdata point = Some clicked
    /\ Graph.filter_actions df target clicked (Graph.iterate custom_data)
         (Graph._get_component_actions source) = Graph.Returns df'.
Proof.
  intros Hvalue. unfold Graph._filter_interaction. rewrite Hvalue. cbv zeta.
  unfold Graph.model_manager_getitem.
  destruct (Graph.model_manager !! Graph.ctd_id (Graph.clickData ctd)) as [source|]
    eqn:Hs; cbn [Graph.and_then]; [|discriminate].
  destruct (Graph.__getitem__ source (str "custom_data")) as [custom_data|e] eqn:Hc;
    cbn [Graph.and_then].
  2:{ destruct (Graph.is_KeyError e); discriminate. }
  unfold Graph.list_getitem.
  destruct (nth_error (Graph.points value) 0) as [point|] eqn:Hp; cbn [Graph.and_then];
    [|discriminate].
  destruct (Graph.customdata point) as [clicked|] eqn:Hk; cbn [Graph.and_then];
    [|discriminate].
  intros H. exists source, custom_data, point, clicked. auto.
Qed.

(** X16: when [_filter_interaction] returns, the data frame has the columns
    it had.  Without click it is the data frame that was passed.  With a
    click, if an action of the source graph is a [filter_interaction] with
    the target among its targets, the rows kept are exactly the rows that
    carry, in every [custom_data] column of the source graph, the value
    clicked at that position, in their order; if there is no such action,
    all rows are kept.  How many such actions there are makes no
    difference. *)
Theorem filter_interaction_selects self df target (ctd : @Graph.FilterInteraction Value) df' :
  Graph._filter_interaction self df target ctd = Graph.Returns df' ->
  Graph.columns df' = Graph.columns df
  /\ match Graph.ctd_value (Graph.clickData ctd) with
     | None => df' = df
     | Some value =>
         exists source custom_data point clicked,
           Graph.model_manager !! Graph.ctd_id (Graph.clickData ctd) = Some source
           /\ Graph.__getitem__ source (str "custom_data") = Graph.Returns custom_data
           /\ nth_error (Graph.points value) 0 = Some point
           /\ Graph.customdata point = Some clicked
           /\ Graph.rows df'
              = if existsb (Graph.applies_to target) (Graph._get_component_actions source)
                then List.filter
                       (Graph.clicked_row clicked 0 (Graph.iterate custom_data))
                       (Graph.rows df)
                else Graph.rows df
     end.
Proof.
  intros H. destruct (Graph.ctd_value (Graph.clickData ctd)) as [value|] eqn:Hvalue.
  - destruct (filter_interaction_inv _ _ _ _ _ _ Hvalue H)
      as (source & custom_data & point & clicked & Hs & Hc & Hp & Hk & Hloop).
    destruct (filter_actions_spec _ _ _ _ _ _ Hloop) as (Hcols & Hrows & _).
    split; [exact Hcols|]. exists source, custom_data, point, clicked.
    repeat split; assumption.
  - unfold Graph._filter_interaction in H. rewrite Hvalue in H. now injection H as <-.
Qed.

(** X17: filtering is idempotent: when [_filter_interaction] returns a data
    frame, applying it to that data frame, with the same target and the
    same click, returns the same data frame. *)
Theorem filter_interaction_idempotent self df target (ctd : @Graph.FilterInteraction Value) df' :
  Graph._filter_interaction self df target ctd = Graph.Returns df' ->
  Graph._filter_interaction self df' target ctd = Graph.Returns df'.
Proof.
  intros H. destruct (Graph.ctd_value (Graph.clickData ctd)) as [value|] eqn:Hvalue.
  - destruct (filter_interaction_inv _ _ _ _ _ _ Hvalue H)
      as (source & custom_data & point & clicked & Hs & Hc & Hp & Hk & Hloop).
    destruct (filter_actions_spec _ _ _ _ _ _ Hloop) as (Hcols & Hrows & Hsame).
    unfold Graph._filter_interaction. rewrite Hvalue. cbv zeta.
    unfold Graph.model_manager_getitem. rewrite Hs. cbn [Graph.and_then].
    rewrite Hc. cbn [Graph.and_then]. unfold Graph.list_getitem. rewrite Hp.
    cbn [Graph.and_then]. rewrite Hk. cbn [Graph.and_then].
    rewrite (Hsame df' Hcols). f_equal.
    destruct df' as [c r]. cbn [Graph.columns Graph.rows] in *. f_equal.
    destruct (existsb _ _); [|reflexivity].
    rewrite Hrows. apply filter_twice.
  - unfold Graph._filter_interaction in *. rewrite Hvalue in *. now injection H as <-.
Qed.

(** X18: the failures of [_filter_interaction] before it looks at actions.
    Without click it returns the data frame even when the source graph is
    not registered.  With a click, a source graph that is not registered
    gives the [KeyError] of the lookup; a registered source graph whose
    figure has no [custom_data] gives the [KeyError] that names the source
    graph, whatever its actions and whatever the data frame; any other
    exception of that lookup passes through. *)
Theorem filter_interaction_lookups self df target (ctd : @Graph.FilterInteraction Value) :
  let source_graph_id := Graph.ctd_id (Graph.clickData ctd) in
  (Graph.ctd_value (Graph.clickData ctd) = None ->
   Graph._filter_interaction self df target ctd = Graph.Returns df)
  /\ (forall value,
        Graph.ctd_value (Graph.clickData ctd) = Some value ->
        Graph.model_manager !! source_graph_id = None ->
        Graph._filter_interaction self df target ctd
        = Graph.Raises (Graph.KeyError source_graph_id))
  /\ (forall value source e,
        Graph.ctd_value (Graph.clickData ctd) = Some value ->
        Graph.model_manager !! source_graph_id = Some source ->
        Graph.__getitem__ source (str "custom_data") = Graph.Raises e ->
        Graph._filter_interaction self df target ctd
        = Graph.Raises (if Graph.is_KeyError e
                        then Graph.KeyError_custom_data source_graph_id else e)).
Proof.
  intros source_graph_id. unfold Graph._filter_interaction. split; [|split].
  - now intros ->.
  - intros value -> Hs. cbv zeta. unfold Graph.model_manager_getitem.
    fold source_graph_id. now rewrite Hs.
  - intros value source e -> Hs He. cbv zeta. unfold Graph.model_manager_getitem.
    fold source_graph_id. rewrite Hs. cbn [Graph.and_then]. rewrite He.
    now destruct (Graph.is_KeyError e).
Qed.

(** X19: with a click and the lookups done, when no action of the source
    graph is a [filter_interaction] on the target, the data frame is
    returned as it is: the columns of [custom_data] need not exist in it and
    the click may carry fewer values than there are columns. *)
Theorem filter_interaction_without_action self df target (ctd : @Graph.FilterInteraction Value)
    value source custom_data point clicked :
  Graph.ctd_value (Graph.clickData ctd) = Some value ->
  Graph.model_manager !! Graph.ctd_id (Graph.clickData ctd) = Some source ->
  Graph.__getitem__ source (str "custom_data") = Graph.Returns custom_data ->
  nth_error (Graph.points value) 0 = Some point ->
  Graph.customdata point = Some clicked ->
  (forall action, In action (Graph._get_component_actions source) ->
                  Graph.applies target action = Graph.Returns false) ->
  Graph._filter_interaction self df target ctd = Graph.Returns df.
Proof.
  intros Hvalue Hs Hc Hp Hk Hnone.
  unfold Graph._filter_interaction. rewrite Hvalue. cbv zeta.
  unfold Graph.model_manager_getitem. rewrite Hs. cbn [Graph.and_then].
  rewrite Hc. cbn [Graph.and_then]. unfold Graph.list_getitem. rewrite Hp.
  cbn [Graph.and_then]. rewrite Hk. cbn [Graph.and_then].
  induction (Graph._get_component_actions source) as [|action later IH];
    [reflexivity|].
  cbn [Graph.filter_actions]. rewrite (Hnone action) by now left.
  cbn [Graph.and_then]. apply IH. intros a Ha. apply Hnone. now right.
Qed.

End GraphComponentFacts.

(** ** The theorems on the stubs of the vizro-core models *)

(** X9 at an action with two inputs and one output. *)
Lemma callback_mapping_of_references_witness :
  Action.Action_new (str "echo") (Action.CapturedCallable echo)
    [str "dropdown.value"; str "slider.value"] [str "card.children"]
  = Ok (echo_action [str "card.children"])
  /\ exists states outputs,
       Action._get_callback_mapping (echo_action [str "card.children"])
       = Ok (Action.DepList states,
             match outputs with
             | [single] => Action.OutputSingle single
             | _ => Action.OutputList outputs
             end,
             [])
       /\ List.map Action.state_reference states
          = [str "dropdown.value"; str "slider.value"]
       /\ List.map Action.output_reference outputs = [str "card.children"].
Proof.
  split; [reflexivity|].
  destruct (callback_mapping_of_references (Component := unit) (str "echo") echo
              [str "dropdown.value"; str "slider.value"] [str "card.children"]
              (echo_action [str "card.children"]) eq_refl)
    as (states & outputs & Hmap & Hins & Houts & _).
  exists states, outputs. split; [exact Hmap|]. split; [exact Hins|exact Houts].
Defined.

(** X11 at the same function with two outputs: when the registration is
    accepted, three returned elements are refused and two are handed on;
    when it is refused, [build] raises. *)
Lemma built_callback_accepts_witness :
  Action.Action_new (str "echo") (Action.CapturedCallable echo)
    [str "dropdown.value"; str "slider.value"] [str "card.children"; str "graph.figure"]
  = Ok (echo_action [str "card.children"; str "graph.figure"])
  /\ (exists cb div,
        Action.build registers (echo_action [str "card.children"; str "graph.figure"])
        = Ok (cb, div)
        /\ Action.callback_wrapper cb (Action.Positional [7; 8]%nat)
           = Ok {| Action.external := Some (Action.PySized [7; 8]%nat) |}
        /\ exists msg,
             Action.callback_wrapper cb (Action.Positional [7; 8; 9]%nat)
             = Raise (ValueError msg))
  /\ Action.build refuses (echo_action [str "card.children"; str "graph.figure"])
     = Raise (DashException "InvalidComponentIdError").
Proof.
  split; [reflexivity|]. split.
  - destruct (built_callback_accepts (Component := unit) registers (str "echo") echo
                [str "dropdown.value"; str "slider.value"]
                [str "card.children"; str "graph.figure"]
                (echo_action [str "card.children"; str "graph.figure"]) eq_refl)
      as (cb & div & Hbuild & _ & _ & _ & _ & Hwrap).
    exists cb, div. split; [exact Hbuild|]. split.
    + apply (Hwrap (Action.Positional [7; 8]%nat)). reflexivity.
    + apply (Hwrap (Action.Positional [7; 8; 9]%nat)). discriminate.
  - destruct (built_callback_accepts (Component := unit) refuses (str "echo") echo
                [str "dropdown.value"; str "slider.value"]
                [str "card.children"; str "graph.figure"]
                (echo_action [str "card.children"; str "graph.figure"]) eq_refl)
      as (cb & div & Hbuild & _).
    exact Hbuild.
Defined.

(** X14 at the scatter chart. *)
Lemma call_returns_optimised_witness :
  Graph.__call__ (surroundings := dashboard_stub) scatter_chart ∅
  = Graph.Returns
      (Graph._optimise_fig_layout_for_dashboard (surroundings := dashboard_stub)
         titled_figure)
  /\ Graph._optimise_fig_layout_for_dashboard (surroundings := dashboard_stub)
       (Graph._optimise_fig_layout_for_dashboard (surroundings := dashboard_stub)
          titled_figure)
     = Graph._optimise_fig_layout_for_dashboard (surroundings := dashboard_stub)
         titled_figure.
Proof.
  split; [reflexivity|].
  apply (call_returns_optimised (surroundings := dashboard_stub) scatter_chart ∅).
  reflexivity.
Defined.

(** X15 at the chart whose data source is not registered, called with a
    data frame. *)
Lemma call_loads_default_first_witness :
  Graph.__getitem__ (surroundings := dashboard_stub) plain_chart (str "data_frame")
  = Graph.Returns (Graph.ArgStr (str "iris"))
  /\ ({[ str "data_frame" := Graph.KwFrame gapminder ]}
        : gmap (list N) (@Graph.KwValue nat)) !! str "data_frame"
     = Some (Graph.KwFrame gapminder)
  /\ Graph.data_manager_load (Surroundings := dashboard_stub) (str "iris")
     = Graph.Raises (Graph.KeyError (str "iris"))
  /\ Graph.__call__ (surroundings := dashboard_stub) plain_chart
       {[ str "data_frame" := Graph.KwFrame gapminder ]}
     = Graph.Raises (Graph.KeyError (str "iris")).
Proof.
  assert (Hkw : ({[ str "data_frame" := Graph.KwFrame gapminder ]}
                   : gmap (list N) (@Graph.KwValue nat)) !! str "data_frame"
                = Some (Graph.KwFrame gapminder)) by apply lookup_insert_eq.
  split; [reflexivity|]. split; [exact Hkw|]. split; [reflexivity|].
  apply (call_loads_default_first (surroundings := dashboard_stub) plain_chart
           {[ str "data_frame" := Graph.KwFrame gapminder ]} (str "iris")
           (Graph.KwFrame gapminder) eq_refl Hkw).
  reflexivity.
Defined.

(** X16 at a click on continent 1 of the scatter chart, filtering the data
    of [table]. *)
Lemma filter_interaction_selects_witness :
  Graph._filter_interaction (surroundings := dashboard_stub) scatter_chart gapminder
    (str "table") (click_on (str "scatter_chart"))
  = Graph.Returns gapminder_continent_1
  /\ Graph.columns gapminder_continent_1 = Graph.columns gapminder.
Proof.
  assert (H : Graph._filter_interaction (surroundings := dashboard_stub) scatter_chart
                gapminder (str "table") (click_on (str "scatter_chart"))
              = Graph.Returns gapminder_continent_1) by reflexivity.
  split; [exact H|].
  apply (filter_interaction_selects (surroundings := dashboard_stub) scatter_chart gapminder
           (str "table") (click_on (str "scatter_chart")) gapminder_continent_1 H).
Defined.

(** X17 at the same click. *)
Lemma filter_interaction_idempotent_witness :
  Graph._filter_interaction (surroundings := dashboard_stub) scatter_chart gapminder
    (str "table") (click_on (str "scatter_chart"))
  = Graph.Returns gapminder_continent_1
  /\ Graph._filter_interaction (surroundings := dashboard_stub) scatter_chart
       gapminder_continent_1 (str "table") (click_on (str "scatter_chart"))
     = Graph.Returns gapminder_continent_1.
Proof.
  assert (H : Graph._filter_interaction (surroundings := dashboard_stub) scatter_chart
                gapminder (str "table") (click_on (str "scatter_chart"))
              = Graph.Returns gapminder_continent_1) by reflexivity.
  split; [exact H|].
  apply (filter_interaction_idempotent (surroundings := dashboard_stub) scatter_chart
           gapminder (str "table") (click_on (str "scatter_chart")) _ H).
Defined.

(** X18 without click on a chart that is not registered, with a click on
    it, and with a click on the chart without [custom_data]. *)
Lemma filter_interaction_lookups_witness :
  Graph._filter_interaction (surroundings := dashboard_stub) scatter_chart gapminder
    (str "table") (no_click (str "unknown_chart"))
  = Graph.Returns gapminder
  /\ Graph._filter_interaction (surroundings := dashboard_stub) scatter_chart gapminder
       (str "table") (click_on (str "unknown_chart"))
     = Graph.Raises (Graph.KeyError (str "unknown_chart"))
  /\ Graph._filter_interaction (surroundings := dashboard_stub) scatter_chart gapminder
       (str "table") (click_on (str "plain_chart"))
     = Graph.Raises (Graph.KeyError_custom_data (str "plain_chart")).
Proof.
  split; [|split].
  - pose proof (filter_interaction_lookups (surroundings := dashboard_stub) scatter_chart
                  gapminder (str "table") (no_click (str "unknown_chart"))) as H.
    cbv zeta in H. destruct H as (H & _). apply H. reflexivity.
  - pose proof (filter_interaction_lookups (surroundings := dashboard_stub) scatter_chart
                  gapminder (str "table") (click_on (str "unknown_chart"))) as H.
    cbv zeta in H. destruct H as (_ & H & _).
    apply (H _ eq_refl). vm_compute. reflexivity.
  - pose proof (filter_interaction_lookups (surroundings := dashboard_stub) scatter_chart
                  gapminder (str "table") (click_on (str "plain_chart"))) as H.
    cbv zeta in H. destruct H as (_ & _ & H).
    apply (H _ plain_chart (Graph.KeyError (str "custom_data")) eq_refl).
    + vm_compute. reflexivity.
    + reflexivity.
Defined.

(** X19 at a target that the filter interaction of the scatter chart does
    not name. *)
Lemma filter_interaction_without_action_witness :
  (forall action,
     In action (Graph._get_component_actions (Surroundings := dashboard_stub) scatter_chart) ->
     Graph.applies (surroundings := dashboard_stub) (str "map") action
     = Graph.Returns false)
  /\ Graph._filter_interaction (surroundings := dashboard_stub) scatter_chart gapminder
       (str "map") (click_on (str "scatter_chart"))
     = Graph.Returns gapminder.
Proof.
  assert (H : forall action,
            In action (Graph._get_component_actions (Surroundings := dashboard_stub)
                         scatter_chart) ->
            Graph.applies (surroundings := dashboard_stub) (str "map") action
            = Graph.Returns false).
  { intros action [<- | [<- | []]]; reflexivity. }
  split; [exact H|].
  apply (filter_interaction_without_action (surroundings := dashboard_stub) scatter_chart
           gapminder (str "map") (click_on (str "scatter_chart"))
           _ scatter_chart (Graph.ArgNames [str "continent"])
           {| Graph.customdata := Some [1%nat] |} [1%nat]
           eq_refl eq_refl eq_refl eq_refl eq_refl H).
Defined.
